(** * ptb.train.train: the training orchestrator and the epoch runner

    A shallow embedding of [src/ptb/train/train.py] ([train_classifier] and
    [one_epoch]) and the properties of its specification.

    Conventions of the embedding.
    - Python floats and tensor entries are values of [num]: exact rationals
      extended with the two infinities and NaN.  Rounding, overflow,
      underflow and signed zeros are not modelled; where a property of the
      specification depends on them, the lines concerned are given over
      binary64 numbers as well (module [Binary64]).
    - Python integers are [Z]; [//] and [%] are [Z.div] and [Z.modulo].
    - Tensors are lists ([Tensor]) and lists of rows ([Matrix]); a batch of
      inputs is a list of examples, so [inputs.size(0)] is its length.
    - Mutation is explicit state passing: a pass threads a [Pass], a run a
      [Run].  Exceptions are the left results of the computations [M] of a
      run; what a run prints, the calls of [process], [torch.load] and
      [torch.save] and the writes to the summary writer are the events of
      its [out].
    - What the module imports (torch, pathlib, the loaders, the models, the
      helpers of [ptb.train.utils] and [ptb.models.utils]) is gathered in
      the class [Collaborators]; the files are a map from paths to [File],
      which holds what a run loads and saves with torch and not the files
      that the summary writer keeps under the log directory.
    - The exceptions [exn] are named after the class that the usual case
      raises; a file that is no checkpoint makes the resume step raise,
      with a class that depends on the file.
    - Moving tensors to a device, [manual_seed] and
      [torch.set_grad_enabled] leave the values that the properties are
      about and have no counterpart. *)

From Stdlib Require Import ZArith QArith Qabs List String Bool Lia Lqa.
From Stdlib Require SpecFloat.
From stdpp Require Import gmap strings.
Import ListNotations.

Open Scope Z_scope.

(** ** Numbers *)

Inductive num : Type :=
| Fin (q : Q)
| PInf
| NInf
| NaN.

Definition is_nan (x : num) : bool :=
  match x with NaN => true | _ => false end.

Definition num_of_Z (z : Z) : num := Fin (inject_Z z).

(** The sign of a number that is not NaN. *)
Definition nsign (x : num) : comparison :=
  match x with
  | Fin q => (q ?= 0)%Q
  | PInf => Gt
  | NInf => Lt
  | NaN => Eq
  end.

Definition signed_inf (s : comparison) : num :=
  match s with Gt => PInf | Lt => NInf | Eq => NaN end.

Definition sign_mul (s t : comparison) : comparison :=
  match s, t with
  | Eq, _ | _, Eq => Eq
  | Gt, Gt | Lt, Lt => Gt
  | _, _ => Lt
  end.

Definition nopp (x : num) : num :=
  match x with
  | Fin q => Fin (- q)
  | PInf => NInf
  | NInf => PInf
  | NaN => NaN
  end.

Definition nadd (x y : num) : num :=
  match x, y with
  | NaN, _ | _, NaN => NaN
  | Fin a, Fin b => Fin (a + b)
  | PInf, NInf | NInf, PInf => NaN
  | PInf, _ | _, PInf => PInf
  | NInf, _ | _, NInf => NInf
  end.

Definition nsub (x y : num) : num := nadd x (nopp y).

Definition nmul (x y : num) : num :=
  match x, y with
  | NaN, _ | _, NaN => NaN
  | Fin a, Fin b => Fin (a * b)
  | _, _ => signed_inf (sign_mul (nsign x) (nsign y))
  end.

(** Division of tensors: a zero divisor gives an infinity or NaN. *)
Definition ndiv (x y : num) : num :=
  match x, y with
  | NaN, _ | _, NaN => NaN
  | Fin a, Fin b =>
      if Qeq_bool b 0 then signed_inf (nsign x) else Fin (a / b)
  | Fin _, _ => Fin 0
  | _, Fin b =>
      if Qeq_bool b 0 then x else signed_inf (sign_mul (nsign x) (nsign y))
  | _, _ => NaN
  end.

(** Division of Python floats: a zero divisor raises [ZeroDivisionError]. *)
Definition pydiv (x y : num) : option num :=
  match y with
  | Fin b => if Qeq_bool b 0 then None else Some (ndiv x y)
  | _ => Some (ndiv x y)
  end.

Definition nabs (x : num) : num :=
  match x with
  | Fin q => Fin (Qabs q)
  | PInf | NInf => PInf
  | NaN => NaN
  end.

(** Comparison; [None] when an operand is NaN. *)
Definition ncompare (x y : num) : option comparison :=
  match x, y with
  | NaN, _ | _, NaN => None
  | Fin a, Fin b => Some (a ?= b)%Q
  | PInf, PInf | NInf, NInf => Some Eq
  | PInf, _ | _, NInf => Some Gt
  | NInf, _ | _, PInf => Some Lt
  end.

Definition ngt (x y : num) : bool :=
  match ncompare x y with Some Gt => true | _ => false end.

Definition nge (x y : num) : bool :=
  match ncompare x y with Some Gt | Some Eq => true | _ => false end.

Definition neqb (x y : num) : bool :=
  match ncompare x y with Some Eq => true | _ => false end.

Definition nne (x y : num) : bool := negb (neqb x y).

(** [torch.max] of two entries: NaN propagates. *)
Definition nmax (x y : num) : num :=
  match ncompare x y with
  | None => NaN
  | Some Lt => y
  | Some _ => x
  end.

Definition is_zero (x : num) : bool := neqb x (Fin 0).

(** Two numbers denote the same value. *)
Definition num_same (x y : num) : Prop :=
  match x, y with
  | Fin a, Fin b => (a == b)%Q
  | PInf, PInf | NInf, NInf | NaN, NaN => True
  | _, _ => False
  end.

Definition Tensor : Type := list num.
Definition Matrix : Type := list (list num).

(** A Python [dict]: keys in insertion order, each key once. *)
Definition dict (V : Type) : Type := list (string * V).

Fixpoint dict_get {V} (d : dict V) (k : string) : option V :=
  match d with
  | [] => None
  | (k', v) :: d' => if String.eqb k' k then Some v else dict_get d' k
  end.

(** [d[k] = v]: an existing key keeps its position. *)
Fixpoint dict_set {V} (d : dict V) (k : string) (v : V) : dict V :=
  match d with
  | [] => [(k, v)]
  | (k', v') :: d' =>
      if String.eqb k' k then (k, v) :: d' else (k', v') :: dict_set d' k v
  end.

Definition dict_of_pairs {V} (kvs : list (string * V)) : dict V :=
  fold_left (fun d kv => dict_set d (fst kv) (snd kv)) kvs [].

Definition keys {V} (d : dict V) : list string := map fst d.
Definition values {V} (d : dict V) : list V := map snd d.

(** Python's [zip]: stops at the shorter list. *)
Definition zip {A B} (xs : list A) (ys : list B) : list (A * B) := combine xs ys.

(** ** The metric aggregator *)

Module AverageMeter.

(** Modelled from the spec: the class [AverageMeter] of [ptb.train.utils],
    which is not part of the sources.  A metric is a name, a display
    format, a running sum and a running count; [update] adds
    [value * weight] to the sum and [weight] to the count; the average is
    the sum over the count, and zero while the count is zero. *)
Record t : Type := make {
  name : string;
  fmt : string;
  sum : num;
  count : Z;
}.

Definition new (name fmt : string) : t :=
  {| name := name; fmt := fmt; sum := Fin 0; count := 0 |}.

Definition update (m : t) (val : num) (n : Z) : t :=
  {| name := name m; fmt := fmt m;
     sum := nadd (sum m) (nmul val (num_of_Z n));
     count := count m + n |}.

Definition avg (m : t) : num :=
  if count m =? 0 then Fin 0 else ndiv (sum m) (num_of_Z (count m)).

End AverageMeter.

(** ** Models, optimizers and the collaborators *)

(** A batch of inputs: one tensor per example. *)
Definition Inputs : Type := list Tensor.
(** The class index of each example. *)
Definition Targets : Type := list Z.
Definition Batch : Type := (Inputs * Targets)%type.

(** [nn.DataParallel] wrapping, which renames the entries of [state_dict()]. *)
Inductive Parallel : Type :=
| NotParallel
| FeaturesParallel   (* net.features = nn.DataParallel(net.features, ...) *)
| WholeParallel.     (* net = nn.DataParallel(net, ...) *)

Record Net : Type := {
  weights : dict Tensor;     (* the entries of the model's state, by name *)
  grads : dict Tensor;       (* the [.grad] of the parameters *)
  training : bool;           (* train / eval mode *)
  parallel : Parallel;
}.

Definition set_weights (w : dict Tensor) (n : Net) : Net :=
  {| weights := w; grads := grads n; training := training n;
     parallel := parallel n |}.

(** [net.train(mode)] *)
Definition train (mode : bool) (n : Net) : Net :=
  {| weights := weights n; grads := grads n; training := mode;
     parallel := parallel n |}.

Definition data_parallel (p : Parallel) (n : Net) : Net :=
  {| weights := weights n; grads := grads n; training := training n;
     parallel := p |}.

Definition wrap_key (p : Parallel) (k : string) : string :=
  match p with
  | NotParallel => k
  | WholeParallel => "module." ++ k
  | FeaturesParallel =>
      if String.prefix "features." k
      then "features.module." ++ substring 9 (String.length k - 9) k
      else k
  end%string.

(** [net.state_dict()] *)
Definition state_dict (n : Net) : dict Tensor :=
  map (fun kv => (wrap_key (parallel n) (fst kv), snd kv)) (weights n).

Definition same_keys (ks ks' : list string) : bool :=
  forallb (fun k => existsb (String.eqb k) ks') ks
  && forallb (fun k => existsb (String.eqb k) ks) ks'.

Definition same_shape (d : dict Tensor) (kv : string * Tensor) : bool :=
  match dict_get d (fst kv) with
  | Some v => (length v =? length (snd kv))%nat
  | None => false
  end.

(** [net.load_state_dict(sd)], strict: the names must be those of the model
    and the shapes must agree, otherwise a [RuntimeError] is raised
    ([None]); what the model holds after a refusal is not described. *)
Definition load_state_dict (sd : dict Tensor) (n : Net) : option Net :=
  if same_keys (keys (state_dict n)) (keys sd)
     && forallb (same_shape sd) (state_dict n)
  then Some (set_weights
               (map (fun kv =>
                       (fst kv,
                        match dict_get sd (wrap_key (parallel n) (fst kv)) with
                        | Some v => v
                        | None => snd kv
                        end)) (weights n)) n)
  else None.

Record ParamGroup : Type := {
  lr : num;
  momentum : num;
  weight_decay : num;
}.

Definition set_group_lr (x : num) (g : ParamGroup) : ParamGroup :=
  {| lr := x; momentum := momentum g; weight_decay := weight_decay g |}.

(** The state of an optimizer, which is also its [state_dict()]. *)
Record Optimizer : Type := {
  param_groups : list ParamGroup;
  buffers : dict Tensor;      (* the momentum buffers *)
}.

(** [torch.optim.SGD(params, lr, momentum=..., weight_decay=...)] *)
Definition SGD (learning_rate momentum weight_decay : num) : Optimizer :=
  {| param_groups := [ {| lr := learning_rate; momentum := momentum;
                          weight_decay := weight_decay |} ];
     buffers := [] |}.

(** [optimizer.load_state_dict(sd)]: a [ValueError] ([None]) when the number
    of parameter groups differs. *)
Definition optimizer_load_state_dict (sd o : Optimizer) : option Optimizer :=
  if (length (param_groups sd) =? length (param_groups o))%nat
  then Some sd else None.

(** What [optimizer.step(closure)] does, as a program over the model and the
    optimizer state that may evaluate the closure any number of times. *)
Inductive OptProg : Type :=
| Ret
| Get (k : Net * Optimizer -> OptProg)
| Put (w : Net * Optimizer) (k : OptProg)
| Call (k : num -> OptProg).

(** The bounds of [propagate_bounds]; only [offset] is read. *)
Record Bounds : Type := { offset : Matrix }.

Record Loader : Type := {
  norm_mean : list num;      (* dataset.transform.transforms[-1].mean *)
  norm_std : list num;       (* dataset.transform.transforms[-1].std *)
  batches : nat -> list Batch;  (* the batches of the i-th pass of the run *)
}.

Class Collaborators : Type := {
  (** [time()], by the number of earlier readings *)
  time : nat -> num;
  (** [net(inputs)] *)
  forward : Net -> Inputs -> Matrix;
  (** [optimizer.zero_grad()] *)
  zero_grad : Net -> Net;
  (** [loss.backward()] for the loss of a batch *)
  backward : Net -> Inputs -> Targets -> num -> Net;
  (** [ptb.models.utils.propagate_bounds] *)
  propagate_bounds : Net -> Inputs -> num -> Bounds;
  (** [ptb.train.utils.bounds_logits] *)
  bounds_logits : Matrix -> Matrix -> Targets -> Matrix;
  (** [ptb.train.utils.compute_accuracy] with [top_k=(1, 5)], as floats *)
  compute_accuracy : Matrix -> Targets -> num * num;
  (** [!=] on two [AverageMeter] objects *)
  meter_ne : AverageMeter.t -> AverageMeter.t -> bool;
  (** [nn.CrossEntropyLoss()] *)
  CrossEntropyLoss : Matrix -> Targets -> num;
  (** the update of [torch.optim.SGD.step] for one parameter group *)
  sgd_update : ParamGroup -> Net * dict Tensor -> Net * dict Tensor;
  (** [pathlib.Path]: the normal form of a path string *)
  Path : string -> string;
  (** [ptb.train.utils.get_device_order] *)
  get_device_order : list nat;
  (** [ptb.datasets.get_loader(dataset, train, batch_size, cuda, jobs)] *)
  get_loader : string -> bool -> Z -> bool -> Z -> Loader;
  (** [ptb.models.get_model(model, pretrained)] *)
  get_model : string -> bool -> Net;
  (** [ptb.models.fit_to_dataset(net, dataset)] *)
  fit_to_dataset : Net -> string -> Net;
  (** whether [torch.save] can write at a path *)
  writable : string -> bool;
}.

(** ** [one_epoch] *)

(** What a pass mutates: the model, the optimizer, the clock and the five
    meters. *)
Record Pass : Type := {
  p_net : Net;
  p_optimizer : Optimizer;
  p_clock : nat;             (* readings of [time()] so far *)
  batch_time : AverageMeter.t;
  data_time : AverageMeter.t;
  losses : AverageMeter.t;
  top1 : AverageMeter.t;
  top5 : AverageMeter.t;
}.

Definition set_world (w : Net * Optimizer) (s : Pass) : Pass :=
  {| p_net := fst w; p_optimizer := snd w; p_clock := p_clock s;
     batch_time := batch_time s; data_time := data_time s;
     losses := losses s; top1 := top1 s; top5 := top5 s |}.

Definition set_net (n : Net) (s : Pass) : Pass :=
  set_world (n, p_optimizer s) s.

Definition set_batch_time (m : AverageMeter.t) (s : Pass) : Pass :=
  {| p_net := p_net s; p_optimizer := p_optimizer s; p_clock := p_clock s;
     batch_time := m; data_time := data_time s;
     losses := losses s; top1 := top1 s; top5 := top5 s |}.

Definition set_data_time (m : AverageMeter.t) (s : Pass) : Pass :=
  {| p_net := p_net s; p_optimizer := p_optimizer s; p_clock := p_clock s;
     batch_time := batch_time s; data_time := m;
     losses := losses s; top1 := top1 s; top5 := top5 s |}.

(** The three updates of [compute_loss]. *)
Definition record_metrics (loss acc1 acc5 : num) (n : Z) (s : Pass) : Pass :=
  {| p_net := p_net s; p_optimizer := p_optimizer s; p_clock := p_clock s;
     batch_time := batch_time s; data_time := data_time s;
     losses := AverageMeter.update (losses s) loss n;
     top1 := AverageMeter.update (top1 s) acc1 n;
     top5 := AverageMeter.update (top5 s) acc5 n |}.

(** [.max(1).values] of one row.  torch rejects a row without entries;
    logits have one entry per class, and the empty row is given [NInf]. *)
Definition row_max (row : list num) : num :=
  match row with
  | [] => NInf
  | x :: row' => fold_left nmax row' x
  end.

(** [logits.abs().max(1).values.view(-1, 1)] *)
Definition abs_max (logits : Matrix) : list num :=
  map (fun row => row_max (map nabs row)) logits.

(** [temperature * max_abs_logits] *)
Definition scale (temperature : num) (max_abs_logits : list num) : list num :=
  map (nmul temperature) max_abs_logits.

(** [logits / divisor], the column [divisor] broadcast along each row *)
Definition div_rows (logits : Matrix) (divisor : list num) : Matrix :=
  map (fun rd => map (fun x => ndiv x (snd rd)) (fst rd)) (zip logits divisor).

Section OneEpoch.

Context `{Collaborators}.

Variable criterion : Matrix -> Targets -> num.
Variable optimizer : option OptProg.      (* [None], or the [step] of the optimizer *)
Variable preporcess : Batch -> Batch.
Variables epsilon factor temperature : num.

Definition is_training : bool :=
  match optimizer with Some _ => true | None => false end.

(** The loss with the bounds term, on the output of the model. *)
Definition bounds_loss (net : Net) (inputs : Inputs) (targets : Targets)
    (output : Matrix) (loss : num) : num :=
  let bounds := propagate_bounds net inputs epsilon in
  let logits := bounds_logits output (offset bounds) targets in
  let max_abs_logits := abs_max logits in
  let logits := div_rows logits (scale temperature max_abs_logits) in
  nadd loss (nmul factor (criterion logits targets)).

Definition compute_loss (inputs : Inputs) (targets : Targets)
    (update_metrics : bool) (s : Pass) : num * Pass :=
  (* compute output *)
  let output := forward (p_net s) inputs in
  let loss := criterion output targets in
  (* compute bounds loss *)
  let loss :=
    if ngt epsilon (Fin 0) && ngt factor (Fin 0)
    then bounds_loss (p_net s) inputs targets output loss
    else loss in
  (* measure accuracy and record loss *)
  let s :=
    if update_metrics
    then let n := Z.of_nat (length inputs) in
         let '(acc1, acc5) := compute_accuracy output targets in
         record_metrics loss acc1 acc5 n s
    else s in
  (* compute gradient *)
  let s :=
    if is_training
    then set_net (backward (zero_grad (p_net s)) inputs targets loss) s
    else s in
  (loss, s).

(** The closure of a batch, with its [first_time] flag as state. *)
Definition closure (inputs : Inputs) (targets : Targets)
    (st : bool * Pass) : num * (bool * Pass) :=
  let '(first_time, s) := st in
  let '(loss, s) := compute_loss inputs targets first_time s in
  (loss, (false, s)).

(** [optimizer.step(closure)] *)
Fixpoint step (p : OptProg) (closure : bool * Pass -> num * (bool * Pass))
    (st : bool * Pass) : bool * Pass :=
  match p with
  | Ret => st
  | Get k => step (k (p_net (snd st), p_optimizer (snd st))) closure st
  | Put w k => step k closure (fst st, set_world w (snd st))
  | Call k => let '(loss, st) := closure st in step (k loss) closure st
  end.

Definition read_clock (s : Pass) : num * Pass :=
  (time (p_clock s),
   {| p_net := p_net s; p_optimizer := p_optimizer s;
      p_clock := S (p_clock s);
      batch_time := batch_time s; data_time := data_time s;
      losses := losses s; top1 := top1 s; top5 := top5 s |}).

(** The body of [for inputs, targets in train_loader]; [end_] is the
    variable [end]. *)
Definition one_batch (st : num * Pass) (batch : Batch) : num * Pass :=
  let '(end_, s) := st in
  (* measure data loading time *)
  let '(now, s) := read_clock s in
  let s := set_data_time (AverageMeter.update (data_time s) (nsub now end_) 1) s in
  (* move data to device *)
  let '(inputs, targets) := preporcess batch in
  let first_time := true in
  let '(_, s) :=
    match optimizer with
    | Some p => step p (closure inputs targets) (first_time, s)
    | None => snd (closure inputs targets (first_time, s))
    end in
  (* measure elapsed time *)
  let '(now, s) := read_clock s in
  let s := set_batch_time (AverageMeter.update (batch_time s) (nsub now end_) 1) s in
  read_clock s.

Definition fresh_pass (net : Net) (o : Optimizer) (clock : nat) : Pass :=
  {| p_net := train is_training net; p_optimizer := o; p_clock := clock;
     batch_time := AverageMeter.new "Time/BatchTotal" ":6.3f";
     data_time := AverageMeter.new "Time/BatchData" ":6.3f";
     losses := AverageMeter.new "Loss" ":.4e";
     top1 := AverageMeter.new "Acc@1" ":6.2f";
     top5 := AverageMeter.new "Acc@5" ":6.2f" |}.

(** The pass over the batches, up to the [return]. *)
Definition run_batches (train_loader : list Batch) (net : Net)
    (o : Optimizer) (clock : nat) : Pass :=
  let s := fresh_pass net o clock in
  let st := read_clock s in
  snd (fold_left one_batch train_loader st).

Definition progress_of (s : Pass) : dict AverageMeter.t :=
  dict_of_pairs
    (map (fun x => (AverageMeter.name x, x))
         [batch_time s; data_time s; losses s; top1 s; top5 s]).

(** Perform one training epoch: the returned mapping, and the model, the
    optimizer and the clock after the pass. *)
Definition one_epoch (train_loader : list Batch) (net : Net)
    (o : Optimizer) (clock : nat)
    : dict AverageMeter.t * (Net * Optimizer * nat) :=
  let s := run_batches train_loader net o clock in
  (progress_of s, (p_net s, p_optimizer s, p_clock s)).

End OneEpoch.

(** ** [train_classifier] *)

Module Checkpoint.
(** The dictionary given to [torch.save]. *)
Record t : Type := make {
  epoch : Z;
  state_dict : dict Tensor;
  best_acc1 : num;
  optimizer : Optimizer;
}.
End Checkpoint.

Inductive File : Type :=
| CheckpointFile (state : Checkpoint.t)
| OtherFile          (* a file from which the resume step reads no checkpoint *)
| Directory.

Inductive exn : Type :=
| ZeroDivisionError
| KeyError
| OSError            (* [torch.save] at a path that cannot be written *)
| UnpicklingError    (* resuming from a file that is no checkpoint *)
| RuntimeError       (* [net.load_state_dict] *)
| ValueError.        (* [optimizer.load_state_dict] *)

Inductive Message : Type :=
| using_gpus (n : nat)
| using_pretrained_model (model : string)
| creating_model (model : string)
| loading_checkpoint (resume : string)
| loaded_checkpoint (resume : string) (epoch : Z)
| no_checkpoint_found (resume : string)
| test_line (val_loss val_acc : AverageMeter.t)
| epoch_line (epoch1 : Z) (lr : num)
    (train_loss train_acc val_loss val_acc : AverageMeter.t)
| training_stopped_nan.

(** What a run does to the outside, in order. *)
Inductive Event : Type :=
| print (m : Message)
| process_pass (is_training : bool) (lrs : list num)
    (progress : dict AverageMeter.t)
    (* a call of [process]: the learning rates of the optimizer at the call
       and the returned mapping *)
| torch_load (path : string)
| torch_save (state : Checkpoint.t) (path : string)
| add_graph
| add_scalar (tag : string) (value : num) (global_step : Z)
| writer_close.

Record Config : Type := {
  evaluate_only : bool;
  dataset : string;
  model : string;
  pretrained : bool;
  learning_rate : num;
  cfg_momentum : num;
  cfg_weight_decay : num;
  cfg_epsilon : num;
  cfg_factor : num;
  cfg_temperature : num;
  epochs : Z;
  batch_size : Z;
  jobs : Z;
  checkpoint : option string;
  resume : option string;
  log_dir : option string;
  seed : option Z;
}.

Record Run : Type := {
  net : Net;
  optimizer : Optimizer;
  files : gmap string File;
  clock : nat;               (* readings of [time()] so far *)
  passes : nat;              (* passes over a loader so far *)
  out : list Event;
}.

(** Computations of a run: a result or an exception, and the state. *)
Definition M (A : Type) : Type := Run -> (exn + A) * Run.

Definition ret {A} (a : A) : M A := fun s => (inr a, s).
Definition raise {A} (e : exn) : M A := fun s => (inl e, s).
Definition bind {A B} (c : M A) (k : A -> M B) : M B :=
  fun s => match c s with
           | (inl e, s') => (inl e, s')
           | (inr a, s') => k a s'
           end.

Notation "'let*' x ':=' c 'in' k" := (bind c (fun x => k))
  (at level 10, x name, c at level 100, k at level 200).

Definition emit (ev : Event) : M unit :=
  fun s => (inr tt,
            {| net := net s; optimizer := optimizer s; files := files s;
               clock := clock s; passes := passes s;
               out := out s ++ [ev] |}).

Definition get : M Run := fun s => (inr s, s).

Definition put_model (n : Net) (o : Optimizer) : M unit :=
  fun s => (inr tt,
            {| net := n; optimizer := o; files := files s;
               clock := clock s; passes := passes s; out := out s |}).

Definition of_option {A} (e : exn) (o : option A) : M A :=
  match o with Some a => ret a | None => raise e end.

(** [d[k]] *)
Definition getitem {V} (d : dict V) (k : string) : M V :=
  of_option KeyError (dict_get d k).

(** A string or [None] is true when it is a string that is not empty. *)
Definition truthy (o : option string) : bool :=
  match o with
  | Some s => negb (String.eqb s "")
  | None => false
  end.

Definition is_file (fs : gmap string File) (p : string) : bool :=
  match fs !! p with
  | Some (CheckpointFile _) | Some OtherFile => true
  | Some Directory | None => false
  end.

Fixpoint each {A} (f : A -> M unit) (xs : list A) : M unit :=
  match xs with
  | [] => ret tt
  | x :: xs' => let* _ := f x in each f xs'
  end.

(** [range(a, b)] *)
Definition range (a b : Z) : list Z :=
  map (fun i => a + Z.of_nat i) (seq 0 (Z.to_nat (b - a))).

(** How the body of the epoch loop ends. *)
Inductive Flow : Type :=
| Continue (lr best_acc1 : num)
| Break.

Section TrainClassifier.

Context `{Collaborators}.

Variable cfg : Config.

Definition get_lr (epoch : Z) : num :=
  nmul (learning_rate cfg) (Fin ((1 # 10) ^ (epoch / 30))).

(** [Path(p if p else '')]; [Path ""] is [Path()]. *)
Definition path_of (p : option string) : string :=
  Path (if truthy p then match p with Some s => s | None => "" end else "").

Definition resume_path : string := path_of (resume cfg).
Definition checkpoint_path : string := path_of (checkpoint cfg).

Definition devices : list nat := get_device_order.
Definition cuda : bool := (0 <? length devices)%nat.

Definition train_loader : Loader :=
  get_loader (dataset cfg) true (batch_size cfg) cuda (jobs cfg).
Definition val_loader : Loader :=
  get_loader (dataset cfg) false (batch_size cfg) cuda (jobs cfg).

(** [to_device]: moving tensors to the device leaves their values. *)
Definition to_device (b : Batch) : Batch := b.

(** [(1 - m) / s + m / s] *)
Definition channel_range (ms : num * num) : option num :=
  let '(m, s) := ms in
  match pydiv (nsub (Fin 1) m) s, pydiv m s with
  | Some a, Some b => Some (nadd a b)
  | _, _ => None
  end.

Fixpoint all_some {A} (xs : list (option A)) : option (list A) :=
  match xs with
  | [] => Some []
  | Some x :: xs' =>
      match all_some xs' with Some ys => Some (x :: ys) | None => None end
  | None :: _ => None
  end.

(** [sum(input_ranges) / len(input_ranges)] over the channels of the
    normalization of the training set; [None] is a [ZeroDivisionError]. *)
Definition input_range : option num :=
  match all_some (map channel_range
                    (zip (norm_mean train_loader) (norm_std train_loader))) with
  | Some input_ranges =>
      pydiv (fold_left nadd input_ranges (Fin 0))
            (num_of_Z (Z.of_nat (length input_ranges)))
  | None => None
  end.

(** [fit_to_dataset(get_model(model, pretrained), dataset).eval()] *)
Definition created_net : Net :=
  train false (fit_to_dataset (get_model (model cfg) (pretrained cfg)) (dataset cfg)).

(** The [step] of [torch.optim.SGD]: the closure is evaluated once, then
    every parameter group is updated. *)
Definition sgd_step : OptProg :=
  Call (fun _ =>
    Get (fun w =>
      let '(n, b) :=
        fold_left (fun nb g => sgd_update g nb)
                  (param_groups (snd w)) (fst w, buffers (snd w)) in
      Put (n, {| param_groups := param_groups (snd w); buffers := b |}) Ret)).

(** The closure [process] wrapping [one_epoch]. *)
Definition process (input_range : num) (loader : Loader)
    (with_optimizer : bool) : M (dict AverageMeter.t) :=
  fun s =>
    let '(progress, (n, o, c)) :=
      one_epoch CrossEntropyLoss
        (if with_optimizer then Some sgd_step else None)
        to_device
        (nmul (cfg_epsilon cfg) input_range) (cfg_factor cfg)
        (cfg_temperature cfg)
        (batches loader (passes s)) (net s) (optimizer s) (clock s) in
    (inr progress,
     {| net := n; optimizer := o; files := files s; clock := c;
        passes := S (passes s);
        out := out s ++ [process_pass with_optimizer
                           (map lr (param_groups (optimizer s))) progress] |}).

(** [torch.load(resume)] *)
Definition load (path : string) : M Checkpoint.t :=
  let* _ := emit (torch_load path) in
  let* s := get in
  match files s !! path with
  | Some (CheckpointFile state) => ret state
  | _ => raise UnpicklingError
  end.

(** [torch.save(state, checkpoint)] *)
Definition save (state : Checkpoint.t) (path : string) : M unit :=
  let* _ := emit (torch_save state path) in
  fun s =>
    match files s !! path with
    | Some Directory => (inl OSError, s)
    | _ =>
        if writable path
        then (inr tt,
              {| net := net s; optimizer := optimizer s;
                 files := <[path := CheckpointFile state]> (files s);
                 clock := clock s; passes := passes s; out := out s |})
        else (inl OSError, s)
    end.

(** Optionally resume from a checkpoint: [(start_epoch, best_acc1)]. *)
Definition resume_checkpoint : M (Z * num) :=
  let best_acc1 := Fin 0 in
  let start_epoch := 0 in
  let* s := get in
  if is_file (files s) resume_path then
    let* _ := emit (print (loading_checkpoint resume_path)) in
    let* state := load resume_path in
    let start_epoch := Checkpoint.epoch state in
    let best_acc1 := Checkpoint.best_acc1 state in
    let* n := of_option RuntimeError
                (load_state_dict (Checkpoint.state_dict state) (net s)) in
    let* _ := put_model n (optimizer s) in
    let* o := of_option ValueError
                (optimizer_load_state_dict (Checkpoint.optimizer state)
                   (optimizer s)) in
    let* _ := put_model n o in
    let* _ := emit (print (loaded_checkpoint resume_path
                             (Checkpoint.epoch state))) in
    ret (start_epoch, best_acc1)
  else if negb (String.eqb resume_path (Path "")) then
    let* _ := emit (print (no_checkpoint_found resume_path)) in
    ret (start_epoch, best_acc1)
  else ret (start_epoch, best_acc1).

(** DataParallel will divide and allocate batch_size to all GPUs. *)
Definition wrap_parallel : M unit :=
  if (1 <? length devices)%nat then
    let* s := get in
    if String.prefix "alexnet" (model cfg) || String.prefix "vgg" (model cfg)
    then put_model (data_parallel FeaturesParallel (net s)) (optimizer s)
    else put_model (data_parallel WholeParallel (net s)) (optimizer s)
  else ret tt.

(** [for param_group in optimizer.param_groups: param_group['lr'] = lr] *)
Definition set_lr (x : num) : M unit :=
  let* s := get in
  put_model (net s)
    {| param_groups := map (set_group_lr x) (param_groups (optimizer s));
       buffers := buffers (optimizer s) |}.

Definition log_scalars (epoch : Z) (lr : num)
    (train_progress val_progress : dict AverageMeter.t) : M unit :=
  let* _ := emit (add_scalar "Train/LearingRate" lr epoch) in
  let* _ := each (fun meter =>
              emit (add_scalar ("Train/" ++ AverageMeter.name meter)
                      (AverageMeter.avg meter) epoch))
            (values train_progress) in
  each (fun meter =>
          emit (add_scalar ("Test/" ++ AverageMeter.name meter)
                  (AverageMeter.avg meter) epoch))
       (values val_progress).

(** Remember best acc@1 and save checkpoint: the new [best_acc1]. *)
Definition remember_best (keys : list string) (epoch : Z)
    (val_acc : AverageMeter.t) (best_acc1 : num) : M num :=
  if nge (AverageMeter.avg val_acc) best_acc1 then
    let best_acc1 := AverageMeter.avg val_acc in
    let* _ :=
      if negb (String.eqb checkpoint_path (Path "")) then
        let* s := get in
        let parameters := values (state_dict (net s)) in
        save {| Checkpoint.epoch := epoch + 1;
                Checkpoint.state_dict := dict_of_pairs (zip keys parameters);
                Checkpoint.best_acc1 := best_acc1;
                Checkpoint.optimizer := optimizer s |}
             checkpoint_path
      else ret tt in
    ret best_acc1
  else ret best_acc1.

(** Decay the learning rate by 10 every 30 epochs: the new [lr]. *)
Definition decay_lr (epoch : Z) (lr : num) : M num :=
  if epoch mod 30 =? 0 then
    let lr := get_lr epoch in
    let* _ := set_lr lr in
    ret lr
  else ret lr.

(** The body of [for epoch in range(start_epoch, epochs)]. *)
Definition epoch_body (input_range : num) (keys : list string)
    (epoch : Z) (lr best_acc1 : num) : M Flow :=
  let* lr := decay_lr epoch lr in
  (* train for one epoch and evaluate on validation set *)
  let* train_progress := process input_range train_loader true in
  let* train_loss := getitem train_progress "Loss" in
  let* train_acc := getitem train_progress "Acc@1" in
  let* val_progress := process input_range val_loader false in
  let* val_loss := getitem val_progress "Loss" in
  let* val_acc := getitem val_progress "Acc@1" in
  let* _ := emit (print (epoch_line (epoch + 1) lr train_loss train_acc
                           val_loss val_acc)) in
  let* _ :=
    if truthy (log_dir cfg)
    then log_scalars epoch lr train_progress val_progress
    else ret tt in
  let* best_acc1 := remember_best keys epoch val_acc best_acc1 in
  if meter_ne train_loss train_loss then
    let* _ := emit (print training_stopped_nan) in
    ret Break
  else ret (Continue lr best_acc1).

Fixpoint epoch_loop (input_range : num) (keys : list string)
    (epochs : list Z) (lr best_acc1 : num) : M unit :=
  match epochs with
  | [] => ret tt
  | epoch :: epochs' =>
      let* flow := epoch_body input_range keys epoch lr best_acc1 in
      match flow with
      | Break => ret tt
      | Continue lr best_acc1 =>
          epoch_loop input_range keys epochs' lr best_acc1
      end
  end.

(** The state in which the body of [train_classifier] starts: the model
    and the optimizer as constructed, nothing printed. *)
Definition initial (fs : gmap string File) (clock : nat) : Run :=
  {| net := created_net;
     optimizer := SGD (learning_rate cfg) (cfg_momentum cfg)
                      (cfg_weight_decay cfg);
     files := fs; clock := clock; passes := 0; out := [] |}.

(** [train_classifier] from the wrapping in [nn.DataParallel] on, with the
    [start_epoch] and the [best_acc1] of the resume step. *)
Definition evaluate_and_train (input_range : num) (keys : list string)
    (start_epoch : Z) (best_acc1 : num) : M unit :=
  let* _ := wrap_parallel in
  (* evaluate the model before training *)
  let* progress := process input_range val_loader false in
  let* val_loss := getitem progress "Loss" in
  let* val_acc := getitem progress "Acc@1" in
  let* _ := emit (print (test_line val_loss val_acc)) in
  if evaluate_only cfg then ret tt
  else
    let* _ := if truthy (log_dir cfg) then emit add_graph else ret tt in
    let lr := get_lr start_epoch in
    let* _ := epoch_loop input_range keys (range start_epoch (epochs cfg))
                lr best_acc1 in
    if truthy (log_dir cfg) then emit writer_close else ret tt.

Definition train_classifier_body : M unit :=
  let* _ :=
    if (0 <? length devices)%nat
    then emit (print (using_gpus (length devices)))
    else ret tt in
  (* Data loading code *)
  let* input_range := of_option ZeroDivisionError input_range in
  (* create the model *)
  let* _ :=
    if pretrained cfg
    then emit (print (using_pretrained_model (model cfg)))
    else emit (print (creating_model (model cfg))) in
  let* s := get in
  let keys := keys (state_dict (net s)) in
  (* optionally resume from a checkpoint *)
  let* resumed := resume_checkpoint in
  let start_epoch := fst resumed in
  let best_acc1 := snd resumed in
  evaluate_and_train input_range keys start_epoch best_acc1.

(** Train and/or evaluate a network, from a file system and a clock. *)
Definition train_classifier (fs : gmap string File) (clock : nat)
    : (exn + unit) * Run :=
  train_classifier_body (initial fs clock).

End TrainClassifier.

(** ** Auxiliary definitions *)

(** A number that is positive or NaN: what a maximum of absolute values is
    as soon as one of them is not zero. *)
Definition pos_or_nan (x : num) : Prop :=
  x = NaN \/ ngt x (Fin 0) = true.

(** An absolute value: not negative. *)
Definition abs_value (x : num) : Prop :=
  x = NaN \/ nge x (Fin 0) = true.

(** *** What a pass records *)

(** The meters of a pass and its clock. *)
Definition meters (s : Pass) :=
  (batch_time s, data_time s, losses s, top1 s, top5 s, p_clock s).

(** The five metric names of a pass, in the order of the returned mapping. *)
Definition metric_names : list string :=
  ["Time/BatchTotal"; "Time/BatchData"; "Loss"; "Acc@1"; "Acc@5"].

(** The sum of [value * weight] and the sum of the weights of a list of
    updates. *)
Definition weighted_sum (vs : list (num * Z)) : num :=
  fold_left (fun acc vn => nadd acc (nmul (fst vn) (num_of_Z (snd vn)))) vs (Fin 0).

Definition total_weight (vs : list (num * Z)) : Z :=
  fold_left (fun acc vn => acc + snd vn) vs 0.

(** A meter after a list of updates. *)
Definition updated (m : AverageMeter.t) (vs : list (num * Z)) : AverageMeter.t :=
  fold_left (fun m vn => AverageMeter.update m (fst vn) (snd vn)) vs m.

(** What one evaluation of the closure with [update_metrics] records. *)
Record Recorded : Type := {
  r_loss : num;
  r_acc1 : num;
  r_acc5 : num;
  r_n : Z;
}.

Section Recording.

Context `{Collaborators}.

Variable criterion : Matrix -> Targets -> num.
Variable optimizer : option OptProg.
Variable preporcess : Batch -> Batch.
Variables epsilon factor temperature : num.

(** The number of times [step] evaluates the closure. *)
Fixpoint calls (p : OptProg) (closure : bool * Pass -> num * (bool * Pass))
    (st : bool * Pass) : nat :=
  match p with
  | Ret => 0
  | Get k => calls (k (p_net (snd st), p_optimizer (snd st))) closure st
  | Put w k => calls k closure (fst st, set_world w (snd st))
  | Call k => let '(loss, st) := closure st in S (calls (k loss) closure st)
  end.

(** The state in which [step] evaluates the closure for the first time. *)
Fixpoint first_call (p : OptProg) (st : bool * Pass) : option (bool * Pass) :=
  match p with
  | Ret => None
  | Get k => first_call (k (p_net (snd st), p_optimizer (snd st))) st
  | Put w k => first_call k (fst st, set_world w (snd st))
  | Call _ => Some st
  end.

(** The loss, the accuracies and the weight that [compute_loss] records on
    a batch, with the model of the state [s]. *)
Definition batch_values (inputs : Inputs) (targets : Targets) (s : Pass)
    : Recorded :=
  let output := forward (p_net s) inputs in
  {| r_loss := fst (compute_loss criterion optimizer epsilon factor
                      temperature inputs targets false s);
     r_acc1 := fst (compute_accuracy output targets);
     r_acc5 := snd (compute_accuracy output targets);
     r_n := Z.of_nat (length inputs) |}.

(** The state of a pass when the closure of a batch is built. *)
Definition batch_entry (st : num * Pass) : Pass :=
  let '(now, s) := read_clock (snd st) in
  set_data_time (AverageMeter.update (data_time s) (nsub now (fst st)) 1) s.

(** The state in which the closure of a batch is first evaluated, if it
    is evaluated. *)
Definition batch_first (st : num * Pass) (batch : Batch) : option Pass :=
  match optimizer with
  | Some p => option_map snd (first_call p (true, batch_entry st))
  | None => Some (batch_entry st)
  end.

(** What the batches of a pass record, in order. *)
Fixpoint recorded (bs : list Batch) (st : num * Pass) : list Recorded :=
  match bs with
  | [] => []
  | b :: bs' =>
      match batch_first st b with
      | Some s1 => [batch_values (fst (preporcess b)) (snd (preporcess b)) s1]
      | None => []
      end
      ++ recorded bs' (one_batch criterion optimizer preporcess epsilon
                          factor temperature st b)
  end.

(** How many times the closure of a batch is evaluated. *)
Definition batch_calls (st : num * Pass) (batch : Batch) : nat :=
  match optimizer with
  | Some p =>
      calls p (closure criterion optimizer epsilon factor temperature
                 (fst (preporcess batch)) (snd (preporcess batch)))
            (true, batch_entry st)
  | None => 1
  end.

(** The same, for each batch of a pass. *)
Fixpoint pass_calls (bs : list Batch) (st : num * Pass) : list nat :=
  match bs with
  | [] => []
  | b :: bs' =>
      batch_calls st b
      :: pass_calls bs' (one_batch criterion optimizer preporcess epsilon
                           factor temperature st b)
  end.

(** The number of examples of a batch: [inputs.size(0)]. *)
Definition batch_size_of (batch : Batch) : Z :=
  Z.of_nat (length (fst (preporcess batch))).

End Recording.

(** The meter [m] holds the updates [vs], whose weights are [sizes]: its
    count is the sum of the sizes, its sum the sum of [value * size], and
    its average their quotient (zero without examples). *)
Definition per_example_average (m : AverageMeter.t) (vs : list (num * Z))
    (sizes : list Z) : Prop :=
  let examples := fold_right Z.add 0 sizes in
  map snd vs = sizes
  /\ AverageMeter.count m = examples
  /\ AverageMeter.sum m = weighted_sum vs
  /\ AverageMeter.avg m
     = if examples =? 0 then Fin 0
       else ndiv (weighted_sum vs) (num_of_Z examples).

(** *** What an epoch of a run does *)

(** A run after more events. *)
Definition emit_all (evs : list Event) (s : Run) : Run :=
  {| net := net s; optimizer := optimizer s; files := files s;
     clock := clock s; passes := passes s; out := out s ++ evs |}.

Definition is_pass (ev : Event) : bool :=
  match ev with process_pass _ _ _ => true | _ => false end.

Definition is_save (ev : Event) : bool :=
  match ev with torch_save _ _ => true | _ => false end.

(** The event is a pass whose average loss is NaN. *)
Definition loss_is_nan (ev : Event) : bool :=
  match ev with
  | process_pass _ _ progress =>
      match dict_get progress "Loss" with
      | Some m => is_nan (AverageMeter.avg m)
      | None => false
      end
  | _ => false
  end.

Definition pass_lrs (ev : Event) : list num :=
  match ev with process_pass _ lrs _ => lrs | _ => [] end.

Definition pass_progress (ev : Event) : dict AverageMeter.t :=
  match ev with process_pass _ _ progress => progress | _ => [] end.

(** The reading of the specification in which a NaN training loss ends the
    run before the validation pass: no pass follows a training pass whose
    average loss is NaN. *)
Definition nan_skips_validation (evs : list Event) : Prop :=
  forall pre lrs progress post,
    evs = pre ++ process_pass true lrs progress :: post ->
    loss_is_nan (process_pass true lrs progress) = true ->
    existsb is_pass post = false.

(** The reading of the specification in which a failed [torch.save] is
    reported and the run goes on: a run that calls [torch.save] does not
    end with an exception. *)
Definition survives_save (r : (exn + unit) * Run) : Prop :=
  existsb is_save (out (snd r)) = true -> fst r = inr tt.

(** The events of [s'] after those of [s]. *)
Definition new_events (s s' : Run) : list Event :=
  skipn (length (out s)) (out s').

(** The state of the epoch loop before an iteration. *)
Record Loop : Type := {
  l_epochs : list Z;         (* the epochs that remain *)
  l_lr : num;
  l_best_acc1 : num;
  l_run : Run;
}.

(** What an epoch has done when it comes to remember the best accuracy. *)
Record EpochView : Type := {
  v_lr : num;                (* [lr] after the decay step *)
  v_train : Pass;            (* the training pass *)
  v_val : Pass;              (* the validation pass *)
  v_run : Run;               (* the run after the passes, the line and the scalars *)
}.

Section RunViews.

Context `{Collaborators}.

Variable cfg : Config.

(** Whether [torch.save] succeeds at a path. *)
Definition can_write (fs : gmap string File) (path : string) : bool :=
  match fs !! path with
  | Some Directory => false
  | _ => writable path
  end.

(** The pass that [process] runs. *)
Definition pass_of (input_range : num) (loader : Loader)
    (with_optimizer : bool) (s : Run) : Pass :=
  run_batches CrossEntropyLoss
    (if with_optimizer then Some sgd_step else None)
    (to_device) (nmul (cfg_epsilon cfg) input_range) (cfg_factor cfg)
    (cfg_temperature cfg) (batches loader (passes s)) (net s) (optimizer s)
    (clock s).

(** The run after [process]. *)
Definition after_pass (input_range : num) (loader : Loader)
    (with_optimizer : bool) (s : Run) : Run :=
  let sp := pass_of input_range loader with_optimizer s in
  {| net := p_net sp; optimizer := p_optimizer sp; files := files s;
     clock := p_clock sp; passes := S (passes s);
     out := out s ++ [process_pass with_optimizer
                        (map lr (param_groups (optimizer s)))
                        (progress_of sp)] |}.

(** The run after the decay step of an epoch. *)
Definition decayed (epoch : Z) (s : Run) : Run :=
  if epoch mod 30 =? 0 then
    {| net := net s;
       optimizer :=
         {| param_groups := map (set_group_lr (get_lr cfg epoch))
                                (param_groups (optimizer s));
            buffers := buffers (optimizer s) |};
       files := files s; clock := clock s; passes := passes s;
       out := out s |}
  else s.

Definition scalars (epoch : Z) (lr : num) (train_pass val_pass : Pass)
    : list Event :=
  add_scalar "Train/LearingRate" lr epoch
  :: map (fun meter => add_scalar ("Train/" ++ AverageMeter.name meter)
                         (AverageMeter.avg meter) epoch)
       (values (progress_of train_pass))
  ++ map (fun meter => add_scalar ("Test/" ++ AverageMeter.name meter)
                         (AverageMeter.avg meter) epoch)
       (values (progress_of val_pass)).

Definition epoch_view (input_range : num) (epoch : Z) (lr : num) (s : Run)
    : EpochView :=
  let lr := if epoch mod 30 =? 0 then get_lr cfg epoch else lr in
  let s1 := decayed epoch s in
  let tp := pass_of input_range (train_loader cfg) true s1 in
  let s2 := after_pass input_range (train_loader cfg) true s1 in
  let vp := pass_of input_range (val_loader cfg) false s2 in
  let s3 := after_pass input_range (val_loader cfg) false s2 in
  let s4 := emit_all [print (epoch_line (epoch + 1) lr (losses tp) (top1 tp)
                               (losses vp) (top1 vp))] s3 in
  {| v_lr := lr; v_train := tp; v_val := vp;
     v_run := if truthy (log_dir cfg)
              then emit_all (scalars epoch lr tp vp) s4 else s4 |}.

(** The events of an epoch up to the scalars. *)
Definition view_events (input_range : num) (epoch : Z) (lr0 : num) (s : Run)
    : list Event :=
  let v := epoch_view input_range epoch lr0 s in
  let s1 := decayed epoch s in
  let s2 := after_pass input_range (train_loader cfg) true s1 in
  [process_pass true (map lr (param_groups (optimizer s1)))
     (progress_of (v_train v));
   process_pass false (map lr (param_groups (optimizer s2)))
     (progress_of (v_val v));
   print (epoch_line (epoch + 1) (v_lr v) (losses (v_train v))
            (top1 (v_train v)) (losses (v_val v)) (top1 (v_val v)))]
  ++ (if truthy (log_dir cfg)
      then scalars epoch (v_lr v) (v_train v) (v_val v) else []).

(** The dictionary that an epoch gives to [torch.save]. *)
Definition checkpoint_of (keys : list string) (epoch : Z) (best_acc1 : num)
    (s : Run) : Checkpoint.t :=
  {| Checkpoint.epoch := epoch + 1;
     Checkpoint.state_dict :=
       dict_of_pairs (zip keys (values (state_dict (net s))));
     Checkpoint.best_acc1 := best_acc1;
     Checkpoint.optimizer := optimizer s |}.

(** The events of an epoch after the scalars: the call of [torch.save] and
    the message of the NaN test. *)
Definition tail_events (keys : list string) (epoch : Z) (best_acc1 : num)
    (v : EpochView) : list Event :=
  let acc := AverageMeter.avg (top1 (v_val v)) in
  let saving :=
    nge acc best_acc1 && negb (String.eqb (checkpoint_path cfg) (Path "")) in
  let raised := saving && negb (can_write (files (v_run v)) (checkpoint_path cfg)) in
  (if saving
   then [torch_save (checkpoint_of keys epoch acc (v_run v)) (checkpoint_path cfg)]
   else [])
  ++ (if negb raised && meter_ne (losses (v_train v)) (losses (v_train v))
      then [print training_stopped_nan] else []).

(** The run after the wrapping in [nn.DataParallel]. *)
Definition wrapped (s : Run) : Run :=
  if (1 <? length devices)%nat then
    {| net := data_parallel
                (if String.prefix "alexnet" (model cfg)
                    || String.prefix "vgg" (model cfg)
                 then FeaturesParallel else WholeParallel) (net s);
       optimizer := optimizer s; files := files s; clock := clock s;
       passes := passes s; out := out s |}
  else s.

(** The run after the evaluation before training, its line and the graph
    of the model. *)
Definition evaluated (input_range : num) (s : Run) : Run :=
  let vp := pass_of input_range (val_loader cfg) false (wrapped s) in
  let s1 := emit_all [print (test_line (losses vp) (top1 vp))]
              (after_pass input_range (val_loader cfg) false (wrapped s)) in
  if evaluate_only cfg then s1
  else if truthy (log_dir cfg) then emit_all [add_graph] s1 else s1.

(** The first iteration of the epoch loop of a run. *)
Definition first_loop (input_range : num) (start_epoch : Z) (best_acc1 : num)
    (s : Run) : Loop :=
  {| l_epochs := range start_epoch (epochs cfg);
     l_lr := get_lr cfg start_epoch;
     l_best_acc1 := best_acc1;
     l_run := evaluated input_range s |}.

(** The next iteration of the epoch loop, when there is one. *)
Definition loop_step (input_range : num) (keys : list string) (l : Loop)
    : option Loop :=
  match l_epochs l with
  | [] => None
  | epoch :: epochs' =>
      match epoch_body cfg input_range keys epoch (l_lr l) (l_best_acc1 l)
              (l_run l) with
      | (inr (Continue lr best_acc1), s) =>
          Some {| l_epochs := epochs'; l_lr := lr;
                  l_best_acc1 := best_acc1; l_run := s |}
      | _ => None
      end
  end.

(** The iterations that the loop goes through from a given one. *)
Inductive reaches (input_range : num) (keys : list string) : Loop -> Loop -> Prop :=
| reaches_here (l : Loop) : reaches input_range keys l l
| reaches_next (l l' l'' : Loop) :
    loop_step input_range keys l = Some l' ->
    reaches input_range keys l' l'' ->
    reaches input_range keys l l''.

(** The epoch loop run from one of its iterations. *)
Definition run_loop (input_range : num) (keys : list string) (l : Loop)
    : (exn + unit) * Run :=
  epoch_loop cfg input_range keys (l_epochs l) (l_lr l) (l_best_acc1 l) (l_run l).

End RunViews.

(** *** Counting over passes and events *)

(** The sizes of the batches of a pass whose closure is evaluated. *)
Fixpoint evaluated_sizes (calls : list nat) (sizes : list Z) : list Z :=
  match calls, sizes with
  | k :: calls', n :: sizes' =>
      if (1 <=? k)%nat then n :: evaluated_sizes calls' sizes'
      else evaluated_sizes calls' sizes'
  | _, _ => []
  end.

Definition is_training_pass (ev : Event) : bool :=
  match ev with process_pass true _ _ => true | _ => false end.

Definition is_validation_pass (ev : Event) : bool :=
  match ev with process_pass false _ _ => true | _ => false end.

(** The event is a call of the summary writer. *)
Definition is_writer (ev : Event) : bool :=
  match ev with
  | add_graph | add_scalar _ _ _ | writer_close => true
  | _ => false
  end.

Definition is_scalar (ev : Event) : bool :=
  match ev with add_scalar _ _ _ => true | _ => false end.

Definition is_close (ev : Event) : bool :=
  match ev with writer_close => true | _ => false end.

(** The event is a printed line or a call of [torch.load]. *)
Definition is_notice (ev : Event) : bool :=
  match ev with print _ | torch_load _ => true | _ => false end.

(** *** The divisor of the bounds term in binary64 *)

(** Lines 173 and 174 of [compute_loss] over IEEE binary64 numbers, with
    their rounding, as the Standard Library specifies them:
    [logits.abs().max(1).values], the product with [temperature], and the
    division. *)
Module Binary64.

Import SpecFloat.

Definition float : Type := spec_float.

Definition zero : float := S754_zero false.
Definition mul : float -> float -> float := SFmul 53 1024.
Definition div : float -> float -> float := SFdiv 53 1024.

(** [torch.max] of two entries: NaN propagates. *)
Definition fmax (x y : float) : float :=
  match SFcompare x y with
  | None => S754_nan
  | Some Lt => y
  | Some _ => x
  end.

Definition row_max (row : list float) : float :=
  match row with
  | [] => S754_infinity true
  | x :: row' => fold_left fmax row' x
  end.

(** [logits.abs().max(1).values.view(-1, 1)] *)
Definition abs_max (logits : list (list float)) : list float :=
  map (fun row => row_max (map SFabs row)) logits.

(** [temperature * max_abs_logits] *)
Definition scale (temperature : float) (max_abs_logits : list float)
    : list float :=
  map (mul temperature) max_abs_logits.

(** [logits / divisor], the column [divisor] broadcast along each row *)
Definition div_rows (logits : list (list float)) (divisor : list float)
    : list (list float) :=
  map (fun rd => map (fun x => div x (snd rd)) (fst rd)) (zip logits divisor).

(** A positive temperature, [2 ^ -1000], and a row of logits with the
    entries [2 ^ -100] and 0; both entries are binary32 numbers as well. *)
Definition tiny_temperature : float := S754_finite false (2 ^ 52) (-1052).
Definition small_logit : float := S754_finite false (2 ^ 52) (-152).
Definition small_logits : list (list float) := [[small_logit; zero]].

End Binary64.

(** The passes of a list of events, in order: [true] for a training pass
    and [false] for an evaluation. *)
Definition pass_kinds (evs : list Event) : list bool :=
  flat_map (fun ev => match ev with
                      | process_pass is_training _ _ => [is_training]
                      | _ => []
                      end) evs.

(** The state of the loop over the batches of a pass when [end] is the
    reading [k] of a clock with the readings [t] and [count] batches are
    done, in a pass whose first reading is [c0]. *)
Definition clocks_agree (t : nat -> Q) (c0 k : nat) (count : Z)
    (st : num * Pass) : Prop :=
  exists d b,
    p_clock (snd st) = S k /\ fst st = Fin (t k)
    /\ AverageMeter.sum (data_time (snd st)) = Fin d
    /\ AverageMeter.sum (batch_time (snd st)) = Fin b
    /\ AverageMeter.count (data_time (snd st)) = count
    /\ AverageMeter.count (batch_time (snd st)) = count
    /\ (0 <= d)%Q /\ (d <= b)%Q /\ (b <= t k - t c0)%Q.

(** ** A small instance of the collaborators, on which the definitions run *)

Module Sample.

Definition first_entry (row : list num) : num :=
  match row with x :: _ => x | [] => Fin 0 end.

(** The bias of the model: the first entry of its first tensor. *)
Definition bias (n : Net) : num :=
  match weights n with (_, x :: _) :: _ => x | _ => Fin 0 end.

Definition add_bias (b : num) (n : Net) : Net :=
  set_weights (map (fun kv => (fst kv, map (nadd b) (snd kv))) (weights n)) n.

Definition the_net : Net :=
  {| weights := [("features.0.weight", [Fin 1]); ("classifier.bias", [Fin 0; Fin 0])];
     grads := []; training := true; parallel := NotParallel |}.

Definition batch_a : Batch := ([[Fin 1; Fin 2]; [Fin 3; Fin 5]], [0; 1]).
Definition batch_b : Batch := ([[Fin 2; Fin 0]], [1]).
Definition batch_nan : Batch := ([[NaN; Fin 1]], [0]).

(** The training set of the dataset ["nan"] has a batch with a NaN entry. *)
Definition the_loader (dataset : string) (is_train : bool) : Loader :=
  {| norm_mean := [Fin (1 # 2)];
     norm_std := [Fin (1 # 2)];
     batches := fun _ =>
       if is_train && String.eqb dataset "nan"
       then [batch_nan] else [batch_a; batch_b] |}.

Definition collaborators : Collaborators :=
  {| time := fun i => num_of_Z (Z.of_nat i);
     forward := fun n inputs => map (map (nadd (bias n))) inputs;
     zero_grad := fun n => n;
     backward := fun n _ _ _ => n;
     propagate_bounds := fun _ inputs eps =>
       {| offset := map (map (fun _ => eps)) inputs |};
     bounds_logits := fun output off _ =>
       map (fun ro => map (fun xo => nadd (fst xo) (snd xo)) (zip (fst ro) (snd ro)))
           (zip output off);
     compute_accuracy := fun _ _ => (Fin 50, Fin 100);
     meter_ne := fun a b => nne (AverageMeter.avg a) (AverageMeter.avg b);
     CrossEntropyLoss := fun output _ =>
       fold_left nadd (map first_entry output) (Fin 0);
     sgd_update := fun g nb => (add_bias (lr g) (fst nb), snd nb);
     Path := fun s => if String.eqb s "" then "." else s;
     get_device_order := [];
     get_loader := fun dataset is_train _ _ _ => the_loader dataset is_train;
     get_model := fun _ _ => the_net;
     fit_to_dataset := fun n _ => n;
     writable := fun p => negb (String.prefix "/proc/" p) |}.

Definition config : Config :=
  {| evaluate_only := false; dataset := "cifar10"; model := "resnet18";
     pretrained := false; learning_rate := Fin (1 # 10);
     cfg_momentum := Fin (9 # 10); cfg_weight_decay := Fin 0;
     cfg_epsilon := Fin 0; cfg_factor := Fin 0; cfg_temperature := Fin 1;
     epochs := 2; batch_size := 2; jobs := 1;
     checkpoint := None; resume := None; log_dir := None; seed := None |}.

Definition with_dataset (d : string) (c : Config) : Config :=
  {| evaluate_only := evaluate_only c; dataset := d; model := model c;
     pretrained := pretrained c; learning_rate := learning_rate c;
     cfg_momentum := cfg_momentum c; cfg_weight_decay := cfg_weight_decay c;
     cfg_epsilon := cfg_epsilon c; cfg_factor := cfg_factor c;
     cfg_temperature := cfg_temperature c;
     epochs := epochs c; batch_size := batch_size c; jobs := jobs c;
     checkpoint := checkpoint c; resume := resume c; log_dir := log_dir c;
     seed := seed c |}.

Definition with_paths (ckpt res : option string) (c : Config) : Config :=
  {| evaluate_only := evaluate_only c; dataset := dataset c; model := model c;
     pretrained := pretrained c; learning_rate := learning_rate c;
     cfg_momentum := cfg_momentum c; cfg_weight_decay := cfg_weight_decay c;
     cfg_epsilon := cfg_epsilon c; cfg_factor := cfg_factor c;
     cfg_temperature := cfg_temperature c;
     epochs := epochs c; batch_size := batch_size c; jobs := jobs c;
     checkpoint := ckpt; resume := res; log_dir := log_dir c;
     seed := seed c |}.

(** An optimizer whose step evaluates the closure three times and moves
    the model after the first evaluation. *)
Definition thrice : OptProg :=
  Call (fun _ =>
    Get (fun w =>
      Put (add_bias (Fin 1) (fst w), snd w)
          (Call (fun _ => Call (fun _ => Ret))))).

Definition cross_entropy : Matrix -> Targets -> num :=
  @CrossEntropyLoss collaborators.

(** The same run with a checkpoint path. *)
Definition saving_config : Config := with_paths (Some "ck.pt") None config.

(** The epoch loop of a run of [saving_config] at its first iteration, and
    at its second. *)
Definition loop0 : Loop :=
  {| l_epochs := range 0 (epochs saving_config);
     l_lr := get_lr saving_config 0;
     l_best_acc1 := Fin 0;
     l_run := @initial collaborators saving_config ∅ 0 |}.

Definition loop1 : Loop :=
  match @loop_step collaborators saving_config (Fin 2) ["features.0.weight"; "classifier.bias"] loop0 with
  | Some l => l
  | None => loop0
  end.

(** The run on the dataset whose training loss is NaN. *)
Definition nan_config : Config := with_dataset "nan" config.

(** The run on the dataset whose training loss is NaN, with a checkpoint
    path that cannot be written. *)
Definition nan_readonly_config : Config :=
  with_paths (Some "/proc/ck.pt") None (with_dataset "nan" config).

(** The run with a checkpoint path that cannot be written. *)
Definition readonly_config : Config :=
  with_paths (Some "/proc/ck.pt") None config.

(** The run that is asked to resume from a path that does not exist. *)
Definition missing_config : Config :=
  with_paths None (Some "missing.pt") config.

(** The run that resumes from the checkpoint of [saving_config]. *)
Definition resuming_config : Config :=
  with_paths None (Some "ck.pt") config.

Definition the_input_range : num :=
  match @input_range collaborators config with Some x => x | None => Fin 0 end.

(** A top-1 meter with an average of 50. *)
Definition half_right : AverageMeter.t :=
  AverageMeter.update (AverageMeter.new "Acc@1" ":6.2f") (Fin 50) 3.

(** The run of [saving_config] as it starts, and the run of
    [resuming_config] as it starts on the files that the first leaves when
    it saves. *)
Definition saving_run : Run := @initial collaborators saving_config ∅ 0.

Definition resuming_run : Run :=
  @initial collaborators resuming_config
    (files (snd (@remember_best collaborators saving_config
                   ["features.0.weight"; "classifier.bias"] 4 half_right
                   (Fin 0) saving_run)))
    0.

(** The same run over 31 epochs. *)
Definition long_config : Config :=
  {| evaluate_only := false; dataset := "cifar10"; model := "resnet18";
     pretrained := false; learning_rate := Fin (1 # 10);
     cfg_momentum := Fin (9 # 10); cfg_weight_decay := Fin 0;
     cfg_epsilon := Fin 0; cfg_factor := Fin 0; cfg_temperature := Fin 1;
     epochs := 31; batch_size := 2; jobs := 1;
     checkpoint := None; resume := None; log_dir := None; seed := None |}.

(** The learning rates of the training passes of a run, in order. *)
Definition training_lrs (evs : list Event) : list (list num) :=
  map pass_lrs
    (List.filter (fun ev => match ev with
                            | process_pass true _ _ => true
                            | _ => false
                            end) evs).

(** The collaborators with another loader and other devices. *)
Definition collaborators_with (loader : string -> bool -> Loader)
    (gpus : list nat) : Collaborators :=
  {| time := @time collaborators;
     forward := @forward collaborators;
     zero_grad := @zero_grad collaborators;
     backward := @backward collaborators;
     propagate_bounds := @propagate_bounds collaborators;
     bounds_logits := @bounds_logits collaborators;
     compute_accuracy := @compute_accuracy collaborators;
     meter_ne := @meter_ne collaborators;
     CrossEntropyLoss := @CrossEntropyLoss collaborators;
     sgd_update := @sgd_update collaborators;
     Path := @Path collaborators;
     get_device_order := gpus;
     get_loader := fun dataset is_train _ _ _ => loader dataset is_train;
     get_model := @get_model collaborators;
     fit_to_dataset := @fit_to_dataset collaborators;
     writable := @writable collaborators |}.

(** A loader whose normalization has a channel of deviation zero. *)
Definition flat_loader (dataset : string) (is_train : bool) : Loader :=
  {| norm_mean := [Fin (1 # 2); Fin (1 # 2)];
     norm_std := [Fin (1 # 2); Fin 0];
     batches := fun _ => [batch_a] |}.

(** The run with a log directory. *)
Definition logging_config : Config :=
  {| evaluate_only := false; dataset := "cifar10"; model := "resnet18";
     pretrained := false; learning_rate := Fin (1 # 10);
     cfg_momentum := Fin (9 # 10); cfg_weight_decay := Fin 0;
     cfg_epsilon := Fin 0; cfg_factor := Fin 0; cfg_temperature := Fin 1;
     epochs := 1; batch_size := 2; jobs := 1;
     checkpoint := None; resume := None; log_dir := Some "runs"; seed := None |}.

(** The run that only evaluates. *)
Definition evaluating_config : Config :=
  {| evaluate_only := true; dataset := "cifar10"; model := "resnet18";
     pretrained := false; learning_rate := Fin (1 # 10);
     cfg_momentum := Fin (9 # 10); cfg_weight_decay := Fin 0;
     cfg_epsilon := Fin 0; cfg_factor := Fin 0; cfg_temperature := Fin 1;
     epochs := 2; batch_size := 2; jobs := 1;
     checkpoint := Some "ck.pt"; resume := None; log_dir := Some "runs";
     seed := None |}.

(** The epoch loop of a run of [long_config] that starts at epoch 45, at
    its first iteration and at its second. *)
Definition loop45 : Loop :=
  {| l_epochs := range 45 47;
     l_lr := get_lr long_config 45;
     l_best_acc1 := Fin 0;
     l_run := @initial collaborators long_config ∅ 0 |}.

Definition loop46 : Loop :=
  match @loop_step collaborators long_config (Fin 2) ["features.0.weight"; "classifier.bias"] loop45 with
  | Some l => l
  | None => loop45
  end.

(** An evaluation pass in its first state. *)
Definition a_pass : Pass :=
  @fresh_pass None the_net (SGD (Fin (1 # 10)) (Fin 0) (Fin 0)) 0.

End Sample.

(** * Properties *)

(** ** Numbers *)

Lemma is_zero_Fin (x : num) :
  is_zero x = true <-> exists q, x = Fin q /\ (q == 0)%Q.
Proof.
  unfold is_zero, neqb. destruct x as [q| | |]; simpl.
  - destruct (Qcompare_spec q 0) as [E|L|G].
    + split; [exists q; auto | reflexivity].
    + split; [discriminate|]. intros (q' & [= <-] & E).
      rewrite E in L. now apply Qlt_irrefl in L.
    + split; [discriminate|]. intros (q' & [= <-] & E).
      rewrite E in G. now apply Qlt_irrefl in G.
  - split; [discriminate | intros (q & [=] & _)].
  - split; [discriminate | intros (q & [=] & _)].
  - split; [discriminate | intros (q & [=] & _)].
Qed.

Lemma ngt_zero_false (x : num) : is_zero x = true -> ngt x (Fin 0) = false.
Proof.
  intros (q & -> & E)%is_zero_Fin. unfold ngt; simpl.
  destruct (Qcompare_spec q 0) as [_|_|G]; try reflexivity.
  rewrite E in G. now apply Qlt_irrefl in G.
Qed.

Lemma nabs_abs_value (x : num) : abs_value (nabs x).
Proof.
  destruct x as [q| | |]; [right | right | right | left]; try reflexivity.
  unfold nge; simpl.
  destruct (Qcompare_spec (Qabs q) 0) as [_|L|_]; try reflexivity.
  exfalso. apply (Qlt_not_le _ _ L), Qabs_nonneg.
Qed.

Lemma nabs_pos (x : num) : is_zero x = false -> pos_or_nan (nabs x).
Proof.
  intros Hz. destruct x as [q| | |]; [| right | right | left]; try reflexivity.
  right. unfold ngt; simpl.
  destruct (Qcompare_spec (Qabs q) 0) as [E|L|_]; try reflexivity.
  - exfalso. assert (Hq : (q == 0)%Q).
    { revert E. apply Qabs_case; intros _ E; [exact E|].
      rewrite <- (Qopp_involutive q), E. reflexivity. }
    assert (Hz' : is_zero (Fin q) = true) by (apply is_zero_Fin; eauto).
    congruence.
  - exfalso. apply (Qlt_not_le _ _ L), Qabs_nonneg.
Qed.

Lemma pos_or_nan_not_zero (x : num) : pos_or_nan x -> is_zero x = false.
Proof.
  intros [-> | Hp]; [reflexivity|].
  unfold is_zero, neqb. unfold ngt in Hp.
  destruct (ncompare x (Fin 0)) as [[ | | ]|]; congruence.
Qed.

Lemma nmax_pos_l (x y : num) : pos_or_nan x -> abs_value y -> pos_or_nan (nmax x y).
Proof.
  intros [-> | Hx] [-> | Hy].
  - now left.
  - left. reflexivity.
  - left. unfold nmax. now destruct x.
  - unfold nmax. destruct (ncompare x y) as [[ | | ]|] eqn:E;
      [now right | | now right | now left].
    right. unfold ngt, nge in *.
    destruct x as [a| | |], y as [b| | |]; simpl in *; try congruence.
    injection E as E. apply Qlt_alt in E.
    destruct (Qcompare_spec a 0) as [_|_|Ha]; try discriminate.
    destruct (Qcompare_spec b 0) as [Eb|Lb|_]; try reflexivity.
    + rewrite Eb in E. exfalso. apply (Qlt_irrefl 0). now apply Qlt_trans with a.
    + exfalso. apply (Qlt_irrefl 0).
      apply Qlt_trans with a; [assumption|]. now apply Qlt_trans with b.
Qed.

Lemma nmax_pos_r (x y : num) : abs_value x -> pos_or_nan y -> pos_or_nan (nmax x y).
Proof.
  intros [-> | Hx] [-> | Hy].
  - now left.
  - now left.
  - left. unfold nmax. now destruct x.
  - unfold nmax. destruct (ncompare x y) as [[ | | ]|] eqn:E;
      [ | now right | | now left].
    + right. unfold ngt, nge in *.
      destruct x as [a| | |], y as [b| | |]; simpl in *; try congruence.
      injection E as E. apply Qeq_alt in E.
      destruct (Qcompare_spec b 0) as [_|_|Hb]; try discriminate.
      rewrite <- E in Hb.
      destruct (Qcompare_spec a 0) as [Ea|La|_]; try reflexivity.
      * rewrite Ea in Hb. now apply Qlt_irrefl in Hb.
      * exfalso. apply (Qlt_irrefl 0). now apply Qlt_trans with a.
    + right. unfold ngt, nge in *.
      destruct x as [a| | |], y as [b| | |]; simpl in *; try congruence.
      injection E as E. apply Qgt_alt in E.
      destruct (Qcompare_spec b 0) as [_|_|Hb]; try discriminate.
      destruct (Qcompare_spec a 0) as [Ea|La|_]; try reflexivity.
      * rewrite Ea in E. exfalso. apply (Qlt_irrefl 0). now apply Qlt_trans with b.
      * exfalso. apply (Qlt_irrefl 0).
        apply Qlt_trans with b; [assumption|]. now apply Qlt_trans with a.
Qed.

Lemma nmax_abs_value (x y : num) : abs_value x -> abs_value y -> abs_value (nmax x y).
Proof.
  intros Hx Hy. unfold nmax.
  destruct (ncompare x y) as [[ | | ]|]; try assumption. now left.
Qed.

Lemma fold_nmax_pos (l : list num) (acc : num) :
  Forall abs_value l -> pos_or_nan acc -> pos_or_nan (fold_left nmax l acc).
Proof.
  revert acc. induction l as [|y l IH]; intros acc Hl Hacc; simpl; [assumption|].
  inversion Hl; subst. apply IH; [assumption|]. now apply nmax_pos_l.
Qed.

Lemma fold_nmax_some_pos (l : list num) (acc : num) :
  Forall abs_value l -> abs_value acc -> Exists pos_or_nan l ->
  pos_or_nan (fold_left nmax l acc).
Proof.
  revert acc. induction l as [|y l IH]; intros acc Hl Hacc Hex; simpl.
  - inversion Hex.
  - inversion Hl; subst. inversion Hex; subst.
    + apply fold_nmax_pos; [assumption|]. now apply nmax_pos_r.
    + apply IH; try assumption. now apply nmax_abs_value.
Qed.

Lemma row_max_abs_pos (row : list num) :
  Exists (fun x => is_zero x = false) row -> pos_or_nan (row_max (map nabs row)).
Proof.
  intros Hex. destruct row as [|x row]; [inversion Hex|]. simpl.
  assert (Habs : Forall abs_value (map nabs row)).
  { apply List.Forall_forall. intros y (z & <- & _)%in_map_iff. apply nabs_abs_value. }
  apply List.Exists_cons in Hex as [Hx | Hrest].
  - apply fold_nmax_pos; [assumption|]. now apply nabs_pos.
  - apply fold_nmax_some_pos; [assumption | apply nabs_abs_value |].
    apply List.Exists_exists. apply List.Exists_exists in Hrest as (z & Hin & Hz).
    exists (nabs z). split; [now apply in_map | now apply nabs_pos].
Qed.


(** ** The loss of a batch *)

(** C3. When the radius [epsilon] given to [one_epoch] is zero or [factor]
    is zero, the loss returned by [compute_loss] is exactly the value of
    the criterion on the output of the model: no bounds term is added. *)
Theorem compute_loss_without_bounds `{Collaborators}
    (criterion : Matrix -> Targets -> num) (optimizer : option OptProg)
    (epsilon factor temperature : num) (inputs : Inputs) (targets : Targets)
    (update_metrics : bool) (s : Pass) :
  is_zero epsilon = true \/ is_zero factor = true ->
  fst (compute_loss criterion optimizer epsilon factor temperature
         inputs targets update_metrics s)
  = criterion (forward (p_net s) inputs) targets.
Proof.
  intros Hz. unfold compute_loss.
  assert (Hg : ngt epsilon (Fin 0) && ngt factor (Fin 0) = false).
  { destruct Hz as [Hz | Hz]; rewrite (ngt_zero_false _ Hz);
      [reflexivity | apply andb_false_r]. }
  rewrite Hg.
  destruct update_metrics; [destruct (compute_accuracy _ _)|];
    destruct (is_training optimizer); reflexivity.
Qed.

Lemma compute_loss_without_bounds_witness :
  fst (@compute_loss Sample.collaborators Sample.cross_entropy None
         (Fin 0) (Fin 2) (Fin 1) (fst Sample.batch_a) (snd Sample.batch_a)
         true Sample.a_pass)
  = Sample.cross_entropy
      (@forward Sample.collaborators (p_net Sample.a_pass) (fst Sample.batch_a))
      (snd Sample.batch_a).
Proof.
  apply (@compute_loss_without_bounds Sample.collaborators).
  left. reflexivity.
Defined.

(** ** The order on numbers *)

Lemma nge_Fin (a b : Q) : nge (Fin a) (Fin b) = true <-> (b <= a)%Q.
Proof.
  unfold nge; simpl. rewrite Qle_alt.
  destruct (Qcompare_spec a b) as [E|L|G].
  - rewrite (proj1 (Qeq_alt b a)); [|apply Qeq_sym, E].
    split; intros; [discriminate | reflexivity].
  - rewrite (proj1 (Qgt_alt b a) L). split; intros; [discriminate | congruence].
  - rewrite (proj1 (Qlt_alt b a) G). split; intros; [discriminate | reflexivity].
Qed.

Lemma nge_trans (a b c : num) :
  nge c b = true -> nge b a = true -> nge c a = true.
Proof.
  destruct a as [a| | |], b as [b| | |], c as [c| | |];
    try reflexivity; try discriminate.
  rewrite !nge_Fin. intros H1 H2. now apply Qle_trans with b.
Qed.

Lemma nge_refl (x : num) : is_nan x = false -> nge x x = true.
Proof.
  destruct x as [q| | |]; try reflexivity; [|discriminate].
  intros _. apply nge_Fin, Qle_refl.
Qed.

Lemma nmax_greatest (x y : num) :
  is_nan x = false -> is_nan y = false ->
  (nmax x y = x \/ nmax x y = y)
  /\ nge (nmax x y) x = true /\ nge (nmax x y) y = true.
Proof.
  destruct x as [a| | |], y as [b| | |]; try discriminate; intros _ _;
    try (cbn; repeat split; auto; apply nge_Fin, Qle_refl).
  unfold nmax. cbn [ncompare].
  destruct (Qcompare_spec a b) as [E|L|G].
  - split; [now left|]. rewrite !nge_Fin. split; [apply Qle_refl|].
    rewrite E. apply Qle_refl.
  - split; [now right|]. rewrite !nge_Fin.
    split; [now apply Qlt_le_weak | apply Qle_refl].
  - split; [now left|]. rewrite !nge_Fin.
    split; [apply Qle_refl | now apply Qlt_le_weak].
Qed.

Lemma row_max_greatest (x : num) (row : list num) :
  forallb (fun y => negb (is_nan y)) (x :: row) = true ->
  In (row_max (x :: row)) (x :: row)
  /\ List.Forall (fun y => nge (row_max (x :: row)) y = true) (x :: row).
Proof.
  cbn [row_max]. revert x.
  induction row as [|y row IH]; intros x Hn.
  - cbn [forallb] in Hn. rewrite andb_true_r in Hn.
    apply negb_true_iff in Hn. cbn [fold_left]. split; [now left|].
    constructor; [now apply nge_refl | constructor].
  - cbn [forallb] in Hn. apply andb_true_iff in Hn as [Hx Hn].
    apply negb_true_iff in Hx.
    pose proof Hn as Hn'. cbn [forallb] in Hn'.
    apply andb_true_iff in Hn' as [Hy Hrow]. apply negb_true_iff in Hy.
    destruct (nmax_greatest x y Hx Hy) as (Hm & Gx & Gy).
    assert (Hmn : is_nan (nmax x y) = false).
    { destruct Hm as [-> | ->]; assumption. }
    destruct (IH (nmax x y)) as [Hin Hall].
    { cbn [forallb]. now rewrite Hmn, Hrow. }
    cbn [fold_left]. split.
    + destruct Hin as [Hin|Hin].
      * rewrite <- Hin. destruct Hm as [-> | ->]; [now left | right; now left].
      * right. now right.
    + apply List.Forall_cons_iff in Hall as [Hmax Hall].
      constructor; [now apply nge_trans with (nmax x y)|].
      constructor; [now apply nge_trans with (nmax x y) | exact Hall].
Qed.

Lemma div_rows_by_scaled_max (temperature : num) (logits : Matrix) :
  div_rows logits (scale temperature (abs_max logits))
  = map (fun row =>
           map (fun x => ndiv x (nmul temperature (row_max (map nabs row)))) row)
        logits.
Proof.
  unfold div_rows, scale, abs_max, zip.
  induction logits as [|row logits IH]; [reflexivity|].
  cbn [map combine fst snd]. now rewrite IH.
Qed.


(** C4, as the code has it.  When [epsilon > 0] and [factor > 0] the loss
    is the base loss plus [factor] times the criterion on the logits of
    [bounds_logits] in which every entry is divided by
    [temperature * max(|logits|)] of its row.  That maximum is, for a row
    without NaN that is not empty, the absolute value of one of its
    entries and at least the absolute value of each; for a row with an
    entry that is not zero it is positive or NaN, hence not zero. *)
Theorem bounds_term_divides_by_scaled_maximum `{Collaborators}
    (criterion : Matrix -> Targets -> num) (optimizer : option OptProg)
    (epsilon factor temperature : num) (inputs : Inputs) (targets : Targets)
    (update_metrics : bool) (s : Pass) :
  ngt epsilon (Fin 0) = true -> ngt factor (Fin 0) = true ->
  let output := forward (p_net s) inputs in
  let logits :=
    bounds_logits output (offset (propagate_bounds (p_net s) inputs epsilon))
      targets in
  let max_abs := fun row : list num => row_max (map nabs row) in
  let scaled :=
    map (fun row => map (fun x => ndiv x (nmul temperature (max_abs row))) row)
        logits in
  fst (compute_loss criterion optimizer epsilon factor temperature
         inputs targets update_metrics s)
  = nadd (criterion output targets) (nmul factor (criterion scaled targets))
  /\ (forall row, In row logits -> row <> [] ->
      forallb (fun x => negb (is_nan x)) row = true ->
      In (max_abs row) (map nabs row)
      /\ List.Forall (fun x => nge (max_abs row) (nabs x) = true) row)
  /\ (forall row, In row logits ->
      List.Exists (fun x => is_zero x = false) row ->
      pos_or_nan (max_abs row) /\ is_zero (max_abs row) = false).
Proof.
  intros He Hf output logits max_abs scaled. split; [|split].
  - unfold scaled, max_abs. rewrite <- div_rows_by_scaled_max.
    unfold compute_loss. rewrite He, Hf. simpl andb. cbv iota.
    destruct update_metrics; [destruct (compute_accuracy _ _)|];
      destruct (is_training optimizer); reflexivity.
  - intros row _ Hne Hnan. unfold max_abs.
    destruct row as [|x row]; [now elim Hne|].
    assert (Habs : forallb (fun y => negb (is_nan y)) (map nabs (x :: row))
                   = true).
    { apply forallb_forall. intros y (z & <- & Hz)%in_map_iff.
      apply (proj1 (forallb_forall _ _) Hnan) in Hz. now destruct z. }
    destruct (row_max_greatest (nabs x) (map nabs row) Habs) as [Hin Hall].
    split; [exact Hin|].
    apply List.Forall_forall. intros z Hz.
    apply (proj1 (List.Forall_forall _ _) Hall).
    change (nabs x :: map nabs row) with (map nabs (x :: row)).
    now apply in_map.
  - intros row _ Hex. unfold max_abs.
    pose proof (row_max_abs_pos row Hex) as Hp.
    split; [exact Hp | now apply pos_or_nan_not_zero].
Qed.

Lemma bounds_term_divides_by_scaled_maximum_witness :
  let output := @forward Sample.collaborators (p_net Sample.a_pass)
                  (fst Sample.batch_a) in
  let logits :=
    @bounds_logits Sample.collaborators output
      (offset (@propagate_bounds Sample.collaborators (p_net Sample.a_pass)
                 (fst Sample.batch_a) (Fin 1)))
      (snd Sample.batch_a) in
  let scaled :=
    map (fun row =>
           map (fun x => ndiv x (nmul (Fin 2) (row_max (map nabs row)))) row)
        logits in
  fst (@compute_loss Sample.collaborators Sample.cross_entropy None
         (Fin 1) (Fin 3) (Fin 2) (fst Sample.batch_a) (snd Sample.batch_a)
         true Sample.a_pass)
  = nadd (Sample.cross_entropy output (snd Sample.batch_a))
         (nmul (Fin 3) (Sample.cross_entropy scaled (snd Sample.batch_a)))
  /\ (In (row_max (map nabs [Fin 3; Fin 4])) (map nabs [Fin 3; Fin 4])
      /\ List.Forall
           (fun x => nge (row_max (map nabs [Fin 3; Fin 4])) (nabs x) = true)
           [Fin 3; Fin 4])
  /\ is_zero (row_max (map nabs [Fin 3; Fin 4])) = false.
Proof.
  intros output logits scaled.
  pose proof (@bounds_term_divides_by_scaled_maximum Sample.collaborators
                Sample.cross_entropy None (Fin 1) (Fin 3) (Fin 2)
                (fst Sample.batch_a) (snd Sample.batch_a) true Sample.a_pass
                eq_refl eq_refl) as (H1 & H2 & H3).
  assert (Hin : In [Fin 3; Fin 4] logits) by (vm_compute; left; reflexivity).
  assert (Hne : [Fin 3; Fin 4] <> []) by discriminate.
  assert (Hex : List.Exists (fun x => is_zero x = false) [Fin 3; Fin 4])
    by (constructor; reflexivity).
  split; [exact H1|]. split.
  - exact (H2 [Fin 3; Fin 4] Hin Hne eq_refl).
  - exact (proj2 (H3 [Fin 3; Fin 4] Hin Hex)).
Defined.

(** C4, as the specification has it, fails: a row of logits with an entry
    that is not zero does not keep the divisor from being zero.  In
    binary64 the product of the positive temperature [2 ^ -1000] and the
    maximum [2 ^ -100] of the row underflows to zero, and the division
    gives an infinity and a NaN; in binary32, the type of the tensors of
    torch, the product is zero as well. *)
Lemma divisor_underflows_to_zero :
  let temperature := Binary64.tiny_temperature in
  let logits := Binary64.small_logits in
  let divisor := Binary64.scale temperature (Binary64.abs_max logits) in
  SpecFloat.SFltb Binary64.zero temperature = true
  /\ List.Forall
       (List.Exists (fun x => SpecFloat.SFeqb x Binary64.zero = false)) logits
  /\ Binary64.abs_max logits = [Binary64.small_logit]
  /\ divisor = [Binary64.zero]
  /\ Binary64.div_rows logits divisor
     = [[SpecFloat.S754_infinity false; SpecFloat.S754_nan]].
Proof.
  cbv zeta. split; [reflexivity|]. split.
  - constructor; [|constructor]. constructor. reflexivity.
  - repeat split; vm_compute; reflexivity.
Qed.

(** In the arithmetic of the model, which does not round, the same happens
    for a temperature of zero, which nothing in [compute_loss] excludes. *)
Example zero_temperature_zero_divisor :
  let logits := [[Fin 1; Fin 0]] in
  List.Forall (List.Exists (fun x => is_zero x = false)) logits
  /\ scale (Fin 0) (abs_max logits) = [Fin (0 * Qabs 1)]
  /\ List.Forall (fun d => is_zero d = true) (scale (Fin 0) (abs_max logits)).
Proof.
  cbv zeta. split; [|split].
  - constructor; [|constructor]. constructor. reflexivity.
  - vm_compute. reflexivity.
  - constructor; [reflexivity | constructor].
Qed.

(** ** The meters of a pass *)

Lemma meters_inv (a b : Pass) :
  meters a = meters b ->
  batch_time a = batch_time b /\ data_time a = data_time b
  /\ losses a = losses b /\ top1 a = top1 b /\ top5 a = top5 b
  /\ p_clock a = p_clock b.
Proof. unfold meters. intros [= -> -> -> -> -> ->]. repeat split. Qed.

Section PassLemmas.

Context `{Collaborators}.

Variable criterion : Matrix -> Targets -> num.
Variable optimizer : option OptProg.
Variable preporcess : Batch -> Batch.
Variables epsilon factor temperature : num.

Local Abbreviation compute_loss' :=
  (compute_loss criterion optimizer epsilon factor temperature).
Local Abbreviation closure' :=
  (closure criterion optimizer epsilon factor temperature).
Local Abbreviation batch_values' :=
  (batch_values criterion optimizer epsilon factor temperature).

Lemma compute_loss_loss (inputs : Inputs) (targets : Targets) (b : bool) (s : Pass) :
  fst (compute_loss' inputs targets b s) = fst (compute_loss' inputs targets false s).
Proof.
  unfold compute_loss.
  destruct b; [destruct (compute_accuracy _ _)|];
    destruct (is_training optimizer); reflexivity.
Qed.

Lemma compute_loss_silent (inputs : Inputs) (targets : Targets) (s : Pass) :
  meters (snd (compute_loss' inputs targets false s)) = meters s.
Proof.
  unfold compute_loss. destruct (is_training optimizer); reflexivity.
Qed.

Lemma compute_loss_records (inputs : Inputs) (targets : Targets) (s : Pass) :
  let r := batch_values' inputs targets s in
  meters (snd (compute_loss' inputs targets true s))
  = meters (record_metrics (r_loss r) (r_acc1 r) (r_acc5 r) (r_n r) s).
Proof.
  unfold batch_values, compute_loss; simpl.
  destruct (compute_accuracy _ _) as [acc1 acc5]; simpl.
  destruct (is_training optimizer); reflexivity.
Qed.

Lemma closure_eq (inputs : Inputs) (targets : Targets) (b : bool) (s : Pass) :
  closure' inputs targets (b, s)
  = (fst (compute_loss' inputs targets b s),
     (false, snd (compute_loss' inputs targets b s))).
Proof.
  unfold closure. now destruct (compute_loss' inputs targets b s).
Qed.

Lemma step_later (inputs : Inputs) (targets : Targets) (p : OptProg) (s : Pass) :
  meters (snd (step p (closure' inputs targets) (false, s))) = meters s.
Proof.
  revert s. induction p as [|k IH|w k IH|k IH]; intros s; cbn [step fst snd].
  - reflexivity.
  - apply IH.
  - now rewrite IH.
  - rewrite closure_eq, IH. apply compute_loss_silent.
Qed.

(** The closure records on its first evaluation only. *)
Lemma step_first (inputs : Inputs) (targets : Targets) (p : OptProg) (s : Pass) :
  match first_call p (true, s) with
  | Some (first_time, s1) =>
      first_time = true /\ meters s1 = meters s
      /\ meters (snd (step p (closure' inputs targets) (true, s)))
         = meters (snd (compute_loss' inputs targets true s1))
  | None => meters (snd (step p (closure' inputs targets) (true, s))) = meters s
  end.
Proof.
  revert s. induction p as [|k IH|w k IH|k IH]; intros s;
    cbn [step first_call fst snd].
  - reflexivity.
  - apply IH.
  - specialize (IH (set_world w s)).
    destruct (first_call k (true, set_world w s)) as [[b s1]|]; exact IH.
  - split; [reflexivity | split; [reflexivity|]].
    rewrite closure_eq. apply step_later.
Qed.

Lemma calls_first_call (clos : bool * Pass -> num * (bool * Pass))
    (p : OptProg) (st : bool * Pass) :
  (1 <= calls p clos st)%nat -> exists st1, first_call p st = Some st1.
Proof.
  revert st. induction p as [|k IH|w k IH|k IH]; intros st;
    cbn [calls first_call].
  - lia.
  - apply IH.
  - apply IH.
  - eauto.
Qed.

End PassLemmas.

Lemma batch_calls_first `{Collaborators}
    (criterion : Matrix -> Targets -> num) (optimizer : option OptProg)
    (preporcess : Batch -> Batch) (epsilon factor temperature : num)
    (st : num * Pass) (b : Batch) :
  (1 <= batch_calls criterion optimizer preporcess epsilon factor temperature
          st b)%nat ->
  exists s1, batch_first optimizer st b = Some s1.
Proof.
  unfold batch_calls, batch_first. destruct optimizer as [p|]; [|eauto].
  intros Hc. destruct (calls_first_call _ p _ Hc) as [st1 E].
  rewrite E. simpl. eauto.
Qed.

(** One batch: the three meters of [compute_loss] are updated with what the
    first evaluation of the closure records, if there is one; the two time
    meters are updated once. *)
Lemma one_batch_meters `{Collaborators}
    (criterion : Matrix -> Targets -> num) (optimizer : option OptProg)
    (preporcess : Batch -> Batch) (epsilon factor temperature : num)
    (st : num * Pass) (b : Batch) :
  let s := snd st in
  let s' := snd (one_batch criterion optimizer preporcess epsilon factor
                   temperature st b) in
  let rs := match batch_first optimizer st b with
            | Some s1 =>
                [batch_values criterion optimizer epsilon factor temperature
                   (fst (preporcess b)) (snd (preporcess b)) s1]
            | None => []
            end in
  losses s' = updated (losses s) (map (fun r => (r_loss r, r_n r)) rs)
  /\ top1 s' = updated (top1 s) (map (fun r => (r_acc1 r, r_n r)) rs)
  /\ top5 s' = updated (top5 s) (map (fun r => (r_acc5 r, r_n r)) rs)
  /\ data_time s'
     = AverageMeter.update (data_time s) (nsub (time (p_clock s)) (fst st)) 1
  /\ batch_time s'
     = AverageMeter.update (batch_time s)
         (nsub (time (S (p_clock s))) (fst st)) 1
  /\ p_clock s' = S (S (S (p_clock s))).
Proof.
  destruct st as [end_ s]. cbn zeta. unfold one_batch, batch_first.
  cbn [fst snd].
  change (read_clock s) with
    (time (p_clock s),
     {| p_net := p_net s; p_optimizer := p_optimizer s;
        p_clock := S (p_clock s);
        batch_time := batch_time s; data_time := data_time s;
        losses := losses s; top1 := top1 s; top5 := top5 s |}).
  cbv iota beta.
  set (s0 := set_data_time _ _).
  assert (Hs0 : batch_entry (end_, s) = s0) by reflexivity.
  rewrite Hs0.
  assert (Hm0 : meters s0
                = meters (set_data_time
                            (AverageMeter.update (data_time s)
                               (nsub (time (p_clock s)) end_) 1)
                            (snd (read_clock s)))) by reflexivity.
  clearbody s0.
  destruct (preporcess b) as [inputs targets]. cbn [fst snd].
  assert (Hmid : forall st1 : bool * Pass,
    (let '(_, s1) := st1 in
     let '(now, s2) := read_clock s1 in
     read_clock (set_batch_time
        (AverageMeter.update (batch_time s2) (nsub now end_) 1) s2))
    = (time (S (p_clock (snd st1))),
       {| p_net := p_net (snd st1); p_optimizer := p_optimizer (snd st1);
          p_clock := S (S (p_clock (snd st1)));
          batch_time := AverageMeter.update (batch_time (snd st1))
                          (nsub (time (p_clock (snd st1))) end_) 1;
          data_time := data_time (snd st1);
          losses := losses (snd st1); top1 := top1 (snd st1);
          top5 := top5 (snd st1) |})).
  { intros [b1 s1]. reflexivity. }
  destruct optimizer as [p|].
  - rewrite Hmid. cbn [snd batch_time data_time losses top1 top5 p_clock].
    pose proof (step_first criterion (Some p) epsilon factor temperature
                  inputs targets p s0) as Hf.
    destruct (first_call p (true, s0)) as [[b1 s1]|]; cbn [option_map snd map].
    + destruct Hf as (_ & Hm1 & Hm).
      rewrite compute_loss_records in Hm.
      set (r := batch_values _ _ _ _ _ _ _ _) in *.
      apply meters_inv in Hm as (E1 & E2 & E3 & E4 & E5 & E6).
      apply meters_inv in Hm1 as (F1 & F2 & F3 & F4 & F5 & F6).
      apply meters_inv in Hm0 as (G1 & G2 & G3 & G4 & G5 & G6).
      unfold updated; cbn [fold_left fst snd].
      rewrite E1, E2, E3, E4, E5, E6.
      cbn [record_metrics batch_time data_time losses top1 top5 p_clock].
      rewrite F1, F2, F3, F4, F5, F6, G1, G2, G3, G4, G5, G6.
      repeat split; reflexivity.
    + apply meters_inv in Hf as (E1 & E2 & E3 & E4 & E5 & E6).
      apply meters_inv in Hm0 as (G1 & G2 & G3 & G4 & G5 & G6).
      unfold updated; cbn [fold_left].
      rewrite E1, E2, E3, E4, E5, E6, G1, G2, G3, G4, G5, G6.
      repeat split; reflexivity.
  - rewrite Hmid. cbn [snd batch_time data_time losses top1 top5 p_clock map].
    rewrite closure_eq. cbn [snd].
    pose proof (compute_loss_records criterion None epsilon factor temperature
                  inputs targets s0) as Hm.
    cbv zeta in Hm.
    set (r := batch_values _ _ _ _ _ _ _ _) in *.
    apply meters_inv in Hm as (E1 & E2 & E3 & E4 & E5 & E6).
    apply meters_inv in Hm0 as (F1 & F2 & F3 & F4 & F5 & F6).
    unfold updated; cbn [fold_left fst snd].
    rewrite E1, E2, E3, E4, E5, E6.
    cbn [record_metrics batch_time data_time losses top1 top5 p_clock].
    rewrite F1, F2, F3, F4, F5, F6.
    repeat split; reflexivity.
Qed.

(** A batch whose closure is evaluated, however many times, updates the
    three meters once: with what the first evaluation computes and the
    number of examples of the batch. *)
Lemma one_batch_records_once `{Collaborators}
    (criterion : Matrix -> Targets -> num) (optimizer : option OptProg)
    (preporcess : Batch -> Batch) (epsilon factor temperature : num)
    (st : num * Pass) (b : Batch) :
  (1 <= batch_calls criterion optimizer preporcess epsilon factor temperature
          st b)%nat ->
  exists s1,
    batch_first optimizer st b = Some s1
    /\ let r := batch_values criterion optimizer epsilon factor temperature
                  (fst (preporcess b)) (snd (preporcess b)) s1 in
       let s' := snd (one_batch criterion optimizer preporcess epsilon factor
                        temperature st b) in
       r_n r = batch_size_of preporcess b
       /\ losses s' = AverageMeter.update (losses (snd st)) (r_loss r) (r_n r)
       /\ top1 s' = AverageMeter.update (top1 (snd st)) (r_acc1 r) (r_n r)
       /\ top5 s' = AverageMeter.update (top5 (snd st)) (r_acc5 r) (r_n r).
Proof.
  intros Hk. destruct (batch_calls_first _ _ _ _ _ _ _ _ Hk) as [s1 E].
  exists s1. split; [exact E|]. cbv zeta.
  destruct (one_batch_meters criterion optimizer preporcess epsilon factor
              temperature st b) as (B1 & B2 & B3 & _).
  rewrite E in B1, B2, B3. repeat split; assumption.
Qed.

Lemma updated_app (m : AverageMeter.t) (vs ws : list (num * Z)) :
  updated m (vs ++ ws) = updated (updated m vs) ws.
Proof. apply fold_left_app. Qed.

Lemma updated_name (m : AverageMeter.t) (vs : list (num * Z)) :
  AverageMeter.name (updated m vs) = AverageMeter.name m.
Proof.
  revert m. induction vs as [|v vs IH]; intros m; [reflexivity|].
  unfold updated in *. cbn [fold_left]. now rewrite IH.
Qed.

(** A meter after updates: the sum of [value * weight] and the sum of the
    weights are added to what it held. *)
Lemma updated_fields (m : AverageMeter.t) (vs : list (num * Z)) :
  updated m vs
  = {| AverageMeter.name := AverageMeter.name m;
       AverageMeter.fmt := AverageMeter.fmt m;
       AverageMeter.sum :=
         fold_left (fun acc vn => nadd acc (nmul (fst vn) (num_of_Z (snd vn))))
                   vs (AverageMeter.sum m);
       AverageMeter.count :=
         fold_left (fun acc vn => acc + snd vn) vs (AverageMeter.count m) |}.
Proof.
  revert m. induction vs as [|v vs IH]; intros m; [now destruct m|].
  unfold updated in *. cbn [fold_left]. now rewrite IH.
Qed.

Lemma updated_new (name fmt : string) (vs : list (num * Z)) :
  updated (AverageMeter.new name fmt) vs
  = {| AverageMeter.name := name; AverageMeter.fmt := fmt;
       AverageMeter.sum := weighted_sum vs;
       AverageMeter.count := total_weight vs |}.
Proof. now rewrite updated_fields. Qed.

Lemma total_weight_sum (vs : list (num * Z)) (a : Z) :
  fold_left (fun acc vn => acc + snd vn) vs a = a + fold_right Z.add 0 (map snd vs).
Proof.
  revert a. induction vs as [|v vs IH]; intros a; simpl; [lia|].
  rewrite IH. lia.
Qed.

Section FoldBatches.

Context `{Collaborators}.

Variable criterion : Matrix -> Targets -> num.
Variable optimizer : option OptProg.
Variable preporcess : Batch -> Batch.
Variables epsilon factor temperature : num.

Local Abbreviation one_batch' :=
  (one_batch criterion optimizer preporcess epsilon factor temperature).
Local Abbreviation recorded' :=
  (recorded criterion optimizer preporcess epsilon factor temperature).
Local Abbreviation pass_calls' :=
  (pass_calls criterion optimizer preporcess epsilon factor temperature).

(** The meters after the batches of a pass. *)
Lemma fold_batches_meters (bs : list Batch) (st : num * Pass) :
  let s := snd st in
  let s' := snd (fold_left one_batch' bs st) in
  let rs := recorded' bs st in
  losses s' = updated (losses s) (map (fun r => (r_loss r, r_n r)) rs)
  /\ top1 s' = updated (top1 s) (map (fun r => (r_acc1 r, r_n r)) rs)
  /\ top5 s' = updated (top5 s) (map (fun r => (r_acc5 r, r_n r)) rs)
  /\ (exists ts, data_time s' = updated (data_time s) ts
                 /\ map snd ts = map (fun _ => 1) bs)
  /\ (exists ts, batch_time s' = updated (batch_time s) ts
                 /\ map snd ts = map (fun _ => 1) bs)
  /\ p_clock s' = (p_clock s + 3 * length bs)%nat.
Proof.
  revert st. induction bs as [|b bs IH]; intros st; cbn zeta.
  - cbn [fold_left recorded map]. repeat split; try reflexivity.
    + exists []. now split.
    + exists []. now split.
    + simpl. lia.
  - cbn [fold_left recorded].
    destruct (one_batch_meters criterion optimizer preporcess epsilon factor
                temperature st b) as (B1 & B2 & B3 & B4 & B5 & B6).
    destruct (IH (one_batch' st b)) as (I1 & I2 & I3 & (td & I4 & Ld) & (tb & I5 & Lb) & I6).
    rewrite !map_app, !updated_app.
    rewrite I1, I2, I3, I4, I5, I6, B1, B2, B3, B4, B5, B6.
    repeat split; try reflexivity.
    + exists ((nsub (time (p_clock (snd st))) (fst st), 1) :: td).
      split; [reflexivity | cbn [map snd]; now rewrite Ld].
    + exists ((nsub (time (S (p_clock (snd st)))) (fst st), 1) :: tb).
      split; [reflexivity | cbn [map snd]; now rewrite Lb].
    + cbn [length]. lia.
Qed.

(** When the closure of every batch is evaluated, every batch records once,
    in order, with its number of examples as weight. *)
Lemma recorded_weights (bs : list Batch) (st : num * Pass) :
  List.Forall (fun k => (1 <= k)%nat) (pass_calls' bs st) ->
  map r_n (recorded' bs st) = map (batch_size_of preporcess) bs.
Proof.
  revert st. induction bs as [|b bs IH]; intros st Hk; [reflexivity|].
  cbn [pass_calls] in Hk. apply List.Forall_cons_iff in Hk as [Hb Hk].
  cbn [recorded map].
  destruct (batch_calls_first _ _ _ _ _ _ _ _ Hb) as [s1 E].
  rewrite E, map_app, (IH _ Hk). reflexivity.
Qed.

End FoldBatches.

Lemma progress_of_names (s : Pass) :
  map AverageMeter.name [batch_time s; data_time s; losses s; top1 s; top5 s]
  = metric_names ->
  progress_of s
  = [("Time/BatchTotal", batch_time s); ("Time/BatchData", data_time s);
     ("Loss", losses s); ("Acc@1", top1 s); ("Acc@5", top5 s)]%string.
Proof.
  unfold progress_of, metric_names. cbn [map].
  intros [= -> -> -> -> ->]. reflexivity.
Qed.

(** The pass of [one_epoch]: each meter is a new meter updated once per
    recorded batch, and the mapping lists the five meters under their
    names. *)
Lemma run_batches_meters `{Collaborators}
    (criterion : Matrix -> Targets -> num) (optimizer : option OptProg)
    (preporcess : Batch -> Batch) (epsilon factor temperature : num)
    (train_loader : list Batch) (net : Net) (o : Optimizer) (clock : nat) :
  let s := run_batches criterion optimizer preporcess epsilon factor
             temperature train_loader net o clock in
  let rs := recorded criterion optimizer preporcess epsilon factor temperature
              train_loader (read_clock (fresh_pass optimizer net o clock)) in
  losses s = updated (AverageMeter.new "Loss" ":.4e")
               (map (fun r => (r_loss r, r_n r)) rs)
  /\ top1 s = updated (AverageMeter.new "Acc@1" ":6.2f")
                (map (fun r => (r_acc1 r, r_n r)) rs)
  /\ top5 s = updated (AverageMeter.new "Acc@5" ":6.2f")
                (map (fun r => (r_acc5 r, r_n r)) rs)
  /\ (exists ts, data_time s = updated (AverageMeter.new "Time/BatchData" ":6.3f") ts
                 /\ map snd ts = map (fun _ => 1) train_loader)
  /\ (exists ts, batch_time s = updated (AverageMeter.new "Time/BatchTotal" ":6.3f") ts
                 /\ map snd ts = map (fun _ => 1) train_loader)
  /\ progress_of s
     = [("Time/BatchTotal", batch_time s); ("Time/BatchData", data_time s);
        ("Loss", losses s); ("Acc@1", top1 s); ("Acc@5", top5 s)]%string.
Proof.
  cbn zeta. unfold run_batches.
  destruct (fold_batches_meters criterion optimizer preporcess epsilon factor
              temperature train_loader
              (read_clock (fresh_pass optimizer net o clock)))
    as (I1 & I2 & I3 & (td & I4 & Ld) & (tb & I5 & Lb) & _).
  cbn [read_clock snd fresh_pass losses top1 top5 data_time batch_time] in *.
  repeat split; try assumption.
  - now exists td.
  - now exists tb.
  - apply progress_of_names. cbn [map].
    rewrite I1, I2, I3, I4, I5, !updated_name. reflexivity.
Qed.

(** The three meters of [compute_loss] in the returned mapping. *)
Lemma one_epoch_counts_each_batch_once_meters `{Collaborators}
    (criterion : Matrix -> Targets -> num) (optimizer : option OptProg)
    (preporcess : Batch -> Batch) (epsilon factor temperature : num)
    (train_loader : list Batch) (net : Net) (o : Optimizer) (clock : nat) :
  let st := read_clock (fresh_pass optimizer net o clock) in
  List.Forall (fun k => (1 <= k)%nat)
    (pass_calls criterion optimizer preporcess epsilon factor temperature
       train_loader st) ->
  let progress := fst (one_epoch criterion optimizer preporcess epsilon factor
                         temperature train_loader net o clock) in
  let rs := recorded criterion optimizer preporcess epsilon factor temperature
              train_loader st in
  map r_n rs = map (batch_size_of preporcess) train_loader
  /\ dict_get progress "Loss"
     = Some (updated (AverageMeter.new "Loss" ":.4e")
               (map (fun r => (r_loss r, r_n r)) rs))
  /\ dict_get progress "Acc@1"
     = Some (updated (AverageMeter.new "Acc@1" ":6.2f")
               (map (fun r => (r_acc1 r, r_n r)) rs))
  /\ dict_get progress "Acc@5"
     = Some (updated (AverageMeter.new "Acc@5" ":6.2f")
               (map (fun r => (r_acc5 r, r_n r)) rs)).
Proof.
  intros st Hk progress rs.
  destruct (run_batches_meters criterion optimizer preporcess epsilon factor
              temperature train_loader net o clock)
    as (I1 & I2 & I3 & _ & _ & Hp).
  unfold progress, one_epoch. cbn [fst]. rewrite Hp.
  cbn [dict_get String.eqb Ascii.eqb Bool.eqb].
  split; [now apply recorded_weights|].
  split; [now rewrite I1|]. split; [now rewrite I2 | now rewrite I3].
Qed.

(** C2. In a pass in which the closure of every batch is evaluated at least
    once (whatever the number of evaluations), the mapping returned by
    [one_epoch] has exactly the five metric names as keys, and its loss,
    top-1 and top-5 meters are new meters updated exactly once per batch, in
    order, with the values of the first evaluation of the closure on that
    batch and the number of examples of the batch; the two time meters are
    updated once per batch.  Batch by batch: a batch whose closure is
    evaluated [k >= 1] times updates each of the three meters exactly
    once. *)
Theorem one_epoch_counts_each_batch_once `{Collaborators}
    (criterion : Matrix -> Targets -> num) (optimizer : option OptProg)
    (preporcess : Batch -> Batch) (epsilon factor temperature : num)
    (train_loader : list Batch) (net : Net) (o : Optimizer) (clock : nat) :
  let st := read_clock (fresh_pass optimizer net o clock) in
  List.Forall (fun k => (1 <= k)%nat)
    (pass_calls criterion optimizer preporcess epsilon factor temperature
       train_loader st) ->
  let progress := fst (one_epoch criterion optimizer preporcess epsilon factor
                         temperature train_loader net o clock) in
  let rs := recorded criterion optimizer preporcess epsilon factor temperature
              train_loader st in
  keys progress = metric_names
  /\ List.NoDup (keys progress)
  /\ map r_n rs = map (batch_size_of preporcess) train_loader
  /\ dict_get progress "Loss"
     = Some (updated (AverageMeter.new "Loss" ":.4e")
               (map (fun r => (r_loss r, r_n r)) rs))
  /\ dict_get progress "Acc@1"
     = Some (updated (AverageMeter.new "Acc@1" ":6.2f")
               (map (fun r => (r_acc1 r, r_n r)) rs))
  /\ dict_get progress "Acc@5"
     = Some (updated (AverageMeter.new "Acc@5" ":6.2f")
               (map (fun r => (r_acc5 r, r_n r)) rs))
  /\ (exists m, dict_get progress "Time/BatchData" = Some m
                /\ AverageMeter.count m = Z.of_nat (length train_loader))
  /\ (exists m, dict_get progress "Time/BatchTotal" = Some m
                /\ AverageMeter.count m = Z.of_nat (length train_loader))
  /\ (forall (st1 : num * Pass) (b : Batch),
        (1 <= batch_calls criterion optimizer preporcess epsilon factor
                temperature st1 b)%nat ->
        exists s1,
          batch_first optimizer st1 b = Some s1
          /\ let r := batch_values criterion optimizer epsilon factor
                        temperature (fst (preporcess b)) (snd (preporcess b))
                        s1 in
             let s' := snd (one_batch criterion optimizer preporcess epsilon
                              factor temperature st1 b) in
             r_n r = batch_size_of preporcess b
             /\ losses s' = AverageMeter.update (losses (snd st1)) (r_loss r) (r_n r)
             /\ top1 s' = AverageMeter.update (top1 (snd st1)) (r_acc1 r) (r_n r)
             /\ top5 s' = AverageMeter.update (top5 (snd st1)) (r_acc5 r) (r_n r)).
Proof.
  intros st Hk progress rs.
  assert (Hbatch := one_batch_records_once criterion optimizer preporcess
                      epsilon factor temperature).
  destruct (run_batches_meters criterion optimizer preporcess epsilon factor
              temperature train_loader net o clock)
    as (I1 & I2 & I3 & (td & I4 & Ld) & (tb & I5 & Lb) & Hp).
  unfold progress, one_epoch. cbn [fst]. rewrite Hp.
  cbn [keys map fst dict_get String.eqb Ascii.eqb Bool.eqb].
  assert (Hones : forall ts : list (num * Z),
            map snd ts = map (fun _ => 1) train_loader ->
            total_weight ts = Z.of_nat (length train_loader)).
  { intros ts Hts. unfold total_weight. rewrite total_weight_sum, Hts.
    clear. induction train_loader as [|b bs IH]; [reflexivity|].
    cbn [map fold_right length]. lia. }
  split; [reflexivity|]. split.
  { unfold metric_names.
    repeat (constructor;
            [cbn; intros Hin;
             repeat (destruct Hin as [Hin|Hin]; [discriminate Hin|]);
             exact Hin|]).
    constructor. }
  split; [now apply recorded_weights|].
  split; [now rewrite I1|]. split; [now rewrite I2|]. split; [now rewrite I3|].
  split; [|split; [|exact Hbatch]].
  - eexists. split; [reflexivity|]. rewrite I4, updated_new. now apply Hones.
  - eexists. split; [reflexivity|]. rewrite I5, updated_new. now apply Hones.
Qed.

Lemma one_epoch_counts_each_batch_once_witness :
  let progress :=
    fst (@one_epoch Sample.collaborators Sample.cross_entropy
           (Some Sample.thrice) (fun b => b) (Fin 0) (Fin 0) (Fin 1)
           [Sample.batch_a; Sample.batch_b] Sample.the_net
           (SGD (Fin (1 # 10)) (Fin 0) (Fin 0)) 0) in
  keys progress = metric_names
  /\ option_map AverageMeter.count (dict_get progress "Loss") = Some 3.
Proof.
  intros progress.
  assert (Hk : List.Forall (fun k => (1 <= k)%nat)
                 (@pass_calls Sample.collaborators Sample.cross_entropy
                    (Some Sample.thrice) (fun b => b) (Fin 0) (Fin 0) (Fin 1)
                    [Sample.batch_a; Sample.batch_b]
                    (@read_clock Sample.collaborators
                       (fresh_pass (Some Sample.thrice) Sample.the_net
                          (SGD (Fin (1 # 10)) (Fin 0) (Fin 0)) 0)))).
  { repeat constructor. }
  destruct (@one_epoch_counts_each_batch_once Sample.collaborators
              Sample.cross_entropy (Some Sample.thrice) (fun b => b)
              (Fin 0) (Fin 0) (Fin 1) [Sample.batch_a; Sample.batch_b]
              Sample.the_net (SGD (Fin (1 # 10)) (Fin 0) (Fin 0)) 0 Hk)
    as (Hkeys & _ & _ & HL & _).
  split; [exact Hkeys|].
  unfold progress. rewrite HL. reflexivity.
Defined.

(** With three evaluations of the closure per batch, the loss meter holds
    the two batches once each, with the losses of the first evaluation:
    4 for the first batch and 3 for the second, on 2 and 1 examples. *)
Example thrice_records_first_evaluation :
  dict_get
    (fst (@one_epoch Sample.collaborators Sample.cross_entropy
            (Some Sample.thrice) (fun b => b) (Fin 0) (Fin 0) (Fin 1)
            [Sample.batch_a; Sample.batch_b]
            (Sample.add_bias (Fin (-1)) Sample.the_net)
            (SGD (Fin (1 # 10)) (Fin 0) (Fin 0)) 0)) "Loss"
  = Some (updated (AverageMeter.new "Loss" ":.4e")
            [(Fin (0 + (0 + 1) + (0 + 3)), 2);
             (Fin (0 + (1 + 2)), 1)]).
Proof. vm_compute. reflexivity. Qed.

(** C10. In a pass in which the closure of every batch is evaluated, the
    loss, top-1 and top-5 meters are updated with the number of examples of
    each batch as weight: the count of each is the number of examples of
    the pass, its sum the sum of [value * examples] over the batches, and
    the reported average their quotient, whatever the sizes of the
    batches. *)
Theorem averages_are_per_example `{Collaborators}
    (criterion : Matrix -> Targets -> num) (optimizer : option OptProg)
    (preporcess : Batch -> Batch) (epsilon factor temperature : num)
    (train_loader : list Batch) (net : Net) (o : Optimizer) (clock : nat) :
  let st := read_clock (fresh_pass optimizer net o clock) in
  List.Forall (fun k => (1 <= k)%nat)
    (pass_calls criterion optimizer preporcess epsilon factor temperature
       train_loader st) ->
  let progress := fst (one_epoch criterion optimizer preporcess epsilon factor
                         temperature train_loader net o clock) in
  let rs := recorded criterion optimizer preporcess epsilon factor temperature
              train_loader st in
  let sizes := map (batch_size_of preporcess) train_loader in
  (exists m, dict_get progress "Loss" = Some m
     /\ per_example_average m (map (fun r => (r_loss r, r_n r)) rs) sizes)
  /\ (exists m, dict_get progress "Acc@1" = Some m
     /\ per_example_average m (map (fun r => (r_acc1 r, r_n r)) rs) sizes)
  /\ (exists m, dict_get progress "Acc@5" = Some m
     /\ per_example_average m (map (fun r => (r_acc5 r, r_n r)) rs) sizes).
Proof.
  intros st Hk progress rs sizes.
  destruct (one_epoch_counts_each_batch_once_meters criterion optimizer
              preporcess epsilon factor temperature train_loader net o clock Hk)
    as (Hn & HL & H1 & H5).
  assert (Hav : forall name fmt (f : Recorded -> num),
    per_example_average
      (updated (AverageMeter.new name fmt) (map (fun r => (f r, r_n r)) rs))
      (map (fun r => (f r, r_n r)) rs) sizes).
  { intros name fmt f. unfold per_example_average.
    assert (Hw : map snd (map (fun r => (f r, r_n r)) rs) = sizes).
    { rewrite map_map. cbn [snd]. exact Hn. }
    rewrite updated_new. unfold AverageMeter.avg.
    cbn [AverageMeter.count AverageMeter.sum].
    assert (Ht : total_weight (map (fun r => (f r, r_n r)) rs)
                 = fold_right Z.add 0 sizes).
    { unfold total_weight. rewrite total_weight_sum, Hw. lia. }
    rewrite Ht. repeat split; assumption || reflexivity. }
  split; [|split]; eexists; (split; [eassumption | apply Hav]).
Qed.

Lemma averages_are_per_example_witness :
  exists m,
    dict_get
      (fst (@one_epoch Sample.collaborators Sample.cross_entropy None
              (fun b => b) (Fin 0) (Fin 0) (Fin 1)
              [Sample.batch_a; Sample.batch_b] Sample.the_net
              (SGD (Fin (1 # 10)) (Fin 0) (Fin 0)) 0)) "Loss" = Some m
    /\ AverageMeter.count m = 3.
Proof.
  assert (Hk : List.Forall (fun k => (1 <= k)%nat)
                 (@pass_calls Sample.collaborators Sample.cross_entropy
                    None (fun b => b) (Fin 0) (Fin 0) (Fin 1)
                    [Sample.batch_a; Sample.batch_b]
                    (@read_clock Sample.collaborators
                       (fresh_pass None Sample.the_net
                          (SGD (Fin (1 # 10)) (Fin 0) (Fin 0)) 0)))).
  { repeat constructor. }
  destruct (@averages_are_per_example Sample.collaborators
              Sample.cross_entropy None (fun b => b)
              (Fin 0) (Fin 0) (Fin 1) [Sample.batch_a; Sample.batch_b]
              Sample.the_net (SGD (Fin (1 # 10)) (Fin 0) (Fin 0)) 0 Hk)
    as ((m & Hm & _ & Hc & _) & _).
  exists m. split; [exact Hm | exact Hc].
Defined.

(** ** The steps of a run *)

Section RunLemmas.

Context `{Collaborators}.

Variable cfg : Config.

Lemma emit_spec (ev : Event) (s : Run) : emit ev s = (inr tt, emit_all [ev] s).
Proof. reflexivity. Qed.

Lemma each_emit {A} (f : A -> Event) (xs : list A) (s : Run) :
  each (fun x => emit (f x)) xs s = (inr tt, emit_all (map f xs) s).
Proof.
  revert s. induction xs as [|x xs IH]; intros s; cbn [each map].
  - unfold ret, emit_all. rewrite app_nil_r. now destruct s.
  - unfold bind. rewrite emit_spec, IH. unfold emit_all; cbn.
    now rewrite <- app_assoc.
Qed.

Lemma emit_all_app (evs evs' : list Event) (s : Run) :
  emit_all evs' (emit_all evs s) = emit_all (evs ++ evs') s.
Proof. unfold emit_all; cbn. now rewrite app_assoc. Qed.

Lemma process_spec (input_range : num) (loader : Loader) (b : bool) (s : Run) :
  process cfg input_range loader b s
  = (inr (progress_of (pass_of cfg input_range loader b s)),
     after_pass cfg input_range loader b s).
Proof. reflexivity. Qed.

Lemma pass_of_progress (input_range : num) (loader : Loader) (b : bool) (s : Run) :
  let sp := pass_of cfg input_range loader b s in
  progress_of sp
  = [("Time/BatchTotal", batch_time sp); ("Time/BatchData", data_time sp);
     ("Loss", losses sp); ("Acc@1", top1 sp); ("Acc@5", top5 sp)]%string.
Proof.
  cbn zeta. unfold pass_of.
  now destruct (run_batches_meters CrossEntropyLoss
                  (if b then Some sgd_step else None) to_device
                  (nmul (cfg_epsilon cfg) input_range) (cfg_factor cfg)
                  (cfg_temperature cfg) (batches loader (passes s)) (net s)
                  (optimizer s) (clock s)) as (_ & _ & _ & _ & _ & Hp).
Qed.

Lemma getitem_loss (input_range : num) (loader : Loader) (b : bool) (s s' : Run) :
  let sp := pass_of cfg input_range loader b s in
  getitem (progress_of sp) "Loss" s' = (inr (losses sp), s').
Proof. cbn zeta. now rewrite pass_of_progress. Qed.

Lemma getitem_acc1 (input_range : num) (loader : Loader) (b : bool) (s s' : Run) :
  let sp := pass_of cfg input_range loader b s in
  getitem (progress_of sp) "Acc@1" s' = (inr (top1 sp), s').
Proof. cbn zeta. now rewrite pass_of_progress. Qed.

Lemma decay_lr_spec (epoch : Z) (lr : num) (s : Run) :
  decay_lr cfg epoch lr s
  = (inr (if epoch mod 30 =? 0 then get_lr cfg epoch else lr),
     decayed cfg epoch s).
Proof.
  unfold decay_lr, decayed. now destruct (epoch mod 30 =? 0).
Qed.

Lemma log_scalars_spec (epoch : Z) (lr : num) (tp vp : Pass) (s : Run) :
  log_scalars epoch lr (progress_of tp) (progress_of vp) s
  = (inr tt, emit_all (scalars epoch lr tp vp) s).
Proof.
  unfold log_scalars, bind. rewrite emit_spec, each_emit, each_emit.
  rewrite !emit_all_app. reflexivity.
Qed.

(** Remember best acc@1 and save checkpoint, case by case. *)
Lemma remember_best_spec (keys : list string) (epoch : Z)
    (val_acc : AverageMeter.t) (best_acc1 : num) (s : Run) :
  remember_best cfg keys epoch val_acc best_acc1 s
  = if nge (AverageMeter.avg val_acc) best_acc1 then
      if negb (String.eqb (checkpoint_path cfg) (Path "")) then
        let state := checkpoint_of keys epoch (AverageMeter.avg val_acc) s in
        let s' := emit_all [torch_save state (checkpoint_path cfg)] s in
        if can_write (files s) (checkpoint_path cfg)
        then (inr (AverageMeter.avg val_acc),
              {| net := net s'; optimizer := optimizer s';
                 files := <[checkpoint_path cfg := CheckpointFile state]> (files s');
                 clock := clock s'; passes := passes s'; out := out s' |})
        else (inl OSError, s')
      else (inr (AverageMeter.avg val_acc), s)
    else (inr best_acc1, s).
Proof.
  unfold remember_best.
  destruct (nge (AverageMeter.avg val_acc) best_acc1); [|reflexivity].
  destruct (negb (String.eqb (checkpoint_path cfg) (Path ""))); [|reflexivity].
  cbv zeta. unfold bind at 1. unfold bind at 1, get. unfold save, bind.
  rewrite emit_spec. unfold can_write. cbn [files emit_all].
  fold (checkpoint_of keys epoch (AverageMeter.avg val_acc) s).
  destruct (files s !! checkpoint_path cfg) as [[st| |]|];
    try reflexivity; destruct (writable (checkpoint_path cfg)); reflexivity.
Qed.

(** The body of the epoch loop, from what the epoch has done before it
    remembers the best accuracy. *)
Lemma epoch_body_spec (input_range : num) (keys : list string) (epoch : Z)
    (lr best_acc1 : num) (s : Run) :
  let v := epoch_view cfg input_range epoch lr s in
  epoch_body cfg input_range keys epoch lr best_acc1 s
  = match remember_best cfg keys epoch (top1 (v_val v)) best_acc1 (v_run v) with
    | (inl e, s') => (inl e, s')
    | (inr best, s') =>
        if meter_ne (losses (v_train v)) (losses (v_train v))
        then (inr Break, emit_all [print training_stopped_nan] s')
        else (inr (Continue (v_lr v) best), s')
    end.
Proof.
  cbv zeta. unfold epoch_body.
  unfold bind at 1. rewrite decay_lr_spec.
  unfold bind at 1. rewrite process_spec.
  unfold bind at 1. rewrite getitem_loss.
  unfold bind at 1. rewrite getitem_acc1.
  unfold bind at 1. rewrite process_spec.
  unfold bind at 1. rewrite getitem_loss.
  unfold bind at 1. rewrite getitem_acc1.
  unfold bind at 1. rewrite emit_spec.
  unfold bind at 1.
  assert (Hlog :
    (if truthy (log_dir cfg)
     then log_scalars epoch (if epoch mod 30 =? 0 then get_lr cfg epoch else lr)
            (progress_of (pass_of cfg input_range (train_loader cfg) true
                            (decayed cfg epoch s)))
            (progress_of (pass_of cfg input_range (val_loader cfg) false
                            (after_pass cfg input_range (train_loader cfg) true
                               (decayed cfg epoch s))))
     else ret tt)
      (emit_all
         [print (epoch_line (epoch + 1)
                   (if epoch mod 30 =? 0 then get_lr cfg epoch else lr)
                   (losses (v_train (epoch_view cfg input_range epoch lr s)))
                   (top1 (v_train (epoch_view cfg input_range epoch lr s)))
                   (losses (v_val (epoch_view cfg input_range epoch lr s)))
                   (top1 (v_val (epoch_view cfg input_range epoch lr s))))]
         (after_pass cfg input_range (val_loader cfg) false
            (after_pass cfg input_range (train_loader cfg) true
               (decayed cfg epoch s))))
    = (inr tt, v_run (epoch_view cfg input_range epoch lr s))).
  { unfold epoch_view; cbn [v_run v_train v_val].
    destruct (truthy (log_dir cfg)); [apply log_scalars_spec | reflexivity]. }
  cbn [v_train v_val epoch_view] in Hlog. rewrite Hlog.
  unfold bind at 1. cbn [v_val v_train v_lr epoch_view].
  destruct (remember_best _ _ _ _ _ _) as [[e|b] s']; [reflexivity|].
  destruct (meter_ne _ _); reflexivity.
Qed.

Lemma epoch_loop_cons (input_range : num) (keys : list string) (epoch : Z)
    (epochs : list Z) (lr best_acc1 : num) (s : Run) :
  epoch_loop cfg input_range keys (epoch :: epochs) lr best_acc1 s
  = match epoch_body cfg input_range keys epoch lr best_acc1 s with
    | (inl e, s') => (inl e, s')
    | (inr Break, s') => (inr tt, s')
    | (inr (Continue lr' best), s') =>
        epoch_loop cfg input_range keys epochs lr' best s'
    end.
Proof.
  cbn [epoch_loop]. unfold bind.
  destruct (epoch_body _ _ _ _ _ _ _) as [[e|[lr' b|]] s']; reflexivity.
Qed.

(** The loop continues from the iterations that it reaches. *)
Lemma run_loop_reaches (input_range : num) (keys : list string) (l l' : Loop) :
  reaches cfg input_range keys l l' ->
  run_loop cfg input_range keys l = run_loop cfg input_range keys l'.
Proof.
  induction 1 as [l|l l' l'' Hstep _ IH]; [reflexivity|].
  rewrite <- IH. unfold run_loop, loop_step in *.
  destruct (l_epochs l) as [|epoch epochs']; [discriminate|].
  rewrite epoch_loop_cons.
  destruct (epoch_body _ _ _ _ _ _ _) as [[e|[lr' b|]] s']; try discriminate.
  now injection Hstep as <-.
Qed.

End RunLemmas.

(** ** The best accuracy and the checkpoints *)

Lemma skipn_length_app {A} (xs ys : list A) : skipn (length xs) (xs ++ ys) = ys.
Proof. induction xs as [|x xs IH]; [reflexivity | exact IH]. Qed.

Section EpochLemmas.

Context `{Collaborators}.

Variable cfg : Config.
Variable input_range : num.
Variable keys : list string.

Lemma view_out (epoch : Z) (lr0 : num) (s : Run) :
  out (v_run (epoch_view cfg input_range epoch lr0 s))
  = out s ++ view_events cfg input_range epoch lr0 s.
Proof.
  unfold view_events, epoch_view. cbn [v_run v_train v_val v_lr].
  assert (Hd : out (decayed cfg epoch s) = out s).
  { unfold decayed. now destruct (epoch mod 30 =? 0). }
  destruct (truthy (log_dir cfg)); cbn [emit_all after_pass out];
    rewrite Hd, <- !app_assoc; reflexivity.
Qed.

Lemma view_files (epoch : Z) (lr0 : num) (s : Run) :
  files (v_run (epoch_view cfg input_range epoch lr0 s)) = files s.
Proof.
  unfold epoch_view. cbn [v_run].
  assert (Hd : files (decayed cfg epoch s) = files s).
  { unfold decayed. now destruct (epoch mod 30 =? 0). }
  destruct (truthy (log_dir cfg)); cbn [emit_all after_pass files]; exact Hd.
Qed.

(** What the body of the loop returns and leaves, case by case. *)
Lemma epoch_body_cases (epoch : Z) (lr0 best_acc1 : num) (s : Run) :
  let v := epoch_view cfg input_range epoch lr0 s in
  let acc := AverageMeter.avg (top1 (v_val v)) in
  let r := epoch_body cfg input_range keys epoch lr0 best_acc1 s in
  let saving :=
    nge acc best_acc1 && negb (String.eqb (checkpoint_path cfg) (Path "")) in
  let raised := saving && negb (can_write (files s) (checkpoint_path cfg)) in
  fst r = (if raised then inl OSError
           else if meter_ne (losses (v_train v)) (losses (v_train v))
                then inr Break
                else inr (Continue (v_lr v)
                            (if nge acc best_acc1 then acc else best_acc1)))
  /\ out (snd r)
     = out s ++ view_events cfg input_range epoch lr0 s
         ++ tail_events cfg keys epoch best_acc1 v
  /\ files (snd r)
     = (if saving && negb raised
        then <[checkpoint_path cfg :=
                 CheckpointFile (checkpoint_of keys epoch acc (v_run v))]> (files s)
        else files s)
  /\ net (snd r) = net (v_run v) /\ optimizer (snd r) = optimizer (v_run v).
Proof.
  cbv zeta. rewrite epoch_body_spec, remember_best_spec. unfold tail_events.
  rewrite view_files.
  set (v := epoch_view cfg input_range epoch lr0 s).
  pose proof (view_out epoch lr0 s) as Ho. fold v in Ho.
  pose proof (view_files epoch lr0 s) as Hf. fold v in Hf.
  destruct (nge (AverageMeter.avg (top1 (v_val v))) best_acc1);
    cbn [andb]; cycle 1.
  { cbn [negb andb]. destruct (meter_ne _ _); cbn [fst snd emit_all out files net optimizer];
      rewrite ?Ho, ?Hf, ?app_nil_r, <- ?app_assoc; repeat split; reflexivity. }
  destruct (negb (String.eqb (checkpoint_path cfg) (Path ""))); cbn [andb]; cycle 1.
  { cbn [negb andb]. destruct (meter_ne _ _); cbn [fst snd emit_all out files net optimizer];
      rewrite ?Ho, ?Hf, ?app_nil_r, <- ?app_assoc; repeat split; reflexivity. }
  cbv zeta. rewrite ?Hf.
  destruct (can_write (files s) (checkpoint_path cfg)); cbn [negb andb].
  - destruct (meter_ne _ _); cbn [fst snd emit_all out files net optimizer];
      rewrite ?Ho, ?Hf, ?app_nil_r, <- ?app_assoc; repeat split; reflexivity.
  - cbn [fst snd emit_all out files net optimizer].
    rewrite ?Ho, ?Hf, ?app_nil_r, <- ?app_assoc. repeat split; reflexivity.
Qed.

End EpochLemmas.

Lemma filter_none {A} (P : A -> bool) (xs : list A) :
  existsb P xs = false -> List.filter P xs = [].
Proof.
  induction xs as [|x xs IH]; [reflexivity|]. cbn [existsb List.filter].
  intros [Hx Hxs]%orb_false_iff. rewrite Hx. now apply IH.
Qed.

Lemma existsb_save_scalars {A} (f : A -> string) (g : A -> num) (e : Z)
    (xs : list A) :
  existsb is_save (map (fun x => add_scalar (f x) (g x) e) xs) = false.
Proof. induction xs as [|x xs IH]; [reflexivity | exact IH]. Qed.

Lemma view_events_no_save `{Collaborators} (cfg : Config) (input_range : num)
    (epoch : Z) (lr0 : num) (s : Run) :
  existsb is_save (view_events cfg input_range epoch lr0 s) = false.
Proof.
  unfold view_events. cbn [app existsb is_save orb].
  destruct (truthy (log_dir cfg)); [|reflexivity].
  unfold scalars. cbn [existsb is_save orb].
  now rewrite existsb_app, !existsb_save_scalars.
Qed.

Lemma tail_events_saves `{Collaborators} (cfg : Config) (keys : list string)
    (epoch : Z) (best_acc1 : num) (v : EpochView) :
  existsb is_save (tail_events cfg keys epoch best_acc1 v)
  = nge (AverageMeter.avg (top1 (v_val v))) best_acc1
    && negb (String.eqb (checkpoint_path cfg) (Path "")).
Proof.
  unfold tail_events. cbv zeta. rewrite existsb_app.
  destruct (_ && negb (String.eqb _ _)); cbn [existsb is_save orb andb];
    [reflexivity|].
  now destruct (_ && meter_ne _ _).
Qed.

Lemma tail_events_filter `{Collaborators} (cfg : Config) (keys : list string)
    (epoch : Z) (best_acc1 : num) (v : EpochView) :
  let acc := AverageMeter.avg (top1 (v_val v)) in
  List.filter is_save (tail_events cfg keys epoch best_acc1 v)
  = if nge acc best_acc1 && negb (String.eqb (checkpoint_path cfg) (Path ""))
    then [torch_save (checkpoint_of keys epoch acc (v_run v)) (checkpoint_path cfg)]
    else [].
Proof.
  unfold tail_events. cbv zeta. rewrite List.filter_app.
  destruct (_ && negb (String.eqb _ _)); cbn [List.filter is_save app andb];
    now destruct (_ && meter_ne _ _).
Qed.

Lemma loop_step_best `{Collaborators} (cfg : Config) (input_range : num)
    (keys : list string) (l l' : Loop) :
  loop_step cfg input_range keys l = Some l' ->
  l_best_acc1 l' = l_best_acc1 l
  \/ nge (l_best_acc1 l') (l_best_acc1 l) = true.
Proof.
  unfold loop_step. destruct (l_epochs l) as [|epoch epochs']; [discriminate|].
  destruct (epoch_body_cases cfg input_range keys epoch (l_lr l)
              (l_best_acc1 l) (l_run l)) as (Hr & _).
  destruct (epoch_body _ _ _ _ _ _ _) as [[e|[lr' b|]] s']; try discriminate.
  intros [= <-]. cbn [l_best_acc1 fst] in *.
  destruct (_ && negb (can_write _ _)); [discriminate|].
  destruct (meter_ne _ _); [discriminate|].
  injection Hr as _ ->.
  destruct (nge _ (l_best_acc1 l)) eqn:E; [now right | now left].
Qed.

(** C5. The epoch loop holds one best accuracy, and along the iterations
    of a run it never decreases: it stays as it is or becomes a value that
    is [>=] it.  In every epoch [torch.save] is called if and only if a
    checkpoint path is given and the top-1 average of the validation pass
    of the epoch is [>=] the best accuracy so far (equality included); the
    dictionary saved holds that average as [best_acc1], a path that can
    be written then holds it, and the loop goes on with that average as
    its best accuracy. *)
Theorem best_acc1_and_checkpoints `{Collaborators} (cfg : Config)
    (input_range : num) (keys : list string) (l l' : Loop) :
  reaches cfg input_range keys l l' ->
  (l_best_acc1 l' = l_best_acc1 l
   \/ nge (l_best_acc1 l') (l_best_acc1 l) = true)
  /\ forall epoch epochs', l_epochs l' = epoch :: epochs' ->
     let v := epoch_view cfg input_range epoch (l_lr l') (l_run l') in
     let acc := AverageMeter.avg (top1 (v_val v)) in
     let r := epoch_body cfg input_range keys epoch (l_lr l')
                (l_best_acc1 l') (l_run l') in
     let saved := existsb is_save (new_events (l_run l') (snd r)) in
     let better := nge acc (l_best_acc1 l') in
     let state := checkpoint_of keys epoch acc (v_run v) in
     (saved = true <-> checkpoint_path cfg <> Path "" /\ better = true)
     /\ List.filter is_save (new_events (l_run l') (snd r))
        = (if saved then [torch_save state (checkpoint_path cfg)] else [])
     /\ Checkpoint.best_acc1 state = acc
     /\ (saved = true ->
         can_write (files (l_run l')) (checkpoint_path cfg) = true ->
         files (snd r) !! checkpoint_path cfg = Some (CheckpointFile state))
     /\ (forall lr' best_acc1,
           fst r = inr (Continue lr' best_acc1) ->
           best_acc1 = if better then acc else l_best_acc1 l').
Proof.
  intros Hreach. split.
  - induction Hreach as [l|l l1 l2 Hstep _ IH]; [now left|].
    destruct (loop_step_best _ _ _ _ _ Hstep) as [E1|G1];
      destruct IH as [E2|G2].
    + left. congruence.
    + right. now rewrite <- E1.
    + right. now rewrite E2.
    + right. now apply nge_trans with (l_best_acc1 l1).
  - intros epoch epochs' _. cbv zeta.
    destruct (epoch_body_cases cfg input_range keys epoch (l_lr l')
                (l_best_acc1 l') (l_run l')) as (Hr & Ho & Hf & _).
    unfold new_events. rewrite Ho, skipn_length_app.
    rewrite existsb_app, view_events_no_save, List.filter_app. cbn [orb].
    rewrite (filter_none _ _ (view_events_no_save cfg input_range epoch
                                (l_lr l') (l_run l'))).
    cbn [app]. rewrite tail_events_saves, tail_events_filter.
    set (v := epoch_view cfg input_range epoch (l_lr l') (l_run l')) in *.
    set (acc := AverageMeter.avg (top1 (v_val v))) in *.
    split; [|split; [|split; [|split]]].
    + rewrite andb_true_iff, negb_true_iff, String.eqb_neq. tauto.
    + reflexivity.
    + reflexivity.
    + intros Hs Hw. rewrite Hs, Hw in Hf. cbn [negb andb] in Hf.
      rewrite Hf. apply lookup_insert_eq.
    + intros lr' b Hc. rewrite Hc in Hr.
      destruct (_ && negb (can_write _ _)); [discriminate|].
      destruct (meter_ne _ _); [discriminate | congruence].
Qed.

Lemma best_acc1_and_checkpoints_witness :
  (l_best_acc1 Sample.loop1 = l_best_acc1 Sample.loop0
   \/ nge (l_best_acc1 Sample.loop1) (l_best_acc1 Sample.loop0) = true)
  /\ files (l_run Sample.loop1) !! "ck.pt"%string
     = Some (CheckpointFile
               (checkpoint_of
                  ["features.0.weight"; "classifier.bias"]%string 0
                  (l_best_acc1 Sample.loop1) (l_run Sample.loop1))).
Proof.
  assert (Hreach : @reaches Sample.collaborators Sample.saving_config (Fin 2)
                     ["features.0.weight"; "classifier.bias"]%string
                     Sample.loop0 Sample.loop1).
  { eapply reaches_next; [|apply reaches_here]. vm_compute. reflexivity. }
  split.
  - exact (proj1 (@best_acc1_and_checkpoints Sample.collaborators
                    Sample.saving_config (Fin 2)
                    ["features.0.weight"; "classifier.bias"]%string
                    Sample.loop0 Sample.loop1 Hreach)).
  - vm_compute. reflexivity.
Defined.

(** ** The learning rate *)

Lemma range_cons (a b : Z) : a < b -> range a b = a :: range (a + 1) b.
Proof.
  intros Hab. unfold range.
  replace (Z.to_nat (b - a)) with (S (Z.to_nat (b - (a + 1)))) by lia.
  cbn [seq map]. f_equal; [lia|].
  rewrite <- seq_shift, map_map. apply map_ext. intros i. lia.
Qed.

Lemma range_nil (a b : Z) : b <= a -> range a b = [].
Proof.
  intros Hab. unfold range. now replace (Z.to_nat (b - a)) with 0%nat by lia.
Qed.

Lemma range_head (a b epoch : Z) (epochs' : list Z) :
  range a b = epoch :: epochs' -> epoch = a /\ epochs' = range (a + 1) b.
Proof.
  destruct (Z_lt_le_dec a b) as [Hlt|Hle].
  - rewrite (range_cons _ _ Hlt). now intros [= <- <-].
  - now rewrite (range_nil _ _ Hle).
Qed.

(** The learning rate is the same over each block of thirty epochs. *)
Lemma get_lr_next (cfg : Config) (epoch : Z) :
  (epoch + 1) mod 30 <> 0 -> get_lr cfg (epoch + 1) = get_lr cfg epoch.
Proof.
  intros Hm. unfold get_lr. do 3 f_equal.
  pose proof (Z.div_mod epoch 30 ltac:(lia)).
  pose proof (Z.mod_pos_bound epoch 30 ltac:(lia)).
  symmetry. apply (Z.div_unique _ _ _ (epoch mod 30 + 1)); [|lia].
  left. split; [lia|].
  assert (epoch mod 30 + 1 <> 30); [|lia].
  intros E. apply Hm.
  replace (epoch + 1) with (30 * (epoch / 30 + 1)) by lia.
  rewrite Z.mul_comm. apply Z.mod_mul. lia.
Qed.

Lemma nmul_one (x : num) : num_same (nmul x (Fin 1)) x.
Proof.
  destruct x as [q| | |]; cbn; try exact I. apply Qmult_1_r.
Qed.

Lemma get_lr_first (cfg : Config) (epoch : Z) :
  0 <= epoch < 30 -> num_same (get_lr cfg epoch) (learning_rate cfg).
Proof.
  intros He. unfold get_lr. rewrite (Z.div_small epoch 30) by lia.
  apply nmul_one.
Qed.

Lemma get_lr_second (cfg : Config) (epoch : Z) :
  30 <= epoch < 60 ->
  get_lr cfg epoch = nmul (learning_rate cfg) (Fin (1 # 10)).
Proof.
  intros He. unfold get_lr.
  replace (epoch / 30) with 1; [reflexivity|].
  apply (Z.div_unique epoch 30 1 (epoch - 30)); lia.
Qed.

Section PassOptimizer.

Context `{Collaborators}.

Variable cfg : Config.

Lemma compute_loss_optimizer (criterion : Matrix -> Targets -> num)
    (optimizer : option OptProg) (epsilon factor temperature : num)
    (inputs : Inputs) (targets : Targets) (b : bool) (s : Pass) :
  p_optimizer (snd (compute_loss criterion optimizer epsilon factor temperature
                      inputs targets b s))
  = p_optimizer s.
Proof.
  unfold compute_loss.
  destruct b; [destruct (compute_accuracy _ _)|];
    destruct (is_training optimizer); reflexivity.
Qed.

(** The step of SGD leaves the parameter groups as they are. *)
Lemma sgd_step_param_groups (clos : bool * Pass -> num * (bool * Pass))
    (st : bool * Pass) :
  (forall st', p_optimizer (snd (snd (clos st'))) = p_optimizer (snd st')) ->
  param_groups (p_optimizer (snd (step sgd_step clos st)))
  = param_groups (p_optimizer (snd st)).
Proof.
  intros Hc. unfold sgd_step. cbn [step].
  specialize (Hc st). destruct (clos st) as [loss st1]. cbn [snd] in Hc.
  cbn [step fst snd].
  destruct (fold_left _ _ _) as [n b]. cbn [step snd set_world p_optimizer param_groups].
  now rewrite Hc.
Qed.

Lemma one_batch_param_groups (input_range : num) (b : bool)
    (st : num * Pass) (batch : Batch) :
  param_groups
    (p_optimizer
       (snd (one_batch CrossEntropyLoss (if b then Some sgd_step else None)
               to_device (nmul (cfg_epsilon cfg) input_range) (cfg_factor cfg)
               (cfg_temperature cfg) st batch)))
  = param_groups (p_optimizer (snd st)).
Proof.
  destruct st as [end_ s]. unfold one_batch.
  cbn [read_clock]. cbv iota beta.
  set (s0 := set_data_time _ _).
  assert (H0 : p_optimizer s0 = p_optimizer s) by reflexivity.
  clearbody s0.
  destruct (to_device batch) as [inputs targets].
  assert (Htail : forall st1 : bool * Pass,
    p_optimizer (snd
      (let '(_, s1) := st1 in
       let '(now, s2) := read_clock s1 in
       read_clock (set_batch_time
          (AverageMeter.update (batch_time s2) (nsub now end_) 1) s2)))
    = p_optimizer (snd st1)).
  { intros [b1 s1]. reflexivity. }
  rewrite Htail. cbn [snd]. rewrite <- H0.
  destruct b.
  - apply (sgd_step_param_groups _ (true, s0)).
    intros [b1 s1]. rewrite closure_eq. cbn [snd].
    apply compute_loss_optimizer.
  - rewrite closure_eq. cbn [snd]. now rewrite compute_loss_optimizer.
Qed.

Lemma pass_of_param_groups (input_range : num) (loader : Loader) (b : bool)
    (s : Run) :
  param_groups (p_optimizer (pass_of cfg input_range loader b s))
  = param_groups (optimizer s).
Proof.
  unfold pass_of, run_batches.
  set (st := read_clock _).
  assert (H0 : param_groups (p_optimizer (snd st)) = param_groups (optimizer s))
    by reflexivity.
  clearbody st. revert st H0.
  induction (batches loader (passes s)) as [|batch bs IH]; intros st H0;
    cbn [fold_left]; [exact H0|].
  apply IH. now rewrite one_batch_param_groups.
Qed.

Lemma decayed_lrs (epoch : Z) (s : Run) :
  epoch mod 30 = 0 ->
  map lr (param_groups (optimizer (decayed cfg epoch s)))
  = map (fun _ => get_lr cfg epoch) (param_groups (optimizer s)).
Proof.
  intros Hm. unfold decayed. rewrite (proj2 (Z.eqb_eq _ _) Hm).
  cbn [optimizer param_groups]. rewrite map_map. reflexivity.
Qed.

Lemma decayed_groups (epoch : Z) (s : Run) :
  length (param_groups (optimizer (decayed cfg epoch s)))
  = length (param_groups (optimizer s)).
Proof.
  unfold decayed. destruct (epoch mod 30 =? 0); [|reflexivity].
  cbn [optimizer param_groups]. apply length_map.
Qed.

(** The parameter groups after an epoch are those of its decay step. *)
Lemma view_param_groups (input_range : num) (epoch : Z) (lr0 : num) (s : Run) :
  param_groups (optimizer (v_run (epoch_view cfg input_range epoch lr0 s)))
  = param_groups (optimizer (decayed cfg epoch s)).
Proof.
  unfold epoch_view. cbn [v_run].
  assert (Hp : forall loader b s1,
             param_groups (optimizer (after_pass cfg input_range loader b s1))
             = param_groups (optimizer s1)).
  { intros loader b s1. unfold after_pass. cbn [optimizer].
    apply pass_of_param_groups. }
  destruct (truthy (log_dir cfg)); cbn [emit_all optimizer]; now rewrite !Hp.
Qed.

End PassOptimizer.

Lemma map_const_length {A B C} (c : C) (xs : list A) (ys : list B) :
  length xs = length ys -> map (fun _ => c) xs = map (fun _ => c) ys.
Proof.
  revert ys. induction xs as [|x xs IH]; intros [|y ys]; try discriminate;
    [reflexivity|].
  intros [= Hl]. cbn [map]. now rewrite (IH ys Hl).
Qed.

(** The learning rates of the optimizer at the training pass of an epoch. *)
Lemma training_pass_lrs `{Collaborators} (cfg : Config) (input_range : num)
    (epoch : Z) (s : Run) :
  (epoch mod 30 <> 0 ->
   map lr (param_groups (optimizer s))
   = map (fun _ => get_lr cfg epoch) (param_groups (optimizer s))) ->
  map lr (param_groups (optimizer (decayed cfg epoch s)))
  = map (fun _ => get_lr cfg epoch) (param_groups (optimizer s)).
Proof.
  intros Hinv. destruct (Z.eq_dec (epoch mod 30) 0) as [Hm|Hm].
  - now apply decayed_lrs.
  - unfold decayed. rewrite (proj2 (Z.eqb_neq _ _) Hm). now apply Hinv.
Qed.

(** Along the loop of a run the epochs are consecutive and, inside a block
    of thirty epochs, the optimizer holds the learning rate of the block. *)
Lemma reaches_schedule `{Collaborators} (cfg : Config) (input_range : num)
    (keys : list string) (n : Z) (l0 l : Loop) :
  reaches cfg input_range keys l0 l ->
  forall e0,
    l_epochs l0 = range e0 n ->
    (e0 mod 30 <> 0 ->
     map lr (param_groups (optimizer (l_run l0)))
     = map (fun _ => get_lr cfg e0) (param_groups (optimizer (l_run l0)))) ->
    exists e,
      e0 <= e /\ l_epochs l = range e n
      /\ (e mod 30 <> 0 ->
          map lr (param_groups (optimizer (l_run l)))
          = map (fun _ => get_lr cfg e) (param_groups (optimizer (l_run l)))).
Proof.
  induction 1 as [l|l l1 l2 Hstep _ IH]; intros e0 He0 Hinv.
  - exists e0. split; [lia | now split].
  - unfold loop_step in Hstep. rewrite He0 in Hstep.
    destruct (range e0 n) as [|epoch epochs'] eqn:Er; [discriminate|].
    apply range_head in Er as [-> ->].
    destruct (epoch_body_cases cfg input_range keys e0 (l_lr l)
                (l_best_acc1 l) (l_run l)) as (_ & _ & _ & _ & Hopt).
    destruct (epoch_body _ _ _ _ _ _ _) as [[x|[lr' b|]] s']; try discriminate.
    injection Hstep as <-. cbn [snd] in Hopt.
    destruct (IH (e0 + 1)) as (e & Hle & Hl & Hlr).
    + reflexivity.
    + intros Hm. cbn [l_run]. rewrite Hopt, view_param_groups.
      rewrite (get_lr_next _ _ Hm).
      rewrite (training_pass_lrs cfg input_range e0 (l_run l) Hinv).
      apply map_const_length. symmetry. apply decayed_groups.
    + exists e. split; [lia | now split].
Qed.

(** C7. In the epoch loop of a run that starts at epoch 0, the training
    pass of every epoch [epoch] is run with [get_lr epoch] as the learning
    rate of every parameter group of the optimizer, where
    [get_lr epoch = learning_rate * 0.1 ^ (epoch // 30)]: [learning_rate]
    for the epochs before 30, [learning_rate * 0.1] from 30 to 59, and so
    on. *)
Theorem learning_rate_schedule `{Collaborators} (cfg : Config)
    (input_range : num) (keys : list string) (n : Z) (l0 l : Loop)
    (epoch : Z) (epochs' : list Z) :
  l_epochs l0 = range 0 n ->
  reaches cfg input_range keys l0 l ->
  l_epochs l = epoch :: epochs' ->
  let r := epoch_body cfg input_range keys epoch (l_lr l) (l_best_acc1 l)
             (l_run l) in
  0 <= epoch < n
  /\ (exists progress rest,
        new_events (l_run l) (snd r)
        = process_pass true
            (map (fun _ => get_lr cfg epoch)
                 (param_groups (optimizer (l_run l))))
            progress :: rest)
  /\ get_lr cfg epoch = nmul (learning_rate cfg) (Fin ((1 # 10) ^ (epoch / 30)))
  /\ (epoch < 30 -> num_same (get_lr cfg epoch) (learning_rate cfg))
  /\ (30 <= epoch < 60 ->
      get_lr cfg epoch = nmul (learning_rate cfg) (Fin (1 # 10))).
Proof.
  intros Hl0 Hreach Hl r.
  destruct (reaches_schedule cfg input_range keys n l0 l Hreach 0 Hl0)
    as (e & He & Hle & Hlr).
  { intros Hm. now elim Hm. }
  rewrite Hl in Hle.
  assert (Hen : e < n).
  { destruct (Z_lt_le_dec e n) as [Hlt|Hge]; [exact Hlt|].
    now rewrite (range_nil _ _ Hge) in Hle. }
  symmetry in Hle. apply range_head in Hle as [-> _].
  split; [lia|]. split; [|split; [reflexivity|split]].
  - destruct (epoch_body_cases cfg input_range keys e (l_lr l)
                (l_best_acc1 l) (l_run l)) as (_ & Ho & _).
    unfold r, new_events. rewrite Ho, skipn_length_app.
    unfold view_events. cbv zeta. cbn [app].
    rewrite (training_pass_lrs cfg input_range e (l_run l) Hlr).
    eauto.
  - intros H30. apply get_lr_first. lia.
  - apply get_lr_second.
Qed.

(** The sample run of 31 epochs: thirty training passes at the learning
    rate 1/10 and the last one at 1/100. *)
Example decay_at_epoch_30 :
  Sample.training_lrs
    (out (snd (@train_classifier Sample.collaborators Sample.long_config ∅ 0)))
  = map (fun epoch => [get_lr Sample.long_config epoch]) (range 0 31)
  /\ map (get_lr Sample.long_config) [0; 29; 30]
     = [nmul (Fin (1 # 10)) (Fin 1); nmul (Fin (1 # 10)) (Fin 1);
        nmul (Fin (1 # 10)) (Fin (1 # 10))].
Proof. split; vm_compute; reflexivity. Qed.

Lemma learning_rate_schedule_witness :
  exists progress rest,
    new_events (l_run Sample.loop1)
      (snd (@epoch_body Sample.collaborators Sample.saving_config (Fin 2)
              ["features.0.weight"; "classifier.bias"]%string 1
              (l_lr Sample.loop1) (l_best_acc1 Sample.loop1)
              (l_run Sample.loop1)))
    = process_pass true
        (map (fun _ => get_lr Sample.saving_config 1)
             (param_groups (optimizer (l_run Sample.loop1))))
        progress :: rest.
Proof.
  assert (Hreach : @reaches Sample.collaborators Sample.saving_config (Fin 2)
                     ["features.0.weight"; "classifier.bias"]%string
                     Sample.loop0 Sample.loop1).
  { eapply reaches_next; [|apply reaches_here]. vm_compute. reflexivity. }
  assert (Hl : l_epochs Sample.loop1 = [1]) by (vm_compute; reflexivity).
  exact (proj1 (proj2 (@learning_rate_schedule Sample.collaborators
                         Sample.saving_config (Fin 2)
                         ["features.0.weight"; "classifier.bias"]%string
                         2 Sample.loop0 Sample.loop1 1 [] eq_refl Hreach Hl))).
Defined.

(** ** The NaN test *)

Lemma view_events_shape `{Collaborators} (cfg : Config) (input_range : num)
    (epoch : Z) (lr0 : num) (s : Run) :
  let v := epoch_view cfg input_range epoch lr0 s in
  exists lrs lrs' rest,
    view_events cfg input_range epoch lr0 s
    = process_pass true lrs (progress_of (v_train v))
      :: process_pass false lrs' (progress_of (v_val v))
      :: print (epoch_line (epoch + 1) (v_lr v) (losses (v_train v))
                  (top1 (v_train v)) (losses (v_val v)) (top1 (v_val v)))
      :: rest
    /\ existsb is_pass rest = false /\ existsb is_save rest = false.
Proof.
  cbv zeta. unfold view_events. cbv zeta. cbn [app].
  do 3 eexists. split; [reflexivity|].
  destruct (truthy (log_dir cfg)); [|now split].
  unfold scalars. cbn [existsb is_pass is_save orb]. rewrite !existsb_app.
  assert (Hp : forall (f : AverageMeter.t -> string) xs,
             existsb is_pass
               (map (fun x => add_scalar (f x) (AverageMeter.avg x) epoch) xs)
             = false).
  { intros f xs. induction xs as [|x xs IH]; [reflexivity | exact IH]. }
  now rewrite !Hp, !existsb_save_scalars.
Qed.

(** C1, as the code has it.  When the NaN test [train_loss != train_loss]
    of an epoch succeeds, and the checkpoint of that epoch, if one is
    saved, can be written, the loop prints the message and ends without an
    exception: no further epoch is processed.  The test is the last step
    of the epoch: the events of the epoch are the training pass, the
    validation pass, the line of the epoch, the scalars when there is a
    log directory and the call of [torch.save] when the validation
    accuracy is at least the best one and there is a checkpoint path, and
    only then the message; the checkpoint path then holds what was
    saved. *)
Theorem nan_ends_the_run_after_the_epoch `{Collaborators} (cfg : Config)
    (input_range : num) (keys : list string) (epoch : Z) (epochs : list Z)
    (lr0 best_acc1 : num) (s : Run) :
  let v := epoch_view cfg input_range epoch lr0 s in
  let acc := AverageMeter.avg (top1 (v_val v)) in
  let saving :=
    nge acc best_acc1 && negb (String.eqb (checkpoint_path cfg) (Path "")) in
  meter_ne (losses (v_train v)) (losses (v_train v)) = true ->
  (saving = true -> can_write (files s) (checkpoint_path cfg) = true) ->
  let r := epoch_loop cfg input_range keys (epoch :: epochs) lr0 best_acc1 s in
  let s1 := decayed cfg epoch s in
  let s2 := after_pass cfg input_range (train_loader cfg) true s1 in
  fst r = inr tt
  /\ new_events s (snd r)
     = [process_pass true (map lr (param_groups (optimizer s1)))
          (progress_of (v_train v));
        process_pass false (map lr (param_groups (optimizer s2)))
          (progress_of (v_val v));
        print (epoch_line (epoch + 1) (v_lr v) (losses (v_train v))
                 (top1 (v_train v)) (losses (v_val v)) (top1 (v_val v)))]
       ++ (if truthy (log_dir cfg)
           then scalars epoch (v_lr v) (v_train v) (v_val v) else [])
       ++ (if saving
           then [torch_save (checkpoint_of keys epoch acc (v_run v))
                   (checkpoint_path cfg)]
           else [])
       ++ [print training_stopped_nan]
  /\ files (snd r)
     = (if saving
        then <[checkpoint_path cfg :=
                 CheckpointFile (checkpoint_of keys epoch acc (v_run v))]>
               (files s)
        else files s).
Proof.
  intros v acc saving Htest Hsave r s1 s2.
  destruct (epoch_body_cases cfg input_range keys epoch lr0 best_acc1 s)
    as (Hr & Ho & Hf & _).
  fold v in Hr, Ho, Hf. fold acc in Hr, Ho, Hf. fold saving in Hr, Hf.
  assert (Hraise : saving && negb (can_write (files s) (checkpoint_path cfg))
                   = false).
  { destruct (bool_dec saving true) as [E|E].
    - rewrite (Hsave E). apply andb_false_r.
    - apply not_true_is_false in E. now rewrite E. }
  rewrite Hraise, Htest in Hr. rewrite Hraise in Hf.
  cbn [negb] in Hf. rewrite andb_true_r in Hf.
  unfold r. rewrite epoch_loop_cons.
  destruct (epoch_body cfg input_range keys epoch lr0 best_acc1 s)
    as [res s'] eqn:Eb.
  cbn [fst snd] in Hr, Ho, Hf. subst res. cbn [fst snd].
  split; [reflexivity|]. split; [|exact Hf].
  unfold new_events. rewrite Ho, skipn_length_app.
  unfold view_events, tail_events. cbv zeta. fold v. fold acc.
  pose proof (view_files cfg input_range epoch lr0 s) as Hvf. fold v in Hvf.
  rewrite Hvf. fold saving. rewrite Hraise, Htest. cbn [negb andb].
  fold s1. fold s2. now rewrite <- !app_assoc.
Qed.

(** An epoch whose training loss is NaN, with a checkpoint path that
    cannot be written and a validation accuracy below the best one:
    nothing is saved, and the loop ends with the message. *)
Lemma nan_ends_the_run_after_the_epoch_witness :
  fst (@epoch_loop Sample.collaborators Sample.nan_readonly_config (Fin 2)
         ["features.0.weight"; "classifier.bias"]%string [0; 1]
         (get_lr Sample.nan_readonly_config 0) (Fin 60)
         (@initial Sample.collaborators Sample.nan_readonly_config ∅ 0))
  = inr tt.
Proof.
  assert (Htest :
    let v := @epoch_view Sample.collaborators Sample.nan_readonly_config
               (Fin 2) 0 (get_lr Sample.nan_readonly_config 0)
               (@initial Sample.collaborators Sample.nan_readonly_config ∅ 0) in
    @meter_ne Sample.collaborators (losses (v_train v)) (losses (v_train v))
    = true) by (vm_compute; reflexivity).
  assert (Hsave :
    let v := @epoch_view Sample.collaborators Sample.nan_readonly_config
               (Fin 2) 0 (get_lr Sample.nan_readonly_config 0)
               (@initial Sample.collaborators Sample.nan_readonly_config ∅ 0) in
    nge (AverageMeter.avg (top1 (v_val v))) (Fin 60)
    && negb (String.eqb
               (@checkpoint_path Sample.collaborators
                  Sample.nan_readonly_config)
               (@Path Sample.collaborators "")) = true ->
    @can_write Sample.collaborators
      (files (@initial Sample.collaborators Sample.nan_readonly_config ∅ 0))
      (@checkpoint_path Sample.collaborators Sample.nan_readonly_config)
    = true)
    by (intros v Hs; vm_compute in Hs; discriminate Hs).
  exact (proj1 (@nan_ends_the_run_after_the_epoch Sample.collaborators
                  Sample.nan_readonly_config (Fin 2)
                  ["features.0.weight"; "classifier.bias"]%string 0 [1]
                  (get_lr Sample.nan_readonly_config 0) (Fin 60)
                  (@initial Sample.collaborators Sample.nan_readonly_config
                     ∅ 0)
                  Htest Hsave)).
Defined.

(** The same epoch, event by event: nothing is saved and the message is
    the last event. *)
Example nan_epoch_without_save :
  let r := @epoch_loop Sample.collaborators Sample.nan_readonly_config (Fin 2)
             ["features.0.weight"; "classifier.bias"]%string [0; 1]
             (get_lr Sample.nan_readonly_config 0) (Fin 60)
             (@initial Sample.collaborators Sample.nan_readonly_config ∅ 0) in
  map (fun ev => (is_pass ev, is_save ev)) (out (snd r))
  = [(true, false); (true, false); (false, false); (false, false)]
  /\ List.last (out (snd r)) writer_close = print training_stopped_nan.
Proof. split; vm_compute; reflexivity. Qed.

(** C1, as the specification has it, fails: in the run on the sample
    dataset whose training loss is NaN, the training pass with the NaN
    loss is followed by the validation pass of the same epoch. *)
Lemma nan_epoch_is_validated :
  ~ nan_skips_validation
      (out (snd (@train_classifier Sample.collaborators Sample.nan_config ∅ 0))).
Proof.
  intros Hc.
  set (evs := out (snd (@train_classifier Sample.collaborators
                          Sample.nan_config ∅ 0))) in *.
  specialize (Hc (firstn 3 evs) (pass_lrs (nth 3 evs writer_close))
                (pass_progress (nth 3 evs writer_close)) (skipn 4 evs)).
  assert (Hsplit : evs = firstn 3 evs
                         ++ process_pass true (pass_lrs (nth 3 evs writer_close))
                              (pass_progress (nth 3 evs writer_close))
                            :: skipn 4 evs)
    by (vm_compute; reflexivity).
  assert (Hnan : loss_is_nan
                   (process_pass true (pass_lrs (nth 3 evs writer_close))
                      (pass_progress (nth 3 evs writer_close))) = true)
    by (vm_compute; reflexivity).
  specialize (Hc Hsplit Hnan).
  assert (Hval : existsb is_pass (skipn 4 evs) = true)
    by (vm_compute; reflexivity).
  congruence.
Qed.

(** The same run, event by event: the baseline, then the training pass
    with the NaN loss, the validation pass, the line of the epoch, and
    only then the message. *)
Example nan_run_events :
  map (fun ev => (is_pass ev, loss_is_nan ev))
      (out (snd (@train_classifier Sample.collaborators Sample.nan_config ∅ 0)))
  = [(false, false); (true, false); (false, false);
     (true, true); (true, false); (false, false); (false, false)]
  /\ List.last (out (snd (@train_classifier Sample.collaborators Sample.nan_config ∅ 0)))
          writer_close
     = print training_stopped_nan.
Proof. split; vm_compute; reflexivity. Qed.

(** ** A checkpoint path that cannot be written *)

(** C8, as the code has it.  When the validation accuracy of an epoch is
    at least the best accuracy, a checkpoint path is given and the path
    cannot be written, the [OSError] of [torch.save] is not caught: the
    loop, and whatever follows it, ends with that exception right after
    the call; nothing is printed, no file is written and no further epoch
    is processed. *)
Theorem failed_save_ends_the_run `{Collaborators} (cfg : Config)
    (input_range : num) (keys : list string) (epoch : Z) (epochs : list Z)
    (lr0 best_acc1 : num) (s : Run) (k : unit -> M unit) :
  let v := epoch_view cfg input_range epoch lr0 s in
  let acc := AverageMeter.avg (top1 (v_val v)) in
  nge acc best_acc1 = true ->
  checkpoint_path cfg <> Path "" ->
  can_write (files s) (checkpoint_path cfg) = false ->
  let r := (let* _ := epoch_loop cfg input_range keys (epoch :: epochs) lr0
                        best_acc1 in k tt) s in
  fst r = inl OSError
  /\ new_events s (snd r)
     = view_events cfg input_range epoch lr0 s
       ++ [torch_save (checkpoint_of keys epoch acc (v_run v))
             (checkpoint_path cfg)]
  /\ files (snd r) = files s.
Proof.
  intros v acc Hb Hp Hw r.
  destruct (epoch_body_cases cfg input_range keys epoch lr0 best_acc1 s)
    as (Hr & Ho & Hf & _).
  fold v acc in Hr, Ho, Hf.
  apply String.eqb_neq in Hp.
  rewrite Hb, Hp, Hw in Hr, Hf. cbn [negb andb] in Hr, Hf.
  unfold r, bind. rewrite epoch_loop_cons.
  destruct (epoch_body cfg input_range keys epoch lr0 best_acc1 s)
    as [res s'] eqn:Eb.
  cbn [fst snd] in Hr, Ho, Hf. subst res. cbn [fst snd].
  split; [reflexivity | split; [|exact Hf]].
  unfold new_events. rewrite Ho, skipn_length_app. f_equal.
  unfold tail_events. cbv zeta. fold v acc.
  pose proof (view_files cfg input_range epoch lr0 s) as Hvf. fold v in Hvf.
  rewrite Hvf, Hb, Hp, Hw. reflexivity.
Qed.

Lemma failed_save_ends_the_run_witness :
  fst (bind (@epoch_loop Sample.collaborators Sample.readonly_config (Fin 2)
               ["features.0.weight"; "classifier.bias"]%string [0; 1]
               (get_lr Sample.readonly_config 0) (Fin 0))
            (fun _ => ret tt)
            (@initial Sample.collaborators Sample.readonly_config ∅ 0))
  = inl OSError.
Proof.
  assert (Hb : nge (AverageMeter.avg
                      (top1 (v_val (@epoch_view Sample.collaborators
                                      Sample.readonly_config (Fin 2) 0
                                      (get_lr Sample.readonly_config 0)
                                      (@initial Sample.collaborators
                                         Sample.readonly_config ∅ 0)))))
                   (Fin 0) = true) by (vm_compute; reflexivity).
  assert (Hp : @checkpoint_path Sample.collaborators Sample.readonly_config
               <> @Path Sample.collaborators "") by discriminate.
  assert (Hw : @can_write Sample.collaborators
                 (files (@initial Sample.collaborators Sample.readonly_config ∅ 0))
                 (@checkpoint_path Sample.collaborators Sample.readonly_config)
               = false) by (vm_compute; reflexivity).
  exact (proj1 (@failed_save_ends_the_run Sample.collaborators
                  Sample.readonly_config (Fin 2)
                  ["features.0.weight"; "classifier.bias"]%string 0 [1]
                  (get_lr Sample.readonly_config 0) (Fin 0)
                  (@initial Sample.collaborators Sample.readonly_config ∅ 0)
                  (fun _ => ret tt) Hb Hp Hw)).
Defined.

(** C8, as the specification has it, fails: the sample run whose
    checkpoint path cannot be written calls [torch.save] in its first epoch
    and ends with the exception; of its two epochs only the first has a
    training pass, and the call is its last event. *)
Lemma failed_save_crashes :
  ~ survives_save
      (@train_classifier Sample.collaborators Sample.readonly_config ∅ 0).
Proof.
  unfold survives_save. intros Hc.
  assert (Hsave : existsb is_save
                    (out (snd (@train_classifier Sample.collaborators
                                 Sample.readonly_config ∅ 0))) = true)
    by (vm_compute; reflexivity).
  specialize (Hc Hsave).
  assert (Hraise : fst (@train_classifier Sample.collaborators
                          Sample.readonly_config ∅ 0) = inl OSError)
    by (vm_compute; reflexivity).
  congruence.
Qed.

Example failed_save_run_events :
  let r := @train_classifier Sample.collaborators Sample.readonly_config ∅ 0 in
  fst r = inl OSError
  /\ map (fun ev => (is_pass ev, is_save ev)) (out (snd r))
     = [(false, false); (true, false); (false, false);
        (true, false); (true, false); (false, false); (false, true)]
  /\ files (snd r) = ∅.
Proof. repeat split; vm_compute; reflexivity. Qed.

(** ** Resuming *)

Lemma train_classifier_fresh_start `{Collaborators} (cfg : Config)
    (fs : gmap string File) (clock : nat) (ir : num) (resumed : Z * num)
    (s : Run) :
  let prelude :=
    (if (0 <? length (devices))%nat
     then [print (using_gpus (length devices))] else [])
    ++ [print (if pretrained cfg then using_pretrained_model (model cfg)
               else creating_model (model cfg))] in
  input_range cfg = Some ir ->
  resume_checkpoint cfg (emit_all prelude (initial cfg fs clock))
  = (inr resumed, s) ->
  train_classifier cfg fs clock
  = evaluate_and_train cfg ir (keys (state_dict (created_net cfg)))
      (fst resumed) (snd resumed) s.
Proof.
  intros prelude Hir Hres. unfold train_classifier, train_classifier_body.
  unfold bind at 1.
  assert (Hgpu :
    (if (0 <? length devices)%nat
     then emit (print (using_gpus (length devices))) else ret tt)
      (initial cfg fs clock)
    = (inr tt,
       emit_all (if (0 <? length devices)%nat
                 then [print (using_gpus (length devices))] else [])
         (initial cfg fs clock))).
  { destruct (0 <? length devices)%nat; [reflexivity|].
    reflexivity. }
  rewrite Hgpu. unfold bind at 1. rewrite Hir. cbn [of_option]. unfold ret at 1.
  unfold bind at 1.
  assert (Hmodel : forall s0,
    (if pretrained cfg
     then emit (print (using_pretrained_model (model cfg)))
     else emit (print (creating_model (model cfg)))) s0
    = (inr tt,
       emit_all [print (if pretrained cfg then using_pretrained_model (model cfg)
                        else creating_model (model cfg))] s0)).
  { intros s0. now destruct (pretrained cfg). }
  rewrite Hmodel, emit_all_app. fold prelude.
  unfold bind at 1, get. cbn [emit_all net initial].
  unfold bind at 1. fold (emit_all prelude (initial cfg fs clock)).
  now rewrite Hres.
Qed.

(** C9. When the resume path is given (it differs from [Path()]) and is
    not a file, [train_classifier] prints that no checkpoint was found and
    goes on as a fresh run: from epoch 0 with a best accuracy of 0, with
    the model and the optimizer as constructed and the files untouched. *)
Theorem missing_checkpoint_starts_fresh `{Collaborators} (cfg : Config)
    (fs : gmap string File) (clock : nat) (ir : num) :
  input_range cfg = Some ir ->
  is_file fs (resume_path cfg) = false ->
  resume_path cfg <> Path "" ->
  let prelude :=
    (if (0 <? length (devices))%nat
     then [print (using_gpus (length devices))] else [])
    ++ [print (if pretrained cfg then using_pretrained_model (model cfg)
               else creating_model (model cfg))] in
  let s := emit_all (prelude ++ [print (no_checkpoint_found (resume_path cfg))])
             (initial cfg fs clock) in
  train_classifier cfg fs clock
  = evaluate_and_train cfg ir (keys (state_dict (created_net cfg))) 0 (Fin 0) s
  /\ net s = created_net cfg
  /\ optimizer s = SGD (learning_rate cfg) (cfg_momentum cfg) (cfg_weight_decay cfg)
  /\ files s = fs.
Proof.
  intros Hir Hfile Hreq prelude s.
  split; [|repeat split].
  apply (train_classifier_fresh_start cfg fs clock ir (0, Fin 0) s Hir).
  unfold resume_checkpoint. cbv zeta. unfold bind at 1, get.
  cbn [emit_all files initial]. rewrite Hfile.
  rewrite (proj2 (String.eqb_neq _ _) Hreq). cbn [negb].
  unfold bind, ret. rewrite emit_spec, emit_all_app. reflexivity.
Qed.

Lemma missing_checkpoint_starts_fresh_witness :
  let s := emit_all [print (creating_model "resnet18");
                     print (no_checkpoint_found "missing.pt")]
             (@initial Sample.collaborators Sample.missing_config ∅ 0) in
  @train_classifier Sample.collaborators Sample.missing_config ∅ 0
  = @evaluate_and_train Sample.collaborators Sample.missing_config
      Sample.the_input_range ["features.0.weight"; "classifier.bias"]%string
      0 (Fin 0) s.
Proof.
  assert (Hir : @input_range Sample.collaborators Sample.missing_config
                = Some Sample.the_input_range) by (vm_compute; reflexivity).
  assert (Hfile : is_file ∅ (@resume_path Sample.collaborators
                               Sample.missing_config) = false)
    by (vm_compute; reflexivity).
  assert (Hreq : @resume_path Sample.collaborators Sample.missing_config
                 <> @Path Sample.collaborators "") by discriminate.
  exact (proj1 (@missing_checkpoint_starts_fresh Sample.collaborators
                  Sample.missing_config ∅ 0 Sample.the_input_range
                  Hir Hfile Hreq)).
Defined.

(** ** The round trip of a checkpoint *)

Lemma dict_set_fresh {V} (d : dict V) (k : string) (v : V) :
  ~ In k (keys d) -> dict_set d k v = d ++ [(k, v)].
Proof.
  induction d as [|[k' v'] d IH]; intros Hk; [reflexivity|].
  cbn [dict_set]. cbn [keys map fst In] in Hk.
  destruct (String.eqb_spec k' k) as [->|Hne]; [tauto|].
  cbn [app]. f_equal. apply IH. unfold keys. tauto.
Qed.

Lemma dict_of_pairs_nodup {V} (kvs : list (string * V)) :
  List.NoDup (map fst kvs) -> dict_of_pairs kvs = kvs.
Proof.
  unfold dict_of_pairs.
  assert (Hgen : forall acc : dict V,
             List.NoDup (map fst (acc ++ kvs)) ->
             fold_left (fun d kv => dict_set d (fst kv) (snd kv)) kvs acc
             = acc ++ kvs).
  { induction kvs as [|[k v] kvs IH]; intros acc Hnd; cbn [fold_left].
    - now rewrite app_nil_r.
    - cbn [fst snd]. rewrite dict_set_fresh.
      + rewrite IH; rewrite <- app_assoc; [reflexivity | exact Hnd].
      + rewrite map_app in Hnd. cbn [map fst] in Hnd.
        apply List.NoDup_remove_2 in Hnd. intros Hin. apply Hnd.
        apply in_or_app. now left. }
  intros Hnd. now apply (Hgen []).
Qed.

Lemma zip_keys_values {V} (d : dict V) : zip (keys d) (values d) = d.
Proof.
  induction d as [|[k v] d IH]; [reflexivity|].
  unfold zip, keys, values in *. cbn [map combine fst snd]. now rewrite IH.
Qed.

Lemma values_state_dict (n : Net) : values (state_dict n) = values (weights n).
Proof. unfold values, state_dict. now rewrite map_map. Qed.

Lemma state_dict_not_parallel (n : Net) :
  parallel n = NotParallel -> state_dict n = weights n.
Proof.
  intros Hp. unfold state_dict. rewrite Hp. cbn [wrap_key].
  induction (weights n) as [|[k v] d IH]; [reflexivity|].
  cbn [map fst snd]. now rewrite IH.
Qed.

Lemma dict_get_nodup {V} (d : dict V) (k : string) (v : V) :
  List.NoDup (keys d) -> In (k, v) d -> dict_get d k = Some v.
Proof.
  induction d as [|[k' v'] d IH]; intros Hnd Hin; [destruct Hin|].
  cbn [keys map fst] in Hnd. apply List.NoDup_cons_iff in Hnd as [Hk' Hnd].
  cbn [dict_get]. destruct Hin as [[= -> ->]|Hin].
  - now rewrite String.eqb_refl.
  - destruct (String.eqb_spec k' k) as [->|Hne]; [|now apply IH].
    elim Hk'. change k with (fst (k, v)). now apply in_map.
Qed.

Lemma same_keys_refl (ks : list string) : same_keys ks ks = true.
Proof.
  unfold same_keys.
  assert (Hall : forallb (fun k => existsb (String.eqb k) ks) ks = true).
  { apply forallb_forall. intros k Hk. apply existsb_exists.
    exists k. split; [exact Hk | apply String.eqb_refl]. }
  now rewrite Hall.
Qed.

(** Loading a dictionary with the names and the shapes of the model gives
    the model the entries of the dictionary. *)
Lemma load_entries (d1 : dict Tensor) :
  List.NoDup (keys d1) ->
  forall suf d2 : dict Tensor,
    incl suf d1 ->
    keys d2 = keys suf ->
    map (fun kv => length (snd kv)) d2 = map (fun kv => length (snd kv)) suf ->
    forallb (same_shape d1) d2 = true
    /\ map (fun kv => (fst kv,
                       match dict_get d1 (fst kv) with
                       | Some v => v
                       | None => snd kv
                       end)) d2 = suf.
Proof.
  intros Hnd. induction suf as [|[k v] suf IH]; intros [|[k2 v2] d2] Hin Hk Hs;
    try discriminate; [now split|].
  cbn [keys map fst snd] in Hk, Hs. injection Hk as -> Hk. injection Hs as Hv Hs.
  destruct (IH d2) as [Hshape Hmap]; try assumption.
  { intros kv Hkv. apply Hin. now right. }
  assert (Hget : dict_get d1 k = Some v).
  { apply dict_get_nodup; [exact Hnd|]. apply Hin. now left. }
  cbn [forallb map fst snd]. unfold same_shape at 1. cbn [fst snd].
  rewrite Hget, Hshape, Hmap. split; [|reflexivity].
  rewrite andb_true_r. apply Nat.eqb_eq. now symmetry.
Qed.

Lemma load_state_dict_same (n1 n2 : Net) :
  parallel n2 = NotParallel ->
  List.NoDup (keys (weights n1)) ->
  keys (weights n2) = keys (weights n1) ->
  map (fun kv => length (snd kv)) (weights n2)
  = map (fun kv => length (snd kv)) (weights n1) ->
  load_state_dict (weights n1) n2 = Some (set_weights (weights n1) n2).
Proof.
  intros Hp Hnd Hk Hs. unfold load_state_dict.
  rewrite (state_dict_not_parallel _ Hp), Hk, same_keys_refl, Hp.
  cbn [wrap_key andb].
  destruct (load_entries (weights n1) Hnd (weights n1) (weights n2)
              (incl_refl _) Hk Hs) as [Hshape Hmap].
  now rewrite Hshape, Hmap.
Qed.

(** Resuming from a file that holds a checkpoint which the model and the
    optimizer accept. *)
Lemma resume_checkpoint_loads `{Collaborators} (cfg : Config) (s : Run)
    (state : Checkpoint.t) (n : Net) (o : Optimizer) :
  files s !! resume_path cfg = Some (CheckpointFile state) ->
  load_state_dict (Checkpoint.state_dict state) (net s) = Some n ->
  optimizer_load_state_dict (Checkpoint.optimizer state) (optimizer s) = Some o ->
  resume_checkpoint cfg s
  = (inr (Checkpoint.epoch state, Checkpoint.best_acc1 state),
     {| net := n; optimizer := o; files := files s; clock := clock s;
        passes := passes s;
        out := out s ++ [print (loading_checkpoint (resume_path cfg));
                         torch_load (resume_path cfg);
                         print (loaded_checkpoint (resume_path cfg)
                                  (Checkpoint.epoch state))] |}).
Proof.
  intros Hfile Hnet Hopt. unfold resume_checkpoint. cbv zeta.
  unfold bind at 1, get. unfold is_file. rewrite Hfile.
  unfold bind at 1. rewrite emit_spec.
  unfold bind at 1. unfold load, bind at 1. rewrite emit_spec.
  unfold bind at 1, get. cbn [emit_all files]. rewrite Hfile. unfold ret at 1.
  unfold bind at 1. rewrite Hnet. cbn [of_option]. unfold ret at 1.
  unfold bind at 1, put_model at 1.
  unfold bind at 1. rewrite Hopt. cbn [of_option]. unfold ret at 1.
  unfold bind at 1, put_model at 1.
  unfold bind at 1. rewrite emit_spec. unfold ret, emit_all.
  cbn [net optimizer files clock passes out].
  now rewrite <- !app_assoc.
Qed.

(** C6. A checkpoint saved at an epoch with the new best accuracy and
    loaded by a run that resumes from its path, into a model with the
    same names and shapes and an optimizer with as many parameter groups,
    gives that run the entries of the saved model and the state of the
    saved optimizer, [epoch + 1] as its first epoch and the saved best
    accuracy. *)
Theorem checkpoint_round_trip `{Collaborators} (cfg1 cfg2 : Config)
    (keys0 : list string) (epoch : Z) (val_acc : AverageMeter.t)
    (best_acc1 : num) (s1 s2 : Run) :
  let saved := remember_best cfg1 keys0 epoch val_acc best_acc1 s1 in
  nge (AverageMeter.avg val_acc) best_acc1 = true ->
  checkpoint_path cfg1 <> Path "" ->
  can_write (files s1) (checkpoint_path cfg1) = true ->
  keys0 = keys (weights (net s1)) ->
  List.NoDup keys0 ->
  resume_path cfg2 = checkpoint_path cfg1 ->
  files s2 = files (snd saved) ->
  parallel (net s2) = NotParallel ->
  keys (weights (net s2)) = keys0 ->
  map (fun kv => length (snd kv)) (weights (net s2))
  = map (fun kv => length (snd kv)) (weights (net s1)) ->
  length (param_groups (optimizer s2)) = length (param_groups (optimizer s1)) ->
  let resumed := resume_checkpoint cfg2 s2 in
  fst saved = inr (AverageMeter.avg val_acc)
  /\ fst resumed = inr (epoch + 1, AverageMeter.avg val_acc)
  /\ weights (net (snd resumed)) = weights (net s1)
  /\ optimizer (snd resumed) = optimizer s1.
Proof.
  intros saved Hb Hp Hw Hk0 Hnd Hres Hfs Hpar Hk2 Hsh Hg resumed.
  unfold saved in *. rewrite remember_best_spec in *.
  rewrite Hb, (proj2 (String.eqb_neq _ _) Hp), Hw in *.
  cbn [negb fst snd files emit_all] in *.
  split; [reflexivity|].
  set (state := checkpoint_of keys0 epoch (AverageMeter.avg val_acc) s1) in *.
  assert (Hsd : Checkpoint.state_dict state = weights (net s1)).
  { unfold state, checkpoint_of. cbn [Checkpoint.state_dict].
    rewrite values_state_dict, Hk0, zip_keys_values.
    apply dict_of_pairs_nodup. rewrite Hk0 in Hnd. exact Hnd. }
  assert (Hfile : files s2 !! resume_path cfg2 = Some (CheckpointFile state)).
  { rewrite Hfs, Hres. apply lookup_insert_eq. }
  assert (Hnet : load_state_dict (Checkpoint.state_dict state) (net s2)
                 = Some (set_weights (weights (net s1)) (net s2))).
  { rewrite Hsd. apply load_state_dict_same; try assumption.
    - now rewrite <- Hk0.
    - now rewrite Hk2. }
  assert (Hopt : optimizer_load_state_dict (Checkpoint.optimizer state)
                   (optimizer s2) = Some (optimizer s1)).
  { unfold optimizer_load_state_dict, state, checkpoint_of.
    cbn [Checkpoint.optimizer]. now rewrite Hg, Nat.eqb_refl. }
  unfold resumed.
  rewrite (resume_checkpoint_loads cfg2 s2 state _ _ Hfile Hnet Hopt).
  cbn [fst snd net optimizer set_weights weights]. repeat split.
Qed.

Lemma checkpoint_round_trip_witness :
  fst (@resume_checkpoint Sample.collaborators Sample.resuming_config
         Sample.resuming_run)
  = inr (4 + 1, AverageMeter.avg Sample.half_right)
  /\ weights (net (snd (@resume_checkpoint Sample.collaborators
                          Sample.resuming_config Sample.resuming_run)))
     = weights (net Sample.saving_run)
  /\ optimizer (snd (@resume_checkpoint Sample.collaborators
                       Sample.resuming_config Sample.resuming_run))
     = optimizer Sample.saving_run.
Proof.
  assert (Hb : nge (AverageMeter.avg Sample.half_right) (Fin 0) = true)
    by (vm_compute; reflexivity).
  assert (Hp : @checkpoint_path Sample.collaborators Sample.saving_config
               <> @Path Sample.collaborators "") by discriminate.
  assert (Hw : @can_write Sample.collaborators (files Sample.saving_run)
                 (@checkpoint_path Sample.collaborators Sample.saving_config)
               = true) by (vm_compute; reflexivity).
  assert (Hnd : List.NoDup ["features.0.weight"; "classifier.bias"]%string).
  { repeat (constructor;
            [cbn; intros Hin;
             repeat (destruct Hin as [Hin|Hin]; [discriminate Hin|]);
             exact Hin|]).
    constructor. }
  exact (proj2 (@checkpoint_round_trip Sample.collaborators
                  Sample.saving_config Sample.resuming_config
                  ["features.0.weight"; "classifier.bias"]%string 4
                  Sample.half_right (Fin 0) Sample.saving_run
                  Sample.resuming_run
                  Hb Hp Hw eq_refl Hnd eq_refl eq_refl eq_refl eq_refl
                  eq_refl eq_refl)).
Defined.

(** ** The loop inside a run *)

(** After the resume step, a run that is not only an evaluation is the
    epoch loop from its first iteration, and the closing of the writer. *)
Lemma evaluate_and_train_loop `{Collaborators} (cfg : Config)
    (input_range : num) (keys : list string) (start_epoch : Z)
    (best_acc1 : num) (s : Run) :
  evaluate_and_train cfg input_range keys start_epoch best_acc1 s
  = if evaluate_only cfg then (inr tt, evaluated cfg input_range s)
    else
      match run_loop cfg input_range keys
              (first_loop cfg input_range start_epoch best_acc1 s) with
      | (inl e, s') => (inl e, s')
      | (inr _, s') =>
          (inr tt, if truthy (log_dir cfg) then emit_all [writer_close] s'
                   else s')
      end.
Proof.
  unfold evaluate_and_train. unfold bind at 1.
  assert (Hwrap : wrap_parallel cfg s = (inr tt, wrapped cfg s)).
  { unfold wrap_parallel, wrapped.
    destruct (1 <? length devices)%nat; [|reflexivity].
    unfold bind, get.
    destruct (String.prefix "alexnet" (model cfg) || String.prefix "vgg" (model cfg));
      reflexivity. }
  rewrite Hwrap.
  unfold bind at 1. rewrite process_spec.
  unfold bind at 1. rewrite getitem_loss.
  unfold bind at 1. rewrite getitem_acc1.
  unfold bind at 1. rewrite emit_spec.
  unfold run_loop, first_loop. cbn [l_epochs l_lr l_best_acc1 l_run].
  unfold evaluated. cbv zeta.
  destruct (evaluate_only cfg); [reflexivity|].
  unfold bind at 1.
  destruct (truthy (log_dir cfg)).
  - rewrite emit_spec. unfold bind.
    destruct (epoch_loop _ _ _ _ _ _ _) as [[e|[]] s']; reflexivity.
  - unfold ret at 1. unfold bind.
    destruct (epoch_loop _ _ _ _ _ _ _) as [[e|[]] s']; reflexivity.
Qed.

(** The step of SGD evaluates the closure once, so that every pass of a
    run evaluates the closure of each of its batches. *)
Lemma sgd_step_calls_once `{Collaborators}
    (clos : bool * Pass -> num * (bool * Pass)) (st : bool * Pass) :
  calls sgd_step clos st = 1%nat.
Proof.
  unfold sgd_step. cbn [calls]. destruct (clos st) as [loss st1].
  cbn [calls]. now destruct (fold_left _ _ _).
Qed.

Lemma process_evaluates_closures `{Collaborators} (cfg : Config)
    (input_range : num) (with_optimizer : bool) (bs : list Batch)
    (st : num * Pass) :
  List.Forall (fun k => (1 <= k)%nat)
    (pass_calls CrossEntropyLoss
       (if with_optimizer then Some sgd_step else None) to_device
       (nmul (cfg_epsilon cfg) input_range) (cfg_factor cfg)
       (cfg_temperature cfg) bs st).
Proof.
  revert st. induction bs as [|b bs IH]; intros st; cbn [pass_calls];
    constructor; try apply IH.
  unfold batch_calls. destruct with_optimizer; [|lia].
  now rewrite sgd_step_calls_once.
Qed.

(** ** The maximum of a row *)



(** On a row without NaN, [row_max] is an entry of the row that is [>=]
    every entry. *)

(** * Further properties of the code *)

(** ** Passes without an optimizer and passes of any optimizer *)

Lemma compute_loss_evaluation `{Collaborators}
    (criterion : Matrix -> Targets -> num) (epsilon factor temperature : num)
    (inputs : Inputs) (targets : Targets) (b : bool) (s : Pass) :
  p_net (snd (compute_loss criterion None epsilon factor temperature
                inputs targets b s)) = p_net s.
Proof.
  unfold compute_loss. cbn [is_training].
  destruct b; [destruct (compute_accuracy _ _)|]; reflexivity.
Qed.

Lemma one_batch_evaluation `{Collaborators}
    (criterion : Matrix -> Targets -> num) (preporcess : Batch -> Batch)
    (epsilon factor temperature : num) (st : num * Pass) (b : Batch) :
  let s' := snd (one_batch criterion None preporcess epsilon factor
                   temperature st b) in
  p_net s' = p_net (snd st) /\ p_optimizer s' = p_optimizer (snd st).
Proof.
  destruct st as [end_ s]. cbv zeta. unfold one_batch.
  cbn [read_clock]. cbv iota beta.
  set (s0 := set_data_time _ _).
  assert (H0 : p_net s0 = p_net s /\ p_optimizer s0 = p_optimizer s)
    by (split; reflexivity).
  clearbody s0. destruct (preporcess b) as [inputs targets].
  rewrite closure_eq. cbn [snd read_clock set_batch_time p_net p_optimizer].
  rewrite compute_loss_evaluation, compute_loss_optimizer. exact H0.
Qed.

Lemma fold_batches_evaluation `{Collaborators}
    (criterion : Matrix -> Targets -> num) (preporcess : Batch -> Batch)
    (epsilon factor temperature : num) (bs : list Batch) (st : num * Pass) :
  let s' := snd (fold_left (one_batch criterion None preporcess epsilon factor
                              temperature) bs st) in
  p_net s' = p_net (snd st) /\ p_optimizer s' = p_optimizer (snd st).
Proof.
  revert st. induction bs as [|b bs IH]; intros st; cbn [fold_left];
    [now split|].
  destruct (IH (one_batch criterion None preporcess epsilon factor
                  temperature st b)) as [Hn Ho].
  destruct (one_batch_evaluation criterion preporcess epsilon factor
              temperature st b) as [Hn' Ho'].
  cbv zeta in *. now rewrite Hn, Ho, Hn', Ho'.
Qed.

(** X1. A pass without an optimizer (an evaluation) leaves the entries and
    the gradients of the model and the whole optimizer as they were: it
    only puts the model in evaluation mode and reads the clock once, and
    three times per batch. *)
Theorem evaluation_leaves_the_model `{Collaborators}
    (criterion : Matrix -> Targets -> num) (preporcess : Batch -> Batch)
    (epsilon factor temperature : num) (train_loader : list Batch)
    (net : Net) (o : Optimizer) (clock : nat) :
  snd (one_epoch criterion None preporcess epsilon factor temperature
         train_loader net o clock)
  = (train false net, o, (clock + 1 + 3 * length train_loader)%nat).
Proof.
  unfold one_epoch. cbn [snd]. unfold run_batches.
  destruct (fold_batches_meters criterion None preporcess epsilon factor
              temperature train_loader (read_clock (fresh_pass None net o clock)))
    as (_ & _ & _ & _ & _ & Hc).
  destruct (fold_batches_evaluation criterion preporcess epsilon factor
              temperature train_loader (read_clock (fresh_pass None net o clock)))
    as [Hn Ho].
  cbv zeta in Hc, Hn, Ho. rewrite Hc, Hn, Ho.
  cbn [read_clock snd p_clock p_net p_optimizer fresh_pass is_training].
  do 2 f_equal. lia.
Qed.

Lemma calls_none_first_call (clos : bool * Pass -> num * (bool * Pass))
    (p : OptProg) (st : bool * Pass) :
  calls p clos st = 0%nat -> first_call p st = None.
Proof.
  revert st. induction p as [|k IH|w k IH|k IH]; intros st;
    cbn [calls first_call].
  - reflexivity.
  - apply IH.
  - apply IH.
  - destruct (clos st). discriminate.
Qed.

Lemma recorded_evaluated `{Collaborators}
    (criterion : Matrix -> Targets -> num) (optimizer : option OptProg)
    (preporcess : Batch -> Batch) (epsilon factor temperature : num)
    (bs : list Batch) (st : num * Pass) :
  map r_n (recorded criterion optimizer preporcess epsilon factor temperature
             bs st)
  = evaluated_sizes
      (pass_calls criterion optimizer preporcess epsilon factor temperature
         bs st)
      (map (batch_size_of preporcess) bs).
Proof.
  revert st. induction bs as [|b bs IH]; intros st; [reflexivity|].
  cbn [pass_calls recorded map evaluated_sizes]. rewrite map_app, IH.
  destruct (Nat.leb_spec 1 (batch_calls criterion optimizer preporcess epsilon
                              factor temperature st b)) as [Hk|Hk].
  - destruct (batch_calls_first _ _ _ _ _ _ _ _ Hk) as [s1 E].
    now rewrite E.
  - assert (E : batch_first optimizer st b = None).
    { unfold batch_calls, batch_first in *. destruct optimizer as [p|]; [|lia].
      erewrite calls_none_first_call; [reflexivity|].
      apply Nat.lt_1_r. exact Hk. }
    now rewrite E.
Qed.

Lemma updated_count (m : AverageMeter.t) (vs : list (num * Z)) :
  AverageMeter.count (updated m vs)
  = AverageMeter.count m + fold_right Z.add 0 (map snd vs).
Proof. rewrite updated_fields. cbn [AverageMeter.count]. apply total_weight_sum. Qed.

Lemma sum_ones {A} (xs : list A) :
  fold_right Z.add 0 (map (fun _ => 1) xs) = Z.of_nat (length xs).
Proof.
  induction xs as [|x xs IH]; [reflexivity|].
  cbn [map fold_right length]. lia.
Qed.

(** X2. Whatever the optimizer does with the closure, also when its step
    never evaluates it, the loss, top-1 and top-5 meters of a pass count
    the examples of exactly the batches whose closure was evaluated at
    least once, and the two time meters count every batch. *)
Theorem pass_counts_evaluated_batches `{Collaborators}
    (criterion : Matrix -> Targets -> num) (optimizer : option OptProg)
    (preporcess : Batch -> Batch) (epsilon factor temperature : num)
    (train_loader : list Batch) (net : Net) (o : Optimizer) (clock : nat) :
  let st := read_clock (fresh_pass optimizer net o clock) in
  let s := run_batches criterion optimizer preporcess epsilon factor
             temperature train_loader net o clock in
  let examples :=
    fold_right Z.add 0
      (evaluated_sizes
         (pass_calls criterion optimizer preporcess epsilon factor temperature
            train_loader st)
         (map (batch_size_of preporcess) train_loader)) in
  AverageMeter.count (losses s) = examples
  /\ AverageMeter.count (top1 s) = examples
  /\ AverageMeter.count (top5 s) = examples
  /\ AverageMeter.count (data_time s) = Z.of_nat (length train_loader)
  /\ AverageMeter.count (batch_time s) = Z.of_nat (length train_loader).
Proof.
  cbv zeta.
  destruct (run_batches_meters criterion optimizer preporcess epsilon factor
              temperature train_loader net o clock)
    as (I1 & I2 & I3 & (td & I4 & Ld) & (tb & I5 & Lb) & _).
  cbv zeta in I1, I2, I3.
  rewrite I1, I2, I3, I4, I5, !updated_count, !map_map. cbn [snd AverageMeter.new AverageMeter.count].
  fold (map r_n (recorded criterion optimizer preporcess epsilon factor
                   temperature train_loader
                   (read_clock (fresh_pass optimizer net o clock)))).
  rewrite recorded_evaluated, Ld, Lb.
  rewrite sum_ones. repeat split; reflexivity.
Qed.

(** An optimizer whose step never evaluates the closure: the loss meter
    stays empty while the time meters count the two batches. *)
Example silent_optimizer_records_nothing :
  let s := @run_batches Sample.collaborators Sample.cross_entropy (Some Ret)
             (fun b => b) (Fin 0) (Fin 0) (Fin 1)
             [Sample.batch_a; Sample.batch_b] Sample.the_net
             (SGD (Fin (1 # 10)) (Fin 0) (Fin 0)) 0 in
  (AverageMeter.count (losses s), AverageMeter.count (batch_time s)) = (0, 2).
Proof. reflexivity. Qed.

(** X3. In a run every pass of [process], with the step of SGD or without
    an optimizer, evaluates the closure of each batch, so that the loss,
    top-1 and top-5 meters of the pass count every example of the batches
    that the loader gives for that pass. *)
Theorem run_passes_count_every_example `{Collaborators} (cfg : Config)
    (input_range : num) (loader : Loader) (with_optimizer : bool) (s : Run) :
  let sp := pass_of cfg input_range loader with_optimizer s in
  let examples :=
    fold_right Z.add 0
      (map (fun b : Batch => Z.of_nat (length (fst b)))
           (batches loader (passes s))) in
  AverageMeter.count (losses sp) = examples
  /\ AverageMeter.count (top1 sp) = examples
  /\ AverageMeter.count (top5 sp) = examples.
Proof.
  cbv zeta. unfold pass_of.
  destruct (run_batches_meters CrossEntropyLoss
              (if with_optimizer then Some sgd_step else None) to_device
              (nmul (cfg_epsilon cfg) input_range) (cfg_factor cfg)
              (cfg_temperature cfg) (batches loader (passes s)) (net s)
              (optimizer s) (clock s)) as (I1 & I2 & I3 & _).
  cbv zeta in I1, I2, I3.
  rewrite I1, I2, I3, !updated_count, !map_map.
  cbn [snd AverageMeter.new AverageMeter.count].
  fold (map r_n (recorded CrossEntropyLoss
                   (if with_optimizer then Some sgd_step else None) to_device
                   (nmul (cfg_epsilon cfg) input_range) (cfg_factor cfg)
                   (cfg_temperature cfg) (batches loader (passes s))
                   (read_clock (fresh_pass
                      (if with_optimizer then Some sgd_step else None)
                      (net s) (optimizer s) (clock s))))).
  rewrite (recorded_weights _ _ _ _ _ _ _ _
             (process_evaluates_closures cfg input_range with_optimizer _ _)).
  repeat split; reflexivity.
Qed.

(** ** The range of the inputs *)

Lemma pydiv_none (x y : num) : pydiv x y = None <-> is_zero y = true.
Proof.
  unfold pydiv. destruct y as [b| | |]; try (split; discriminate).
  rewrite is_zero_Fin. destruct (Qeq_bool b 0) eqn:E.
  - apply Qeq_bool_iff in E. split; [eauto | reflexivity].
  - split; [discriminate|]. intros (q & [= <-] & Hq).
    apply Qeq_bool_iff in Hq. congruence.
Qed.

Lemma channel_range_none `{Collaborators} (m s : num) :
  channel_range (m, s) = None <-> is_zero s = true.
Proof.
  unfold channel_range.
  destruct (pydiv (nsub (Fin 1) m) s) as [a|] eqn:Ea.
  - destruct (pydiv m s) as [b|] eqn:Eb.
    + split; [discriminate|]. intros Hz.
      apply (pydiv_none m s) in Hz. congruence.
    + split; [|reflexivity]. intros _. now apply (pydiv_none m s).
  - split; [|reflexivity]. intros _. now apply (pydiv_none (nsub (Fin 1) m) s).
Qed.

Lemma all_some_none {A} (xs : list (option A)) :
  all_some xs = None <-> In None xs.
Proof.
  induction xs as [|[x|] xs IH]; cbn [all_some In].
  - split; [discriminate | tauto].
  - destruct (all_some xs) as [ys|].
    + split; [discriminate|]. intros [Hx|Hin]; [discriminate|].
      now apply IH in Hin.
    + split; [|reflexivity]. intros _. right. now apply IH.
  - split; [now left | reflexivity].
Qed.

Lemma all_some_length {A} (xs : list (option A)) (ys : list A) :
  all_some xs = Some ys -> length ys = length xs.
Proof.
  revert ys. induction xs as [|[x|] xs IH]; intros ys; cbn [all_some].
  - now intros [= <-].
  - destruct (all_some xs) as [zs|]; [|discriminate].
    intros [= <-]. cbn [length]. now rewrite (IH zs).
  - discriminate.
Qed.

(** X4. The computation of [input_range] fails, with a
    [ZeroDivisionError], exactly when the normalization has no channel or
    one of the deviations that [zip] pairs with a mean is zero; the run
    then ends with that exception before the model is created: nothing
    but the line about the GPUs is printed and no pass is run. *)
Theorem input_range_fails `{Collaborators} (cfg : Config)
    (fs : gmap string File) (clock : nat) :
  let channels := zip (norm_mean (train_loader cfg)) (norm_std (train_loader cfg)) in
  (input_range cfg = None
   <-> channels = [] \/ List.Exists (fun ms => is_zero (snd ms) = true) channels)
  /\ (input_range cfg = None ->
      train_classifier cfg fs clock
      = (inl ZeroDivisionError,
         emit_all (if (0 <? length devices)%nat
                   then [print (using_gpus (length devices))] else [])
           (initial cfg fs clock))).
Proof.
  cbv zeta. split.
  - unfold input_range.
    set (channels := zip _ _). clearbody channels.
    destruct (all_some (map channel_range channels)) as [rs|] eqn:Ea.
    + pose proof (all_some_length _ _ Ea) as Hl. rewrite length_map in Hl.
      rewrite pydiv_none, is_zero_Fin. split.
      * intros (q & [= <-] & Hq). left.
        destruct channels; [reflexivity|]. cbn [length] in Hl.
        rewrite Hl in Hq. exfalso.
        assert (Hz : inject_Z (Z.of_nat (S (length channels))) == inject_Z 0)
          by exact Hq.
        pose proof (proj1 (inject_Z_injective _ _) Hz). lia.
      * intros [-> | Hex].
        -- cbn [length] in Hl. destruct rs; [|discriminate].
           exists (inject_Z 0). now split.
        -- exfalso. apply List.Exists_exists in Hex as ([m s] & Hin & Hz).
           assert (Hnone : all_some (map channel_range channels) = None).
           { apply all_some_none. apply in_map_iff. exists (m, s).
             split; [exact (proj2 (channel_range_none m s) Hz) | exact Hin]. }
           congruence.
    + split; [|reflexivity]. intros _. right.
      apply all_some_none in Ea. apply in_map_iff in Ea as ([m s] & Hc & Hin).
      apply List.Exists_exists. exists (m, s).
      split; [exact Hin | exact (proj1 (channel_range_none m s) Hc)].
  - intros Hir. unfold train_classifier, train_classifier_body.
    unfold bind at 1.
    assert (Hgpu :
      (if (0 <? length devices)%nat
       then emit (print (using_gpus (length devices))) else ret tt)
        (initial cfg fs clock)
      = (inr tt,
         emit_all (if (0 <? length devices)%nat
                   then [print (using_gpus (length devices))] else [])
           (initial cfg fs clock))).
    { destruct (0 <? length devices)%nat; reflexivity. }
    rewrite Hgpu. unfold bind at 1. now rewrite Hir.
Qed.

Lemma input_range_fails_witness :
  fst (@train_classifier
         (Sample.collaborators_with Sample.flat_loader [0%nat; 1%nat])
         Sample.config ∅ 0)
  = inl ZeroDivisionError.
Proof.
  assert (Hir : @input_range
                  (Sample.collaborators_with Sample.flat_loader [0%nat; 1%nat])
                  Sample.config = None) by (vm_compute; reflexivity).
  rewrite (proj2 (@input_range_fails
                    (Sample.collaborators_with Sample.flat_loader [0%nat; 1%nat])
                    Sample.config ∅ 0) Hir).
  reflexivity.
Defined.

(** ** The resume step *)

Lemma train_classifier_resume_raises `{Collaborators} (cfg : Config)
    (fs : gmap string File) (clock : nat) (ir : num) (e : exn) (s : Run) :
  let prelude :=
    (if (0 <? length (devices))%nat
     then [print (using_gpus (length devices))] else [])
    ++ [print (if pretrained cfg then using_pretrained_model (model cfg)
               else creating_model (model cfg))] in
  input_range cfg = Some ir ->
  resume_checkpoint cfg (emit_all prelude (initial cfg fs clock)) = (inl e, s) ->
  train_classifier cfg fs clock = (inl e, s).
Proof.
  intros prelude Hir Hres. unfold train_classifier, train_classifier_body.
  unfold bind at 1.
  assert (Hgpu :
    (if (0 <? length devices)%nat
     then emit (print (using_gpus (length devices))) else ret tt)
      (initial cfg fs clock)
    = (inr tt,
       emit_all (if (0 <? length devices)%nat
                 then [print (using_gpus (length devices))] else [])
         (initial cfg fs clock))).
  { destruct (0 <? length devices)%nat; reflexivity. }
  rewrite Hgpu. unfold bind at 1. rewrite Hir. cbn [of_option]. unfold ret at 1.
  unfold bind at 1.
  assert (Hmodel : forall s0,
    (if pretrained cfg
     then emit (print (using_pretrained_model (model cfg)))
     else emit (print (creating_model (model cfg)))) s0
    = (inr tt,
       emit_all [print (if pretrained cfg then using_pretrained_model (model cfg)
                        else creating_model (model cfg))] s0)).
  { intros s0. now destruct (pretrained cfg). }
  rewrite Hmodel, emit_all_app. fold prelude.
  unfold bind at 1, get. cbn [emit_all net initial].
  unfold bind at 1. fold (emit_all prelude (initial cfg fs clock)).
  now rewrite Hres.
Qed.

(** X6. Without a resume argument ([None] or the empty string), and
    [Path()] not being a file, the resume step is silent: nothing is
    loaded or printed, and the run goes on from epoch 0 with a best
    accuracy of 0 and the model and the optimizer as constructed. *)
Theorem no_resume_is_silent `{Collaborators} (cfg : Config)
    (fs : gmap string File) (clock : nat) (ir : num) :
  input_range cfg = Some ir ->
  truthy (resume cfg) = false ->
  is_file fs (Path "") = false ->
  let prelude :=
    (if (0 <? length (devices))%nat
     then [print (using_gpus (length devices))] else [])
    ++ [print (if pretrained cfg then using_pretrained_model (model cfg)
               else creating_model (model cfg))] in
  train_classifier cfg fs clock
  = evaluate_and_train cfg ir (keys (state_dict (created_net cfg))) 0 (Fin 0)
      (emit_all prelude (initial cfg fs clock)).
Proof.
  intros Hir Hres Hfile prelude.
  apply (train_classifier_fresh_start cfg fs clock ir (0, Fin 0) _ Hir).
  unfold resume_checkpoint. cbv zeta. unfold bind at 1, get.
  cbn [emit_all files initial]. unfold resume_path, path_of.
  rewrite Hres, Hfile, String.eqb_refl. reflexivity.
Qed.

Lemma no_resume_is_silent_witness :
  @train_classifier Sample.collaborators Sample.config ∅ 0
  = @evaluate_and_train Sample.collaborators Sample.config
      Sample.the_input_range ["features.0.weight"; "classifier.bias"]%string
      0 (Fin 0)
      (emit_all [print (creating_model "resnet18")]
         (@initial Sample.collaborators Sample.config ∅ 0)).
Proof.
  assert (Hir : @input_range Sample.collaborators Sample.config
                = Some Sample.the_input_range) by (vm_compute; reflexivity).
  exact (@no_resume_is_silent Sample.collaborators Sample.config ∅ 0
           Sample.the_input_range Hir eq_refl eq_refl).
Defined.

Lemma resume_checkpoint_not_a_checkpoint `{Collaborators} (cfg : Config)
    (s : Run) :
  files s !! resume_path cfg = Some OtherFile ->
  resume_checkpoint cfg s
  = (inl UnpicklingError,
     emit_all [print (loading_checkpoint (resume_path cfg));
               torch_load (resume_path cfg)] s).
Proof.
  intros Hfile. unfold resume_checkpoint. cbv zeta.
  unfold bind at 1, get. unfold is_file. rewrite Hfile.
  unfold bind at 1. rewrite emit_spec.
  unfold bind at 1. unfold load, bind at 1. rewrite emit_spec.
  unfold bind at 1, get. cbn [emit_all files]. rewrite Hfile. unfold raise.
  now rewrite ?emit_all_app.
Qed.

Lemma resume_checkpoint_wrong_names `{Collaborators} (cfg : Config)
    (s : Run) (state : Checkpoint.t) :
  files s !! resume_path cfg = Some (CheckpointFile state) ->
  load_state_dict (Checkpoint.state_dict state) (net s) = None ->
  resume_checkpoint cfg s
  = (inl RuntimeError,
     emit_all [print (loading_checkpoint (resume_path cfg));
               torch_load (resume_path cfg)] s).
Proof.
  intros Hfile Hnet. unfold resume_checkpoint. cbv zeta.
  unfold bind at 1, get. unfold is_file. rewrite Hfile.
  unfold bind at 1. rewrite emit_spec.
  unfold bind at 1. unfold load, bind at 1. rewrite emit_spec.
  unfold bind at 1, get. cbn [emit_all files]. rewrite Hfile. unfold ret at 1.
  unfold bind at 1. rewrite Hnet. cbn [of_option]. unfold raise.
  now rewrite ?emit_all_app.
Qed.

Lemma resume_checkpoint_wrong_groups `{Collaborators} (cfg : Config)
    (s : Run) (state : Checkpoint.t) (n : Net) :
  files s !! resume_path cfg = Some (CheckpointFile state) ->
  load_state_dict (Checkpoint.state_dict state) (net s) = Some n ->
  optimizer_load_state_dict (Checkpoint.optimizer state) (optimizer s) = None ->
  resume_checkpoint cfg s
  = (inl ValueError,
     {| net := n; optimizer := optimizer s; files := files s;
        clock := clock s; passes := passes s;
        out := out s ++ [print (loading_checkpoint (resume_path cfg));
                         torch_load (resume_path cfg)] |}).
Proof.
  intros Hfile Hnet Hopt. unfold resume_checkpoint. cbv zeta.
  unfold bind at 1, get. unfold is_file. rewrite Hfile.
  unfold bind at 1. rewrite emit_spec.
  unfold bind at 1. unfold load, bind at 1. rewrite emit_spec.
  unfold bind at 1, get. cbn [emit_all files]. rewrite Hfile. unfold ret at 1.
  unfold bind at 1. rewrite Hnet. cbn [of_option]. unfold ret at 1.
  unfold bind at 1, put_model at 1.
  unfold bind at 1. rewrite Hopt. cbn [of_option]. unfold raise, emit_all.
  cbn [net optimizer files clock passes out].
  now rewrite <- ?app_assoc.
Qed.

(** X7. A resume file that cannot be used ends the run right after
    [torch.load]: a file from which no checkpoint is read, a checkpoint
    whose state dictionary the model refuses, or one whose optimizer state
    has not the one parameter group of the SGD of the run.  The run ends
    with an exception before the model is evaluated: its events are the
    lines up to the call of [torch.load], the line about the loaded
    checkpoint is never printed, no pass is run and no file is written. *)
Theorem unusable_resume_file_ends_the_run `{Collaborators} (cfg : Config)
    (fs : gmap string File) (clock : nat) (ir : num) :
  input_range cfg = Some ir ->
  is_file fs (resume_path cfg) = true ->
  (forall state,
     fs !! resume_path cfg = Some (CheckpointFile state) ->
     load_state_dict (Checkpoint.state_dict state) (created_net cfg) = None
     \/ length (param_groups (Checkpoint.optimizer state)) <> 1%nat) ->
  let prelude :=
    (if (0 <? length (devices))%nat
     then [print (using_gpus (length devices))] else [])
    ++ [print (if pretrained cfg then using_pretrained_model (model cfg)
               else creating_model (model cfg))] in
  let r := train_classifier cfg fs clock in
  (exists e, fst r = inl e)
  /\ out (snd r)
     = prelude ++ [print (loading_checkpoint (resume_path cfg));
                   torch_load (resume_path cfg)]
  /\ files (snd r) = fs
  /\ passes (snd r) = 0%nat.
Proof.
  intros Hir Hfile Hbad prelude r.
  assert (Hres : exists e s,
            resume_checkpoint cfg (emit_all prelude (initial cfg fs clock))
            = (inl e, s)
            /\ out s = prelude ++ [print (loading_checkpoint (resume_path cfg));
                                   torch_load (resume_path cfg)]
            /\ files s = fs /\ passes s = 0%nat).
  { unfold is_file in Hfile.
    destruct (fs !! resume_path cfg) as [[state| |]|] eqn:Hf;
      try discriminate Hfile.
    - destruct (load_state_dict (Checkpoint.state_dict state) (created_net cfg))
        as [n|] eqn:Hn.
      + destruct (Hbad state eq_refl) as [Hnone|Hg]; [congruence|].
        do 2 eexists. split.
        * apply (resume_checkpoint_wrong_groups cfg _ state n); try assumption.
          unfold optimizer_load_state_dict.
          cbn [emit_all optimizer initial SGD param_groups].
          change (length [_]) with 1%nat.
          now rewrite (proj2 (Nat.eqb_neq _ _) Hg).
        * repeat split.
      + do 2 eexists. split.
        * apply (resume_checkpoint_wrong_names cfg _ state); assumption.
        * repeat split.
    - do 2 eexists. split.
      + apply resume_checkpoint_not_a_checkpoint. exact Hf.
      + repeat split. }
  destruct Hres as (e & s & Hres & Ho & Hf & Hp).
  unfold r.
  rewrite (train_classifier_resume_raises cfg fs clock ir e s Hir Hres).
  cbn [fst snd]. split; [now exists e|]. now repeat split.
Qed.

Lemma unusable_resume_file_ends_the_run_witness :
  let fs : gmap string File := <["ck.pt"%string := OtherFile]> ∅ in
  let r := @train_classifier Sample.collaborators Sample.resuming_config fs 0 in
  (exists e, fst r = inl e)
  /\ out (snd r)
     = [print (creating_model "resnet18")]
       ++ [print (loading_checkpoint "ck.pt"); torch_load "ck.pt"]
  /\ files (snd r) = fs
  /\ passes (snd r) = 0%nat.
Proof.
  assert (Hir : @input_range Sample.collaborators Sample.resuming_config
                = Some Sample.the_input_range) by (vm_compute; reflexivity).
  assert (Hfile : is_file (<["ck.pt"%string := OtherFile]> ∅)
                    (@resume_path Sample.collaborators Sample.resuming_config)
                  = true) by (vm_compute; reflexivity).
  assert (Hbad : forall state,
            (<["ck.pt"%string := OtherFile]> ∅ : gmap string File)
              !! @resume_path Sample.collaborators Sample.resuming_config
            = Some (CheckpointFile state) ->
            load_state_dict (Checkpoint.state_dict state)
              (@created_net Sample.collaborators Sample.resuming_config) = None
            \/ length (param_groups (Checkpoint.optimizer state)) <> 1%nat)
    by (intros state Hs; vm_compute in Hs; discriminate Hs).
  exact (@unusable_resume_file_ends_the_run Sample.collaborators
           Sample.resuming_config _ 0 _ Hir Hfile Hbad).
Defined.

(** ** The run as a whole *)

(** [train_classifier] up to the wrapping in [nn.DataParallel]. *)
Lemma train_classifier_cases `{Collaborators} (cfg : Config)
    (fs : gmap string File) (clock : nat) :
  let gpus :=
    if (0 <? length (devices))%nat
    then [print (using_gpus (length devices))] else [] in
  let prelude :=
    gpus ++ [print (if pretrained cfg then using_pretrained_model (model cfg)
                    else creating_model (model cfg))] in
  train_classifier cfg fs clock
  = match input_range cfg with
    | None => (inl ZeroDivisionError, emit_all gpus (initial cfg fs clock))
    | Some ir =>
        match resume_checkpoint cfg (emit_all prelude (initial cfg fs clock)) with
        | (inl e, s) => (inl e, s)
        | (inr resumed, s) =>
            evaluate_and_train cfg ir (keys (state_dict (created_net cfg)))
              (fst resumed) (snd resumed) s
        end
    end.
Proof.
  cbv zeta. destruct (input_range cfg) as [ir|] eqn:Hir.
  - destruct (resume_checkpoint cfg _) as [[e|resumed] s] eqn:Hres.
    + exact (train_classifier_resume_raises cfg fs clock ir e s Hir Hres).
    + exact (train_classifier_fresh_start cfg fs clock ir resumed s Hir Hres).
  - unfold train_classifier, train_classifier_body.
    unfold bind at 1.
    assert (Hgpu :
      (if (0 <? length devices)%nat
       then emit (print (using_gpus (length devices))) else ret tt)
        (initial cfg fs clock)
      = (inr tt,
         emit_all (if (0 <? length devices)%nat
                   then [print (using_gpus (length devices))] else [])
           (initial cfg fs clock))).
    { destruct (0 <? length devices)%nat; reflexivity. }
    rewrite Hgpu. unfold bind at 1. now rewrite Hir.
Qed.

Lemma resume_checkpoint_no_file `{Collaborators} (cfg : Config) (s : Run) :
  is_file (files s) (resume_path cfg) = false ->
  resume_checkpoint cfg s
  = (inr (0, Fin 0),
     if negb (String.eqb (resume_path cfg) (Path ""))
     then emit_all [print (no_checkpoint_found (resume_path cfg))] s
     else s).
Proof.
  intros Hfile. unfold resume_checkpoint. cbv zeta.
  unfold bind at 1, get. rewrite Hfile.
  destruct (negb (String.eqb (resume_path cfg) (Path ""))); [|reflexivity].
  unfold bind, ret. now rewrite emit_spec.
Qed.

(** The resume step only prints, calls [torch.load] and replaces the model
    and the optimizer; it fails only where it has found a file. *)
Lemma resume_checkpoint_frame `{Collaborators} (cfg : Config) (s : Run) :
  let r := resume_checkpoint cfg s in
  files (snd r) = files s /\ passes (snd r) = passes s
  /\ (exists evs, out (snd r) = out s ++ evs /\ forallb is_notice evs = true)
  /\ (forall e, fst r = inl e ->
        is_file (files s) (resume_path cfg) = true
        /\ (e = UnpicklingError \/ e = RuntimeError \/ e = ValueError)).
Proof.
  cbv zeta.
  destruct (files s !! resume_path cfg) as [[state| |]|] eqn:Hf.
  - assert (Hfile : is_file (files s) (resume_path cfg) = true)
      by (unfold is_file; now rewrite Hf).
    destruct (load_state_dict (Checkpoint.state_dict state) (net s))
      as [n|] eqn:Hn.
    + destruct (optimizer_load_state_dict (Checkpoint.optimizer state)
                  (optimizer s)) as [o|] eqn:Ho.
      * rewrite (resume_checkpoint_loads cfg s state n o Hf Hn Ho).
        cbn [fst snd files passes out].
        split; [reflexivity | split; [reflexivity | split]].
        -- eexists. split; reflexivity.
        -- intros e [=].
      * rewrite (resume_checkpoint_wrong_groups cfg s state n Hf Hn Ho).
        cbn [fst snd files passes out].
        split; [reflexivity | split; [reflexivity | split]].
        -- eexists. split; reflexivity.
        -- intros e [= <-]. auto.
    + rewrite (resume_checkpoint_wrong_names cfg s state Hf Hn).
      cbn [fst snd emit_all files passes out].
      split; [reflexivity | split; [reflexivity | split]].
      * eexists. split; reflexivity.
      * intros e [= <-]. auto.
  - assert (Hfile : is_file (files s) (resume_path cfg) = true)
      by (unfold is_file; now rewrite Hf).
    rewrite (resume_checkpoint_not_a_checkpoint cfg s Hf).
    cbn [fst snd emit_all files passes out].
    split; [reflexivity | split; [reflexivity | split]].
    + eexists. split; reflexivity.
    + intros e [= <-]. auto.
  - assert (Hfile : is_file (files s) (resume_path cfg) = false)
      by (unfold is_file; now rewrite Hf).
    rewrite (resume_checkpoint_no_file cfg s Hfile).
    destruct (negb (String.eqb (resume_path cfg) (Path "")));
      cbn [fst snd emit_all files passes out];
      (split; [reflexivity | split; [reflexivity | split]]);
      try (intros e [=]).
    + eexists. split; reflexivity.
    + exists []. now rewrite app_nil_r.
  - assert (Hfile : is_file (files s) (resume_path cfg) = false)
      by (unfold is_file; now rewrite Hf).
    rewrite (resume_checkpoint_no_file cfg s Hfile).
    destruct (negb (String.eqb (resume_path cfg) (Path "")));
      cbn [fst snd emit_all files passes out];
      (split; [reflexivity | split; [reflexivity | split]]);
      try (intros e [=]).
    + eexists. split; reflexivity.
    + exists []. now rewrite app_nil_r.
Qed.

Section LoopRules.

Context `{Collaborators}.

Variable cfg : Config.
Variable input_range : num.
Variable keys : list string.

(** A property of the run of the epoch loop follows from the same property
    of one epoch. *)
Lemma run_loop_rule (R : Run -> (exn + unit) * Run -> Prop) :
  (forall s, R s (inr tt, s)) ->
  (forall epoch lr0 best s,
     match epoch_body cfg input_range keys epoch lr0 best s with
     | (inl e, s') => R s (inl e, s')
     | (inr Break, s') => R s (inr tt, s')
     | (inr (Continue _ _), s') => forall res, R s' res -> R s res
     end) ->
  forall l, R (l_run l) (run_loop cfg input_range keys l).
Proof.
  intros H0 Hs [es lr0 best s]. unfold run_loop.
  cbn [l_epochs l_lr l_best_acc1 l_run]. revert lr0 best s.
  induction es as [|epoch es IH]; intros lr0 best s; [apply H0|].
  rewrite epoch_loop_cons. specialize (Hs epoch lr0 best s).
  destruct (epoch_body cfg input_range keys epoch lr0 best s)
    as [[e|[lr' b|]] s']; auto.
Qed.

(** The events of an epoch, whatever its end. *)
Lemma epoch_events (P : Event -> bool) (epoch : Z) (lr0 best : num) (s : Run) :
  (forall b lrs progress, P (process_pass b lrs progress) = true) ->
  (forall m, P (print m) = true) ->
  (truthy (log_dir cfg) = true ->
   forall tag value step, P (add_scalar tag value step) = true) ->
  (checkpoint_path cfg <> Path "" ->
   forall state path, P (torch_save state path) = true) ->
  forallb P (view_events cfg input_range epoch lr0 s
             ++ tail_events cfg keys epoch best
                  (epoch_view cfg input_range epoch lr0 s)) = true.
Proof.
  intros Hpass Hprint Hscalar Hsave. rewrite forallb_app. apply andb_true_iff.
  split.
  - unfold view_events. cbv zeta. rewrite forallb_app. cbn [forallb].
    rewrite !Hpass, Hprint. cbn [andb].
    destruct (truthy (log_dir cfg)); [|reflexivity].
    unfold scalars. cbn [forallb]. rewrite forallb_app.
    rewrite (Hscalar eq_refl). cbn [andb]. apply andb_true_iff.
    split; apply forallb_forall; intros ev [m [<- _]]%in_map_iff;
      now apply Hscalar.
  - unfold tail_events. cbv zeta. rewrite forallb_app. apply andb_true_iff.
    split.
    + destruct (String.eqb (checkpoint_path cfg) (Path "")) eqn:E;
        [now rewrite andb_false_r|].
      apply String.eqb_neq in E.
      destruct (_ && negb false); [|reflexivity].
      cbn [forallb]. now rewrite (Hsave E).
    + destruct (_ && meter_ne _ _); [|reflexivity].
      cbn [forallb]. now rewrite Hprint.
Qed.

Lemma run_loop_events (P : Event -> bool) :
  (forall b lrs progress, P (process_pass b lrs progress) = true) ->
  (forall m, P (print m) = true) ->
  (truthy (log_dir cfg) = true ->
   forall tag value step, P (add_scalar tag value step) = true) ->
  (checkpoint_path cfg <> Path "" ->
   forall state path, P (torch_save state path) = true) ->
  forall l, exists evs,
    out (snd (run_loop cfg input_range keys l)) = out (l_run l) ++ evs
    /\ forallb P evs = true.
Proof.
  intros Hpass Hprint Hscalar Hsave.
  apply (run_loop_rule
           (fun s res => exists evs, out (snd res) = out s ++ evs
                                     /\ forallb P evs = true)).
  - intros s. exists []. now rewrite app_nil_r.
  - intros epoch lr0 best s.
    destruct (epoch_body_cases cfg input_range keys epoch lr0 best s)
      as (_ & Ho & _).
    pose proof (epoch_events P epoch lr0 best s Hpass Hprint Hscalar Hsave)
      as Hev.
    destruct (epoch_body cfg input_range keys epoch lr0 best s)
      as [[e|[lr' b|]] s']; cbn [snd] in Ho.
    + eexists. split; [exact Ho | exact Hev].
    + intros res (evs & Hres & Hevs). eexists. split.
      * rewrite Hres, Ho, <- app_assoc. reflexivity.
      * rewrite forallb_app, Hev. exact Hevs.
    + eexists. split; [exact Ho | exact Hev].
Qed.

(** The loop writes at the checkpoint path only. *)
Lemma run_loop_files (l : Loop) :
  (forall p, p <> checkpoint_path cfg ->
     files (snd (run_loop cfg input_range keys l)) !! p = files (l_run l) !! p)
  /\ (checkpoint_path cfg = Path "" ->
      files (snd (run_loop cfg input_range keys l)) = files (l_run l)).
Proof.
  apply (run_loop_rule
           (fun s res =>
              (forall p, p <> checkpoint_path cfg ->
                 files (snd res) !! p = files s !! p)
              /\ (checkpoint_path cfg = Path "" -> files (snd res) = files s))).
  - intros s. now split.
  - intros epoch lr0 best s.
    destruct (epoch_body_cases cfg input_range keys epoch lr0 best s)
      as (_ & _ & Hf & _).
    assert (Hstep :
      (forall p, p <> checkpoint_path cfg ->
         files (snd (epoch_body cfg input_range keys epoch lr0 best s)) !! p
         = files s !! p)
      /\ (checkpoint_path cfg = Path "" ->
          files (snd (epoch_body cfg input_range keys epoch lr0 best s))
          = files s)).
    { rewrite Hf. split.
      - intros p Hp. destruct (_ && negb _); [|reflexivity].
        now rewrite lookup_insert_ne.
      - intros Hc. rewrite (proj2 (String.eqb_eq _ _) Hc).
        cbn [negb]. now rewrite andb_false_r. }
    destruct (epoch_body cfg input_range keys epoch lr0 best s)
      as [[e|[lr' b|]] s']; cbn [snd] in Hstep; try exact Hstep.
    intros res [Hr1 Hr2]. destruct Hstep as [Hs1 Hs2]. split.
    + intros p Hp. now rewrite Hr1, Hs1.
    + intros Hc. now rewrite Hr2, Hs2.
Qed.

End LoopRules.

Lemma forallb_implies {A} (P Q : A -> bool) (xs : list A) :
  (forall x, P x = true -> Q x = true) ->
  forallb P xs = true -> forallb Q xs = true.
Proof.
  intros HPQ. rewrite !forallb_forall. intros HP x Hx. apply HPQ, HP, Hx.
Qed.

Lemma forallb_not_existsb {A} (P : A -> bool) (xs : list A) :
  forallb (fun x => negb (P x)) xs = true <-> existsb P xs = false.
Proof.
  induction xs as [|x xs IH]; cbn [forallb existsb]; [tauto|].
  rewrite andb_true_iff, orb_false_iff, negb_true_iff. tauto.
Qed.

Section RunRules.

Context `{Collaborators}.

Variable cfg : Config.
Variable input_range : num.
Variable keys : list string.

Lemma wrapped_frame (s : Run) :
  files (wrapped cfg s) = files s /\ out (wrapped cfg s) = out s
  /\ optimizer (wrapped cfg s) = optimizer s
  /\ weights (net (wrapped cfg s)) = weights (net s)
  /\ passes (wrapped cfg s) = passes s.
Proof.
  unfold wrapped. destruct (1 <? length devices)%nat; repeat split.
Qed.

(** The run after the evaluation before training. *)
Lemma evaluated_frame (s : Run) :
  let vp := pass_of cfg input_range (val_loader cfg) false (wrapped cfg s) in
  files (evaluated cfg input_range s) = files s
  /\ out (evaluated cfg input_range s)
     = out s
       ++ [process_pass false (map lr (param_groups (optimizer s)))
             (progress_of vp);
           print (test_line (losses vp) (top1 vp))]
       ++ (if truthy (log_dir cfg) && negb (evaluate_only cfg)
           then [add_graph] else []).
Proof.
  cbv zeta. destruct (wrapped_frame s) as (Hf & Ho & Hopt & _).
  unfold evaluated. cbv zeta.
  destruct (evaluate_only cfg), (truthy (log_dir cfg));
    cbn [andb negb emit_all after_pass files out];
    rewrite Hf, Ho, Hopt, <- ?app_assoc; split; reflexivity.
Qed.

(** The events of [train_classifier] from the wrapping on: the evaluation
    and its line, the graph of the model, the events of the epochs, and
    [writer.close()] when no exception ends the loop. *)
Lemma evaluate_and_train_out (P : Event -> bool) (start_epoch : Z)
    (best_acc1 : num) (s : Run) :
  (forall b lrs progress, P (process_pass b lrs progress) = true) ->
  (forall m, P (print m) = true) ->
  (truthy (log_dir cfg) = true ->
   forall tag value step, P (add_scalar tag value step) = true) ->
  (checkpoint_path cfg <> Path "" ->
   forall state path, P (torch_save state path) = true) ->
  let r := evaluate_and_train cfg input_range keys start_epoch best_acc1 s in
  let vp := pass_of cfg input_range (val_loader cfg) false (wrapped cfg s) in
  let writer := truthy (log_dir cfg) && negb (evaluate_only cfg) in
  exists evs,
    forallb P evs = true
    /\ out (snd r)
       = out s
         ++ [process_pass false (map lr (param_groups (optimizer s)))
               (progress_of vp);
             print (test_line (losses vp) (top1 vp))]
         ++ (if writer then [add_graph] else [])
         ++ evs
         ++ (if writer && match fst r with inr _ => true | inl _ => false end
             then [writer_close] else [])
    /\ (evaluate_only cfg = true \/ epochs cfg <= start_epoch ->
        evs = [] /\ fst r = inr tt).
Proof.
  intros Hpass Hprint Hscalar Hsave. cbv zeta.
  rewrite evaluate_and_train_loop.
  destruct (evaluated_frame s) as [_ Ho]. cbv zeta in Ho.
  destruct (evaluate_only cfg) eqn:Eev.
  - exists []. cbn [fst snd]. rewrite Ho, andb_false_r. cbn [negb andb app].
    repeat split.
  - destruct (run_loop_events cfg input_range keys P Hpass Hprint Hscalar Hsave
                (first_loop cfg input_range start_epoch best_acc1 s))
      as (evs & Hevs & HP).
    cbn [first_loop l_run] in Hevs. rewrite Ho in Hevs.
    exists evs. split; [exact HP|]. split.
    + destruct (run_loop _ _ _ _) as [[e|[]] s']; cbn [fst snd] in *.
      * rewrite Hevs, andb_false_r, app_nil_r, <- !app_assoc. reflexivity.
      * cbn [negb]. rewrite andb_true_r.
        destruct (truthy (log_dir cfg)); cbn [emit_all out andb];
          rewrite Hevs, <- ?app_assoc, ?app_nil_r; reflexivity.
    + intros [Hev|Hle]; [discriminate|].
      unfold run_loop, first_loop in *.
      cbn [l_epochs l_lr l_best_acc1 l_run] in *.
      rewrite (range_nil _ _ Hle) in *. cbn [epoch_loop ret fst snd] in *.
      split; [|reflexivity].
      rewrite Ho in Hevs. apply (f_equal (@length Event)) in Hevs.
      rewrite !length_app in Hevs. destruct evs; [reflexivity|].
      cbn [length] in Hevs. lia.
Qed.

Lemma evaluate_and_train_files (start_epoch : Z) (best_acc1 : num) (s : Run) :
  let r := evaluate_and_train cfg input_range keys start_epoch best_acc1 s in
  (forall p, p <> checkpoint_path cfg -> files (snd r) !! p = files s !! p)
  /\ (checkpoint_path cfg = Path "" -> files (snd r) = files s).
Proof.
  cbv zeta. rewrite evaluate_and_train_loop.
  destruct (evaluated_frame s) as [Hf _].
  destruct (evaluate_only cfg); [cbn [snd]; rewrite Hf; now split|].
  destruct (run_loop_files cfg input_range keys
              (first_loop cfg input_range start_epoch best_acc1 s)) as [H1 H2].
  cbn [first_loop l_run] in H1, H2. rewrite Hf in H1, H2.
  destruct (run_loop _ _ _ _) as [[e|[]] s']; cbn [snd] in *;
    [now split|].
  destruct (truthy (log_dir cfg)); cbn [emit_all files]; now split.
Qed.

End RunRules.

(** How [train_classifier] comes to the wrapping in [nn.DataParallel], or
    ends before it. *)
Lemma train_classifier_start `{Collaborators} (cfg : Config)
    (fs : gmap string File) (clock : nat) :
  (exists e s0,
     train_classifier cfg fs clock = (inl e, s0)
     /\ files s0 = fs /\ forallb is_notice (out s0) = true
     /\ (e = ZeroDivisionError /\ input_range cfg = None
         \/ (e = UnpicklingError \/ e = RuntimeError \/ e = ValueError)
            /\ input_range cfg <> None
            /\ is_file fs (resume_path cfg) = true))
  \/ (exists ir start_epoch best_acc1 s0,
        input_range cfg = Some ir
        /\ train_classifier cfg fs clock
           = evaluate_and_train cfg ir (keys (state_dict (created_net cfg)))
               start_epoch best_acc1 s0
        /\ files s0 = fs /\ forallb is_notice (out s0) = true).
Proof.
  rewrite train_classifier_cases. cbv zeta.
  destruct (input_range cfg) as [ir|].
  - set (s := emit_all _ (initial cfg fs clock)).
    assert (Hs : files s = fs /\ forallb is_notice (out s) = true).
    { unfold s. cbn [emit_all files out initial app].
      split; [reflexivity|]. rewrite forallb_app.
      now destruct (0 <? length devices)%nat. }
    destruct Hs as [Hsf Hso].
    destruct (resume_checkpoint_frame cfg s) as (Hf & _ & (evs & Ho & He) & Hr).
    cbv zeta in Hf, Ho, Hr. rewrite Hsf in Hf, Hr.
    destruct (resume_checkpoint cfg s) as [[e|resumed] s0]; cbn [fst snd] in *.
    + left. exists e, s0. split; [reflexivity|]. split; [exact Hf|].
      split; [now rewrite Ho, forallb_app, Hso|].
      right. destruct (Hr e eq_refl) as [Hfile Hcase].
      split; [exact Hcase|]. split; [discriminate | exact Hfile].
    + right. exists ir, (fst resumed), (snd resumed), s0.
      split; [reflexivity|]. split; [reflexivity|]. split; [exact Hf|].
      now rewrite Ho, forallb_app, Hso.
  - left. do 2 eexists. split; [reflexivity|].
    cbn [emit_all files out initial app]. split; [reflexivity|].
    split; [now destruct (0 <? length devices)%nat | now left].
Qed.

Lemma notices_are_no `{Collaborators} (P : Event -> bool) (evs : list Event) :
  (forall m, P (print m) = false) -> (forall p, P (torch_load p) = false) ->
  forallb is_notice evs = true -> existsb P evs = false.
Proof.
  intros Hprint Hload Hn. apply forallb_not_existsb.
  apply (forallb_implies is_notice); [|exact Hn].
  intros [m|b lrs pr|p|st p| |t x e|]; try discriminate; intros _.
  - now rewrite Hprint.
  - now rewrite Hload.
Qed.

(** X8. A run that opens no summary writer (it has no log directory, or
    it only evaluates) writes at the checkpoint path and nowhere else:
    every other path holds after the run, however it ends, what it held
    before.  The files of the writer itself are not part of the files of
    a run here, which is why the runs that open one are left out. *)
Theorem run_writes_only_the_checkpoint `{Collaborators} (cfg : Config)
    (fs : gmap string File) (clock : nat) (p : string) :
  truthy (log_dir cfg) = false \/ evaluate_only cfg = true ->
  p <> checkpoint_path cfg ->
  files (snd (train_classifier cfg fs clock)) !! p = fs !! p.
Proof.
  intros _ Hp.
  destruct (train_classifier_start cfg fs clock)
    as [(e & s0 & -> & Hf & _)|(ir & start & best & s0 & _ & -> & Hf & _)].
  - cbn [snd]. now rewrite Hf.
  - destruct (evaluate_and_train_files cfg ir
                (keys (state_dict (created_net cfg))) start best s0) as [H1 _].
    now rewrite (H1 p Hp), Hf.
Qed.

Lemma run_writes_only_the_checkpoint_witness :
  files (snd (@train_classifier Sample.collaborators Sample.saving_config
                (<["notes.txt"%string := OtherFile]> ∅) 0))
    !! "notes.txt"%string
  = (<["notes.txt"%string := OtherFile]> ∅ : gmap string File)
      !! "notes.txt"%string.
Proof.
  assert (Hp : "notes.txt"%string
               <> @checkpoint_path Sample.collaborators Sample.saving_config)
    by discriminate.
  exact (@run_writes_only_the_checkpoint Sample.collaborators
           Sample.saving_config _ 0 _ (or_introl eq_refl) Hp).
Defined.

(** X9. Without a checkpoint argument ([None] or the empty string) a run
    never calls [torch.save]; when it opens no summary writer either (it
    has no log directory, or it only evaluates), the files are after the
    run what they were before it. *)
Theorem no_checkpoint_nothing_saved `{Collaborators} (cfg : Config)
    (fs : gmap string File) (clock : nat) :
  truthy (checkpoint cfg) = false ->
  let r := train_classifier cfg fs clock in
  existsb is_save (out (snd r)) = false
  /\ (truthy (log_dir cfg) = false \/ evaluate_only cfg = true ->
      files (snd r) = fs).
Proof.
  intros Hc. cbv zeta.
  assert (Hpath : checkpoint_path cfg = Path "").
  { unfold checkpoint_path, path_of. now rewrite Hc. }
  destruct (train_classifier_start cfg fs clock)
    as [(e & s0 & -> & Hf & Hn & He)|(ir & start & best & s0 & _ & -> & Hf & Hn)].
  - cbn [fst snd]. split; [now apply notices_are_no | intros _; exact Hf].
  - set (ks := keys (state_dict (created_net cfg))).
    destruct (evaluate_and_train_files cfg ir ks start best s0) as [_ H2].
    destruct (evaluate_and_train_out cfg ir ks (fun ev => negb (is_save ev))
                start best s0) as (evs & Hevs & Hout & _);
      [reflexivity | reflexivity | reflexivity | intros Hne; now elim Hne|].
    split; [|intros _; now rewrite (H2 Hpath)].
    rewrite Hout, !existsb_app.
    rewrite (notices_are_no is_save (out s0)) by (auto || reflexivity).
    rewrite (proj1 (forallb_not_existsb _ _) Hevs).
    cbn [existsb is_save orb].
    destruct (_ && negb _); [|now destruct (fst _)].
    cbn [existsb is_save orb andb]. now destruct (fst _).
Qed.

Lemma no_checkpoint_nothing_saved_witness :
  existsb is_save
    (out (snd (@train_classifier Sample.collaborators Sample.config ∅ 0)))
  = false
  /\ files (snd (@train_classifier Sample.collaborators Sample.config ∅ 0)) = ∅.
Proof.
  pose proof (@no_checkpoint_nothing_saved Sample.collaborators Sample.config
                ∅ 0 eq_refl) as [Hs Hf].
  exact (conj Hs (Hf (or_introl eq_refl))).
Defined.

(** X10. The summary writer.  A run without a log directory, or one that
    only evaluates, makes no call of the writer.  A run that ends with an
    exception never calls [writer.close()].  A run with a log directory
    that trains and ends without an exception calls [writer.close()] once,
    as its last event. *)
Theorem summary_writer_use `{Collaborators} (cfg : Config)
    (fs : gmap string File) (clock : nat) :
  let r := train_classifier cfg fs clock in
  (truthy (log_dir cfg) = false \/ evaluate_only cfg = true ->
   existsb is_writer (out (snd r)) = false)
  /\ (forall e, fst r = inl e -> existsb is_close (out (snd r)) = false)
  /\ (fst r = inr tt -> truthy (log_dir cfg) = true ->
      evaluate_only cfg = false ->
      exists evs, out (snd r) = evs ++ [writer_close]
                  /\ existsb is_close evs = false).
Proof.
  cbv zeta.
  destruct (train_classifier_start cfg fs clock)
    as [(e & s0 & -> & Hf & Hn & He)|(ir & start & best & s0 & _ & -> & Hf & Hn)].
  - cbn [fst snd]. split; [|split].
    + intros _. now apply notices_are_no.
    + intros _ _. now apply notices_are_no.
    + discriminate.
  - set (ks := keys (state_dict (created_net cfg))).
    destruct (evaluate_and_train_out cfg ir ks (fun ev => negb (is_close ev))
                start best s0) as (evs & Hevs & Hout & Hnone);
      [reflexivity | reflexivity | reflexivity | reflexivity|].
    apply forallb_not_existsb in Hevs.
    split; [|split].
    + intros [Hlog|Hev].
      * destruct (evaluate_and_train_out cfg ir ks
                    (fun ev => negb (is_writer ev)) start best s0)
          as (evs' & Hevs' & Hout' & _);
          [reflexivity | reflexivity | now rewrite Hlog | reflexivity|].
        apply forallb_not_existsb in Hevs'.
        rewrite Hout', Hlog, !existsb_app, Hevs'.
        rewrite (notices_are_no is_writer (out s0)) by (auto || reflexivity).
        reflexivity.
      * destruct (Hnone (or_introl Hev)) as [-> _].
        rewrite Hout, Hev, andb_false_r, !existsb_app.
        rewrite (notices_are_no is_writer (out s0)) by (auto || reflexivity).
        reflexivity.
    + intros e He. rewrite Hout, He, andb_false_r, !existsb_app, Hevs.
      rewrite (notices_are_no is_close (out s0)) by (auto || reflexivity).
      now destruct (_ && negb _).
    + intros Hr Hlog Hev. rewrite Hout, Hr, Hlog, Hev. cbn [andb negb].
      exists (out s0
              ++ [process_pass false (map lr (param_groups (optimizer s0)))
                    (progress_of (pass_of cfg ir (val_loader cfg) false
                                    (wrapped cfg s0)));
                  print (test_line
                           (losses (pass_of cfg ir (val_loader cfg) false
                                      (wrapped cfg s0)))
                           (top1 (pass_of cfg ir (val_loader cfg) false
                                    (wrapped cfg s0))));
                  add_graph]
              ++ evs).
      split.
      * rewrite <- !app_assoc. reflexivity.
      * rewrite !existsb_app, Hevs.
        rewrite (notices_are_no is_close (out s0)) by (auto || reflexivity).
        reflexivity.
Qed.

Lemma summary_writer_use_witness :
  existsb is_writer
    (out (snd (@train_classifier Sample.collaborators Sample.config ∅ 0)))
  = false
  /\ exists evs,
       out (snd (@train_classifier Sample.collaborators Sample.logging_config
                   ∅ 0))
       = evs ++ [writer_close]
       /\ existsb is_close evs = false.
Proof.
  assert (Hr : fst (@train_classifier Sample.collaborators
                      Sample.logging_config ∅ 0) = inr tt)
    by (vm_compute; reflexivity).
  split.
  - exact (proj1 (@summary_writer_use Sample.collaborators Sample.config ∅ 0)
             (or_introl eq_refl)).
  - exact (proj2 (proj2 (@summary_writer_use Sample.collaborators
                           Sample.logging_config ∅ 0)) Hr eq_refl eq_refl).
Defined.

(** ** The model and the optimizer over an epoch *)

Section EpochModel.

Context `{Collaborators}.

Variable cfg : Config.
Variable input_range : num.

Lemma pass_of_evaluation (loader : Loader) (s : Run) :
  p_net (pass_of cfg input_range loader false s) = train false (net s)
  /\ p_optimizer (pass_of cfg input_range loader false s) = optimizer s.
Proof.
  unfold pass_of, run_batches.
  destruct (fold_batches_evaluation CrossEntropyLoss to_device
              (nmul (cfg_epsilon cfg) input_range) (cfg_factor cfg)
              (cfg_temperature cfg) (batches loader (passes s))
              (read_clock (fresh_pass None (net s) (optimizer s) (clock s))))
    as [Hn Ho].
  cbv zeta in Hn, Ho. rewrite Hn, Ho. split; reflexivity.
Qed.

Lemma decayed_frame (epoch : Z) (s : Run) :
  net (decayed cfg epoch s) = net s /\ passes (decayed cfg epoch s) = passes s
  /\ buffers (optimizer (decayed cfg epoch s)) = buffers (optimizer s).
Proof. unfold decayed. destruct (epoch mod 30 =? 0); repeat split. Qed.

(** The model and the optimizer after the passes of an epoch. *)
Lemma view_model (epoch : Z) (lr0 : num) (s : Run) :
  let v := epoch_view cfg input_range epoch lr0 s in
  net (v_run v) = train false (p_net (v_train v))
  /\ optimizer (v_run v) = p_optimizer (v_train v)
  /\ passes (v_run v) = S (S (passes s)).
Proof.
  cbv zeta. unfold epoch_view. cbn [v_run v_train].
  destruct (pass_of_evaluation (val_loader cfg)
              (after_pass cfg input_range (train_loader cfg) true
                 (decayed cfg epoch s))) as [Hn Ho].
  destruct (decayed_frame epoch s) as (_ & Hp & _).
  destruct (truthy (log_dir cfg));
    cbn [emit_all after_pass net optimizer passes] in *;
    rewrite Hn, Ho, Hp; repeat split.
Qed.

(** The model and the optimizer after the evaluation before training. *)
Lemma evaluated_model (s : Run) :
  weights (net (evaluated cfg input_range s)) = weights (net s)
  /\ grads (net (evaluated cfg input_range s)) = grads (net s)
  /\ training (net (evaluated cfg input_range s)) = false
  /\ optimizer (evaluated cfg input_range s) = optimizer s
  /\ passes (evaluated cfg input_range s) = S (passes s).
Proof.
  destruct (pass_of_evaluation (val_loader cfg) (wrapped cfg s)) as [Hn Ho].
  assert (Hw : weights (net (wrapped cfg s)) = weights (net s)
               /\ grads (net (wrapped cfg s)) = grads (net s)
               /\ optimizer (wrapped cfg s) = optimizer s
               /\ passes (wrapped cfg s) = passes s).
  { unfold wrapped. destruct (1 <? length devices)%nat; repeat split. }
  destruct Hw as (Hww & Hwg & Hwo & Hwp).
  unfold evaluated. cbv zeta.
  destruct (evaluate_only cfg), (truthy (log_dir cfg));
    cbn [emit_all after_pass net optimizer passes];
    rewrite Hn, Ho, Hwo, Hwp; cbn [train weights grads training];
    rewrite Hww, Hwg; repeat split.
Qed.

End EpochModel.

(** X12. A run that only evaluates, or a run without a log directory
    whose first epoch is not below [epochs] (a checkpoint of a finished
    run), makes one pass, the evaluation, and ends without an exception:
    it saves nothing, leaves the files, the optimizer and the entries and
    gradients of the model as they were, and leaves the model in
    evaluation mode. *)
Theorem evaluation_only_runs `{Collaborators} (cfg : Config)
    (input_range : num) (keys : list string) (start_epoch : Z)
    (best_acc1 : num) (s : Run) :
  evaluate_only cfg = true
  \/ (epochs cfg <= start_epoch /\ truthy (log_dir cfg) = false) ->
  let r := evaluate_and_train cfg input_range keys start_epoch best_acc1 s in
  let vp := pass_of cfg input_range (val_loader cfg) false (wrapped cfg s) in
  fst r = inr tt
  /\ List.filter is_pass (new_events s (snd r))
     = [process_pass false (map lr (param_groups (optimizer s)))
          (progress_of vp)]
  /\ existsb is_save (new_events s (snd r)) = false
  /\ files (snd r) = files s
  /\ optimizer (snd r) = optimizer s
  /\ weights (net (snd r)) = weights (net s)
  /\ grads (net (snd r)) = grads (net s)
  /\ training (net (snd r)) = false
  /\ passes (snd r) = S (passes s).
Proof.
  intros Hcase. cbv zeta.
  destruct (evaluated_frame cfg input_range s) as [Hf Ho]. cbv zeta in Ho.
  destruct (evaluated_model cfg input_range s) as (Hw & Hg & Ht & Hopt & Hp).
  assert (Hr : exists evs,
             evaluate_and_train cfg input_range keys start_epoch best_acc1 s
             = (inr tt, emit_all evs (evaluated cfg input_range s))
             /\ forallb is_close evs = true).
  { rewrite evaluate_and_train_loop.
    destruct (evaluate_only cfg) eqn:Eev.
    - exists []. split; [|reflexivity].
      unfold emit_all. rewrite app_nil_r. now destruct (evaluated _ _ _).
    - destruct Hcase as [Hev|[Hle Hlog]]; [discriminate|].
      unfold run_loop, first_loop. cbn [l_epochs l_lr l_best_acc1 l_run].
      rewrite (range_nil _ _ Hle). cbn [epoch_loop ret]. rewrite Hlog.
      exists []. split; [|reflexivity].
      unfold emit_all. rewrite app_nil_r. now destruct (evaluated _ _ _). }
  destruct Hr as (evs & -> & Hevs). cbn [fst snd emit_all net optimizer files passes].
  split; [reflexivity|].
  unfold new_events. cbn [out emit_all]. rewrite Ho, <- !app_assoc, skipn_length_app.
  cbn [app List.filter is_pass existsb is_save orb].
  assert (Hno : forall P : Event -> bool,
            P add_graph = false -> P writer_close = false ->
            List.filter P
              ((if truthy (log_dir cfg) && negb (evaluate_only cfg)
                then [add_graph] else []) ++ evs) = []
            /\ existsb P
                 ((if truthy (log_dir cfg) && negb (evaluate_only cfg)
                   then [add_graph] else []) ++ evs) = false).
  { intros P Hgraph Hclose.
    assert (He : existsb P
                   ((if truthy (log_dir cfg) && negb (evaluate_only cfg)
                     then [add_graph] else []) ++ evs) = false).
    { rewrite existsb_app. apply orb_false_iff. split.
      - destruct (_ && negb _); [|reflexivity]. cbn [existsb]. now rewrite Hgraph.
      - apply forallb_not_existsb.
        apply (forallb_implies is_close); [|exact Hevs].
        intros [m|b lrs pr|p|st p| |t x e|]; try discriminate.
        intros _. now rewrite Hclose. }
    split; [now apply filter_none | exact He]. }
  rewrite (proj1 (Hno is_pass eq_refl eq_refl)).
  rewrite (proj2 (Hno is_save eq_refl eq_refl)).
  repeat split; assumption.
Qed.

Lemma evaluation_only_runs_witness :
  let r := @evaluate_and_train Sample.collaborators Sample.evaluating_config
             (Fin 2) ["features.0.weight"; "classifier.bias"]%string 0 (Fin 0)
             (@initial Sample.collaborators Sample.evaluating_config ∅ 0) in
  fst r = inr tt
  /\ existsb is_save
       (new_events (@initial Sample.collaborators Sample.evaluating_config ∅ 0)
          (snd r)) = false
  /\ files (snd r) = ∅.
Proof.
  pose proof (@evaluation_only_runs Sample.collaborators
                Sample.evaluating_config (Fin 2)
                ["features.0.weight"; "classifier.bias"]%string 0 (Fin 0)
                (@initial Sample.collaborators Sample.evaluating_config ∅ 0)
                (or_introl eq_refl)) as (Hr & _ & Hs & Hf & _).
  exact (conj Hr (conj Hs Hf)).
Defined.

(** ** The learning rate of a run that starts at any epoch *)

Lemma view_lr `{Collaborators} (cfg : Config) (input_range : num)
    (epoch : Z) (lr0 : num) (s : Run) :
  (epoch mod 30 <> 0 -> lr0 = get_lr cfg epoch) ->
  v_lr (epoch_view cfg input_range epoch lr0 s) = get_lr cfg epoch.
Proof.
  intros Hinv. unfold epoch_view. cbn [v_lr].
  destruct (Z.eqb_spec (epoch mod 30) 0) as [Hm|Hm]; [reflexivity|].
  now apply Hinv.
Qed.

(** Along the loop the epochs are consecutive and the variable [lr] holds
    the learning rate of the block of thirty epochs. *)
Lemma reaches_lr `{Collaborators} (cfg : Config) (input_range : num)
    (keys : list string) (n : Z) (l0 l : Loop) :
  reaches cfg input_range keys l0 l ->
  forall e0,
    l_epochs l0 = range e0 n ->
    (e0 mod 30 <> 0 -> l_lr l0 = get_lr cfg e0) ->
    exists e,
      e0 <= e /\ l_epochs l = range e n
      /\ (e mod 30 <> 0 -> l_lr l = get_lr cfg e).
Proof.
  induction 1 as [l|l l1 l2 Hstep _ IH]; intros e0 He0 Hinv.
  - exists e0. split; [lia | now split].
  - unfold loop_step in Hstep. rewrite He0 in Hstep.
    destruct (range e0 n) as [|epoch epochs'] eqn:Er; [discriminate|].
    apply range_head in Er as [-> ->].
    destruct (epoch_body_cases cfg input_range keys e0 (l_lr l)
                (l_best_acc1 l) (l_run l)) as (Hr & _).
    destruct (epoch_body _ _ _ _ _ _ _) as [[x|[lr' b|]] s']; try discriminate.
    injection Hstep as <-. cbn [fst] in Hr.
    destruct (_ && negb (can_write _ _)); [discriminate|].
    destruct (meter_ne _ _); [discriminate|].
    injection Hr as -> _.
    destruct (IH (e0 + 1)) as (e & Hle & Hl & Hlr).
    + reflexivity.
    + intros Hm. cbn [l_lr]. rewrite (get_lr_next _ _ Hm).
      destruct (Z.eqb_spec (e0 mod 30) 0); [reflexivity | now apply Hinv].
    + exists e. split; [lia | now split].
Qed.

(** X13. Whatever the first epoch of the loop (0, or the epoch of a
    checkpoint), the line printed for an epoch and the scalar
    [Train/LearingRate] logged for it carry [get_lr epoch], the learning
    rate of the schedule at that epoch. *)
Theorem epoch_line_shows_the_schedule `{Collaborators} (cfg : Config)
    (input_range : num) (keys : list string) (start_epoch n : Z)
    (l0 l : Loop) (epoch : Z) (epochs' : list Z) :
  l_epochs l0 = range start_epoch n ->
  l_lr l0 = get_lr cfg start_epoch ->
  reaches cfg input_range keys l0 l ->
  l_epochs l = epoch :: epochs' ->
  let v := epoch_view cfg input_range epoch (l_lr l) (l_run l) in
  let r := epoch_body cfg input_range keys epoch (l_lr l) (l_best_acc1 l)
             (l_run l) in
  start_epoch <= epoch < n
  /\ In (print (epoch_line (epoch + 1) (get_lr cfg epoch) (losses (v_train v))
                  (top1 (v_train v)) (losses (v_val v)) (top1 (v_val v))))
        (new_events (l_run l) (snd r))
  /\ (truthy (log_dir cfg) = true ->
      In (add_scalar "Train/LearingRate" (get_lr cfg epoch) epoch)
         (new_events (l_run l) (snd r))).
Proof.
  intros Hl0 Hlr0 Hreach Hl v r.
  destruct (reaches_lr cfg input_range keys n l0 l Hreach start_epoch Hl0
              (fun _ => Hlr0)) as (e & He & Hle & Hlr).
  rewrite Hl in Hle.
  assert (Hen : e < n).
  { destruct (Z_lt_le_dec e n) as [Hlt|Hge]; [exact Hlt|].
    now rewrite (range_nil _ _ Hge) in Hle. }
  symmetry in Hle. apply range_head in Hle as [-> _].
  split; [lia|].
  destruct (epoch_body_cases cfg input_range keys e (l_lr l)
              (l_best_acc1 l) (l_run l)) as (_ & Ho & _).
  pose proof (view_lr cfg input_range e (l_lr l) (l_run l) Hlr) as Hv.
  unfold r, new_events. rewrite Ho, skipn_length_app.
  unfold view_events. cbv zeta. fold v. fold v in Hv. rewrite Hv.
  split.
  - apply in_or_app. left. apply in_or_app. left.
    right. right. now left.
  - intros Hlog. rewrite Hlog. apply in_or_app. left. apply in_or_app. right.
    unfold scalars. now left.
Qed.

Lemma epoch_line_shows_the_schedule_witness :
  let v := @epoch_view Sample.collaborators Sample.long_config (Fin 2) 46
             (l_lr Sample.loop46) (l_run Sample.loop46) in
  In (print (epoch_line (46 + 1) (get_lr Sample.long_config 46)
               (losses (v_train v)) (top1 (v_train v))
               (losses (v_val v)) (top1 (v_val v))))
     (new_events (l_run Sample.loop46)
        (snd (@epoch_body Sample.collaborators Sample.long_config (Fin 2)
                ["features.0.weight"; "classifier.bias"]%string 46
                (l_lr Sample.loop46) (l_best_acc1 Sample.loop46)
                (l_run Sample.loop46)))).
Proof.
  assert (Hreach : @reaches Sample.collaborators Sample.long_config (Fin 2)
                     ["features.0.weight"; "classifier.bias"]%string
                     Sample.loop45 Sample.loop46).
  { eapply reaches_next; [|apply reaches_here]. vm_compute. reflexivity. }
  assert (Hl : l_epochs Sample.loop46 = [46]) by (vm_compute; reflexivity).
  exact (proj1 (proj2 (@epoch_line_shows_the_schedule Sample.collaborators
                         Sample.long_config (Fin 2)
                         ["features.0.weight"; "classifier.bias"]%string
                         45 47 Sample.loop45 Sample.loop46 46 [] eq_refl
                         eq_refl Hreach Hl))).
Defined.

(** ** The parameter groups along the loop *)

Lemma set_group_lr_fields (x : num) (gs : list ParamGroup) :
  map momentum (map (set_group_lr x) gs) = map momentum gs
  /\ map weight_decay (map (set_group_lr x) gs) = map weight_decay gs.
Proof. rewrite !map_map. split; reflexivity. Qed.

Lemma loop_step_param_groups `{Collaborators} (cfg : Config)
    (input_range : num) (keys : list string) (l l' : Loop) (epoch : Z)
    (epochs' : list Z) :
  l_epochs l = epoch :: epochs' ->
  loop_step cfg input_range keys l = Some l' ->
  l_epochs l' = epochs'
  /\ param_groups (optimizer (l_run l'))
     = param_groups (optimizer (decayed cfg epoch (l_run l))).
Proof.
  intros Hl Hstep. unfold loop_step in Hstep. rewrite Hl in Hstep.
  destruct (epoch_body_cases cfg input_range keys epoch (l_lr l)
              (l_best_acc1 l) (l_run l)) as (_ & _ & _ & _ & Hopt).
  destruct (epoch_body _ _ _ _ _ _ _) as [[x|[lr' b|]] s']; try discriminate.
  injection Hstep as <-. cbn [snd l_epochs l_run] in *.
  split; [reflexivity|]. rewrite Hopt. apply view_param_groups.
Qed.

(** X14. The epoch loop changes nothing in the parameter groups of the
    optimizer but [lr]: the momentum and the weight decay of every group
    stay as they were.  The groups change at the epochs that are multiples
    of 30 only: a loop that starts inside a block of thirty epochs (a
    resumed run) trains with the groups of its optimizer as they are until
    the next multiple of 30. *)
Theorem loop_changes_only_lr `{Collaborators} (cfg : Config)
    (input_range : num) (keys : list string) (e0 n : Z) (l0 l : Loop) :
  l_epochs l0 = range e0 n ->
  reaches cfg input_range keys l0 l ->
  map momentum (param_groups (optimizer (l_run l)))
  = map momentum (param_groups (optimizer (l_run l0)))
  /\ map weight_decay (param_groups (optimizer (l_run l)))
     = map weight_decay (param_groups (optimizer (l_run l0)))
  /\ exists e,
       e0 <= e /\ l_epochs l = range e n
       /\ ((forall k, e0 <= k < e -> k mod 30 <> 0) ->
           param_groups (optimizer (l_run l))
           = param_groups (optimizer (l_run l0))).
Proof.
  intros Hl0 Hreach. revert e0 Hl0.
  induction Hreach as [l|l l1 l2 Hstep _ IH]; intros e0 Hl0.
  - split; [reflexivity|]. split; [reflexivity|].
    exists e0. split; [lia | now split].
  - assert (Hne : exists epoch epochs', l_epochs l = epoch :: epochs').
    { unfold loop_step in Hstep. destruct (l_epochs l) as [|epoch epochs'];
        [discriminate | eauto]. }
    destruct Hne as (epoch & epochs' & Hl).
    destruct (loop_step_param_groups cfg input_range keys l l1 epoch epochs'
                Hl Hstep) as [Hl1 Hg].
    rewrite Hl0 in Hl. apply range_head in Hl as [-> ->].
    destruct (IH (e0 + 1) Hl1) as (Hm & Hw & e & He & Hle & Hsame).
    assert (Hd : map momentum (param_groups (optimizer (decayed cfg e0 (l_run l))))
                 = map momentum (param_groups (optimizer (l_run l)))
                 /\ map weight_decay
                      (param_groups (optimizer (decayed cfg e0 (l_run l))))
                    = map weight_decay (param_groups (optimizer (l_run l)))).
    { unfold decayed. destruct (e0 mod 30 =? 0); [|now split].
      cbn [optimizer param_groups]. apply set_group_lr_fields. }
    destruct Hd as [Hdm Hdw].
    split; [now rewrite Hm, Hg|]. split; [now rewrite Hw, Hg|].
    exists e. split; [lia|]. split; [exact Hle|].
    intros Hk. rewrite Hsame by (intros k Hk'; apply Hk; lia).
    rewrite Hg. unfold decayed.
    now rewrite (proj2 (Z.eqb_neq _ _) (Hk e0 ltac:(lia))).
Qed.

Lemma loop_changes_only_lr_witness :
  map momentum (param_groups (optimizer (l_run Sample.loop46)))
  = map momentum (param_groups (optimizer (l_run Sample.loop45)))
  /\ map weight_decay (param_groups (optimizer (l_run Sample.loop46)))
     = map weight_decay (param_groups (optimizer (l_run Sample.loop45)))
  /\ exists e,
       45 <= e /\ l_epochs Sample.loop46 = range e 47
       /\ ((forall k, 45 <= k < e -> k mod 30 <> 0) ->
           param_groups (optimizer (l_run Sample.loop46))
           = param_groups (optimizer (l_run Sample.loop45))).
Proof.
  assert (Hreach : @reaches Sample.collaborators Sample.long_config (Fin 2)
                     ["features.0.weight"; "classifier.bias"]%string
                     Sample.loop45 Sample.loop46).
  { eapply reaches_next; [|apply reaches_here]. vm_compute. reflexivity. }
  exact (@loop_changes_only_lr Sample.collaborators Sample.long_config (Fin 2)
           ["features.0.weight"; "classifier.bias"]%string 45 47
           Sample.loop45 Sample.loop46 eq_refl Hreach).
Defined.

(** ** The model that an epoch leaves and saves *)

(** X15. After an epoch, however it ends, the model is in evaluation mode
    and has the entries that the training pass of the epoch left, and the
    optimizer is as that pass left it: the validation pass changes
    neither.  A checkpoint saved in the epoch is saved at the checkpoint
    path and holds [epoch + 1], the validation accuracy of the epoch, that
    optimizer and, under the names [keys] taken before the wrapping in
    [nn.DataParallel], in order, those entries. *)
Theorem epoch_saves_the_trained_model `{Collaborators} (cfg : Config)
    (input_range : num) (keys : list string) (epoch : Z) (lr0 best_acc1 : num)
    (s : Run) :
  let v := epoch_view cfg input_range epoch lr0 s in
  let r := epoch_body cfg input_range keys epoch lr0 best_acc1 s in
  net (snd r) = train false (p_net (v_train v))
  /\ optimizer (snd r) = p_optimizer (v_train v)
  /\ forall state path,
       In (torch_save state path) (new_events s (snd r)) ->
       path = checkpoint_path cfg
       /\ Checkpoint.epoch state = epoch + 1
       /\ Checkpoint.best_acc1 state = AverageMeter.avg (top1 (v_val v))
       /\ Checkpoint.optimizer state = p_optimizer (v_train v)
       /\ Checkpoint.state_dict state
          = dict_of_pairs (zip keys (values (weights (p_net (v_train v))))).
Proof.
  cbv zeta.
  destruct (epoch_body_cases cfg input_range keys epoch lr0 best_acc1 s)
    as (_ & Ho & _ & Hn & Hopt).
  destruct (view_model cfg input_range epoch lr0 s) as (Hvn & Hvo & _).
  cbv zeta in Hvn, Hvo.
  split; [now rewrite Hn|]. split; [now rewrite Hopt|].
  intros state path Hin. unfold new_events in Hin.
  rewrite Ho, skipn_length_app in Hin.
  assert (Hs : In (torch_save state path)
                 (List.filter is_save
                    (view_events cfg input_range epoch lr0 s
                     ++ tail_events cfg keys epoch best_acc1
                          (epoch_view cfg input_range epoch lr0 s)))).
  { apply filter_In. now split. }
  rewrite List.filter_app in Hs.
  rewrite (filter_none _ _ (view_events_no_save cfg input_range epoch lr0 s))
    in Hs.
  cbn [app] in Hs. rewrite tail_events_filter in Hs.
  destruct (_ && negb (String.eqb _ _)); [|destruct Hs].
  destruct Hs as [Hs|[]].
  match type of Hs with
  | torch_save ?st ?p = _ =>
      assert (Hst : state = st) by congruence;
      assert (Hpath : path = p) by congruence
  end.
  rewrite Hst, Hpath. unfold checkpoint_of.
  cbn [Checkpoint.epoch Checkpoint.best_acc1 Checkpoint.optimizer
       Checkpoint.state_dict].
  rewrite values_state_dict, Hvn, Hvo. repeat split.
Qed.

Lemma epoch_saves_the_trained_model_witness :
  let v := @epoch_view Sample.collaborators Sample.saving_config (Fin 2) 0
             (Fin (1 # 10)) Sample.saving_run in
  let state :=
    @checkpoint_of ["features.0.weight"; "classifier.bias"]%string 0
      (AverageMeter.avg (top1 (v_val v))) (v_run v) in
  Checkpoint.epoch state = 0 + 1
  /\ Checkpoint.best_acc1 state = AverageMeter.avg (top1 (v_val v))
  /\ Checkpoint.optimizer state = p_optimizer (v_train v)
  /\ Checkpoint.state_dict state
     = dict_of_pairs (zip ["features.0.weight"; "classifier.bias"]%string
                        (values (weights (p_net (v_train v))))).
Proof.
  assert (Hin : In (torch_save
                      (@checkpoint_of
                         ["features.0.weight"; "classifier.bias"]%string 0
                         (AverageMeter.avg
                            (top1 (v_val (@epoch_view Sample.collaborators
                                            Sample.saving_config (Fin 2) 0
                                            (Fin (1 # 10)) Sample.saving_run))))
                         (v_run (@epoch_view Sample.collaborators
                                   Sample.saving_config (Fin 2) 0
                                   (Fin (1 # 10)) Sample.saving_run)))
                      "ck.pt")
                  (new_events Sample.saving_run
                     (snd (@epoch_body Sample.collaborators
                             Sample.saving_config (Fin 2)
                             ["features.0.weight"; "classifier.bias"]%string
                             0 (Fin (1 # 10)) (Fin 0) Sample.saving_run)))).
  { vm_compute. do 3 right. left. reflexivity. }
  exact (proj2 (proj2 (proj2 (@epoch_saves_the_trained_model
                                Sample.collaborators Sample.saving_config
                                (Fin 2)
                                ["features.0.weight"; "classifier.bias"]%string
                                0 (Fin (1 # 10)) (Fin 0) Sample.saving_run))
                  _ _ Hin)).
Defined.

(** ** The two clocks of a pass *)

Lemma one_batch_end `{Collaborators}
    (criterion : Matrix -> Targets -> num) (optimizer : option OptProg)
    (preporcess : Batch -> Batch) (epsilon factor temperature : num)
    (st : num * Pass) (b : Batch) :
  fst (one_batch criterion optimizer preporcess epsilon factor temperature st b)
  = time (S (S (p_clock (snd st)))).
Proof.
  destruct (one_batch_meters criterion optimizer preporcess epsilon factor
              temperature st b) as (_ & _ & _ & _ & _ & Hc).
  cbv zeta in Hc.
  assert (Hp : fst (one_batch criterion optimizer preporcess epsilon factor
                      temperature st b)
               = time (Nat.pred
                         (p_clock (snd (one_batch criterion optimizer preporcess
                                          epsilon factor temperature st b))))).
  { destruct st as [end_ s]. unfold one_batch. cbn [read_clock].
    cbv iota beta. destruct (preporcess b) as [inputs targets].
    destruct optimizer as [p|].
    - destruct (step p _ _) as [x s1]. reflexivity.
    - destruct (snd _) as [x s1]. reflexivity. }
  rewrite Hp, Hc. reflexivity.
Qed.

Section PassClocks.

Context `{Collaborators}.

Variable criterion : Matrix -> Targets -> num.
Variable optimizer : option OptProg.
Variable preporcess : Batch -> Batch.
Variables epsilon factor temperature : num.

(** The clock gives finite readings that never go back. *)
Variable t : nat -> Q.
Hypothesis time_is_finite : forall i, time i = Fin (t i).
Hypothesis time_goes_on : forall i, (t i <= t (S i))%Q.

Lemma one_batch_clocks (c0 k : nat) (count : Z) (st : num * Pass) (b : Batch) :
  clocks_agree t c0 k count st ->
  clocks_agree t c0 (3 + k) (count + 1)
    (one_batch criterion optimizer preporcess epsilon factor temperature st b).
Proof.
  intros (d & bt & Hc & He & Hd & Hb & Hcd & Hcb & H0 & Hle & Hup).
  destruct (one_batch_meters criterion optimizer preporcess epsilon factor
              temperature st b) as (_ & _ & _ & Hdt & Hbt & Hclock).
  cbv zeta in Hdt, Hbt, Hclock.
  pose proof (one_batch_end criterion optimizer preporcess epsilon factor
                temperature st b) as Hend.
  rewrite Hc, He, !time_is_finite in *.
  pose proof (time_goes_on k). pose proof (time_goes_on (S k)).
  pose proof (time_goes_on (S (S k))).
  exists (d + (t (S k) + - t k) * 1)%Q, (bt + (t (S (S k)) + - t k) * 1)%Q.
  rewrite Hdt, Hbt, Hclock, Hend.
  cbn [AverageMeter.update AverageMeter.sum AverageMeter.count].
  rewrite Hd, Hb, Hcd, Hcb.
  repeat split; try reflexivity; cbn [plus]; lra.
Qed.

Lemma fold_batches_clocks (c0 : nat) (bs : list Batch) (k : nat) (count : Z)
    (st : num * Pass) :
  clocks_agree t c0 k count st ->
  clocks_agree t c0 (k + 3 * length bs) (count + Z.of_nat (length bs))
    (fold_left (one_batch criterion optimizer preporcess epsilon factor
                  temperature) bs st).
Proof.
  revert k count st. induction bs as [|b bs IH]; intros k count st Hst.
  - cbn [fold_left length]. now rewrite Nat.mul_0_r, Nat.add_0_r, Z.add_0_r.
  - cbn [fold_left length].
    replace (k + 3 * S (length bs))%nat with (3 + k + 3 * length bs)%nat by lia.
    replace (count + Z.of_nat (S (length bs)))
      with (count + 1 + Z.of_nat (length bs)) by lia.
    now apply IH, one_batch_clocks.
Qed.

End PassClocks.

(** X17. The two time meters of a pass.  When the clock gives finite
    readings that never go back, the average [Time/BatchTotal] of a pass
    is at least its average [Time/BatchData], which is at least zero, and
    the sum of the batch times is at most the time between the first and
    the last reading of the clock in the pass. *)
Theorem batch_time_covers_data_time `{Collaborators}
    (criterion : Matrix -> Targets -> num) (optimizer : option OptProg)
    (preporcess : Batch -> Batch) (epsilon factor temperature : num)
    (t : nat -> Q) (train_loader : list Batch) (net : Net) (o : Optimizer)
    (clock : nat) :
  (forall i, time i = Fin (t i)) ->
  (forall i, (t i <= t (S i))%Q) ->
  let s := run_batches criterion optimizer preporcess epsilon factor
             temperature train_loader net o clock in
  nge (AverageMeter.avg (batch_time s)) (AverageMeter.avg (data_time s)) = true
  /\ nge (AverageMeter.avg (data_time s)) (Fin 0) = true
  /\ exists total,
       AverageMeter.sum (batch_time s) = Fin total
       /\ (total <= t (clock + 3 * length train_loader)%nat - t clock)%Q.
Proof.
  intros Hfin Hmono. cbv zeta. unfold run_batches.
  assert (H0 : clocks_agree t clock clock 0
                 (read_clock (fresh_pass optimizer net o clock))).
  { exists 0%Q, 0%Q. cbn [read_clock fresh_pass fst snd p_clock data_time
                         batch_time AverageMeter.new AverageMeter.sum
                         AverageMeter.count].
    rewrite Hfin. repeat split; try reflexivity; lra. }
  pose proof (fold_batches_clocks criterion optimizer preporcess epsilon factor
                temperature t Hfin Hmono clock train_loader clock 0 _ H0)
    as (d & b & _ & _ & Hd & Hb & Hcd & Hcb & Hd0 & Hdb & Hup).
  set (s := snd (fold_left _ train_loader _)) in *.
  rewrite Z.add_0_l in Hcd, Hcb.
  unfold AverageMeter.avg. rewrite Hd, Hb, Hcd, Hcb.
  split; [|split].
  - destruct (Z.of_nat (length train_loader) =? 0) eqn:En;
      [apply nge_Fin, Qle_refl|].
    apply Z.eqb_neq in En.
    assert (Hn : (0 < inject_Z (Z.of_nat (length train_loader)))%Q).
    { change 0%Q with (inject_Z 0). rewrite <- Zlt_Qlt. lia. }
    unfold num_of_Z, ndiv.
    assert (Hz : Qeq_bool (inject_Z (Z.of_nat (length train_loader))) 0 = false).
    { destruct (Qeq_bool _ 0) eqn:E; [|reflexivity].
      apply Qeq_bool_iff in E. rewrite E in Hn. now apply Qlt_irrefl in Hn. }
    rewrite Hz. apply nge_Fin. unfold Qdiv.
    apply Qmult_le_compat_r; [exact Hdb|].
    now apply Qlt_le_weak, Qinv_lt_0_compat.
  - destruct (Z.of_nat (length train_loader) =? 0) eqn:En;
      [apply nge_Fin, Qle_refl|].
    apply Z.eqb_neq in En.
    assert (Hn : (0 < inject_Z (Z.of_nat (length train_loader)))%Q).
    { change 0%Q with (inject_Z 0). rewrite <- Zlt_Qlt. lia. }
    unfold num_of_Z, ndiv.
    assert (Hz : Qeq_bool (inject_Z (Z.of_nat (length train_loader))) 0 = false).
    { destruct (Qeq_bool _ 0) eqn:E; [|reflexivity].
      apply Qeq_bool_iff in E. rewrite E in Hn. now apply Qlt_irrefl in Hn. }
    rewrite Hz. apply nge_Fin. unfold Qdiv.
    apply Qmult_le_0_compat; [exact Hd0|].
    now apply Qlt_le_weak, Qinv_lt_0_compat.
  - exists b. now split.
Qed.

Lemma batch_time_covers_data_time_witness :
  let s := @run_batches Sample.collaborators Sample.cross_entropy None
             (fun b => b) (Fin 0) (Fin 0) (Fin 1)
             [Sample.batch_a; Sample.batch_b] Sample.the_net
             (SGD (Fin (1 # 10)) (Fin 0) (Fin 0)) 0 in
  nge (AverageMeter.avg (batch_time s)) (AverageMeter.avg (data_time s)) = true
  /\ nge (AverageMeter.avg (data_time s)) (Fin 0) = true.
Proof.
  assert (Hfin : forall i, @time Sample.collaborators i
                           = Fin (inject_Z (Z.of_nat i))) by reflexivity.
  assert (Hmono : forall i, (inject_Z (Z.of_nat i)
                             <= inject_Z (Z.of_nat (S i)))%Q).
  { intros i. rewrite <- Zle_Qle. lia. }
  pose proof (@batch_time_covers_data_time Sample.collaborators
                Sample.cross_entropy None (fun b => b) (Fin 0) (Fin 0) (Fin 1)
                (fun i => inject_Z (Z.of_nat i))
                [Sample.batch_a; Sample.batch_b] Sample.the_net
                (SGD (Fin (1 # 10)) (Fin 0) (Fin 0)) 0 Hfin Hmono)
    as (Hb & Hd & _).
  exact (conj Hb Hd).
Defined.

(** ** The passes of a run *)

Lemma pass_kinds_app (evs evs' : list Event) :
  pass_kinds (evs ++ evs') = pass_kinds evs ++ pass_kinds evs'.
Proof. apply flat_map_app. Qed.

Lemma pass_kinds_none (evs : list Event) :
  existsb is_pass evs = false -> pass_kinds evs = [].
Proof.
  induction evs as [|ev evs IH]; [reflexivity|]. cbn [existsb].
  intros [Hev Hevs]%orb_false_iff. unfold pass_kinds. cbn [flat_map].
  fold (pass_kinds evs). rewrite (IH Hevs).
  now destruct ev.
Qed.

Section RunPasses.

Context `{Collaborators}.

Variable cfg : Config.
Variable input_range : num.
Variable keys : list string.

Lemma tail_events_no_pass (epoch : Z) (best : num) (v : EpochView) :
  existsb is_pass (tail_events cfg keys epoch best v) = false.
Proof.
  unfold tail_events. cbv zeta. rewrite existsb_app.
  destruct (_ && negb (String.eqb _ _)); cbn [existsb is_pass orb];
    now destruct (_ && meter_ne _ _).
Qed.

(** An epoch, however it ends, is a training pass and then an evaluation. *)
Lemma epoch_passes (epoch : Z) (lr0 best : num) (s : Run) :
  exists evs,
    out (snd (epoch_body cfg input_range keys epoch lr0 best s)) = out s ++ evs
    /\ pass_kinds evs = [true; false].
Proof.
  destruct (epoch_body_cases cfg input_range keys epoch lr0 best s)
    as (_ & Ho & _).
  eexists. split; [exact Ho|].
  destruct (view_events_shape cfg input_range epoch lr0 s)
    as (lrs & lrs' & rest & Hv & Hrest & _).
  rewrite Hv, pass_kinds_app.
  rewrite (pass_kinds_none _ (tail_events_no_pass epoch best _)).
  unfold pass_kinds. cbn [flat_map app]. fold (pass_kinds rest).
  now rewrite (pass_kinds_none _ Hrest).
Qed.

Lemma epoch_loop_passes (epochs : list Z) (lr0 best : num) (s : Run) :
  exists k evs,
    (k <= length epochs)%nat
    /\ out (snd (epoch_loop cfg input_range keys epochs lr0 best s))
       = out s ++ evs
    /\ pass_kinds evs = concat (repeat [true; false] k).
Proof.
  revert lr0 best s. induction epochs as [|epoch epochs IH]; intros lr0 best s.
  - exists 0%nat, []. cbn [epoch_loop ret snd]. rewrite app_nil_r.
    repeat split. cbn [length]. lia.
  - rewrite epoch_loop_cons.
    destruct (epoch_passes epoch lr0 best s) as (evs & Ho & Hk).
    destruct (epoch_body cfg input_range keys epoch lr0 best s)
      as [[e|[lr' b|]] s']; cbn [snd] in *.
    + exists 1%nat, evs. cbn [length]. split; [lia|]. now split.
    + destruct (IH lr' b s') as (k & evs' & Hle & Ho' & Hk').
      exists (S k), (evs ++ evs'). cbn [length]. split; [lia|]. split.
      * now rewrite Ho', Ho, app_assoc.
      * rewrite pass_kinds_app, Hk, Hk'. reflexivity.
    + exists 1%nat, evs. cbn [length]. split; [lia|]. now split.
Qed.

End RunPasses.

(** X18. The passes of a run, from the wrapping in [nn.DataParallel] on:
    one evaluation, then for each epoch that is begun a training pass
    followed by an evaluation, whatever ends the epoch or the run.  No
    more epochs are begun than [epochs - start_epoch], and none by a run
    that only evaluates. *)
Theorem passes_of_a_run `{Collaborators} (cfg : Config) (input_range : num)
    (keys : list string) (start_epoch : Z) (best_acc1 : num) (s : Run) :
  let r := evaluate_and_train cfg input_range keys start_epoch best_acc1 s in
  exists k,
    pass_kinds (new_events s (snd r)) = false :: concat (repeat [true; false] k)
    /\ Z.of_nat k <= Z.max 0 (epochs cfg - start_epoch)
    /\ (evaluate_only cfg = true -> k = 0%nat).
Proof.
  cbv zeta. rewrite evaluate_and_train_loop.
  destruct (evaluated_frame cfg input_range s) as [_ Ho]. cbv zeta in Ho.
  set (first := [_; _] ++ _) in Ho.
  assert (Hfirst : pass_kinds first = [false]).
  { unfold first. now destruct (_ && negb _). }
  clearbody first.
  destruct (evaluate_only cfg) eqn:Eev.
  - exists 0%nat. cbn [snd repeat concat]. unfold new_events.
    rewrite Ho, skipn_length_app.
    split; [exact Hfirst|]. split; [lia | reflexivity].
  - unfold run_loop, first_loop. cbn [l_epochs l_lr l_best_acc1 l_run].
    destruct (epoch_loop_passes cfg input_range keys
                (range start_epoch (epochs cfg)) (get_lr cfg start_epoch)
                best_acc1 (evaluated cfg input_range s))
      as (k & evs & Hle & Hout & Hk).
    exists k. split; [|split; [|discriminate]].
    + assert (Hnew : forall tail,
                existsb is_pass tail = false ->
                pass_kinds (skipn (length (out s))
                              ((out (evaluated cfg input_range s) ++ evs)
                               ++ tail))
                = false :: concat (repeat [true; false] k)).
      { intros tail Htail.
        rewrite Ho, <- !app_assoc, skipn_length_app, !pass_kinds_app.
        rewrite Hfirst, Hk, (pass_kinds_none _ Htail).
        now rewrite app_nil_r. }
      unfold new_events.
      destruct (epoch_loop _ _ _ _ _ _ _) as [[e|[]] s']; cbn [snd] in *.
      * rewrite Hout, <- (app_nil_r (_ ++ evs)). now apply Hnew.
      * destruct (truthy (log_dir cfg)); cbn [emit_all out]; rewrite Hout.
        -- now apply Hnew.
        -- rewrite <- (app_nil_r (_ ++ evs)). now apply Hnew.
    + unfold range in Hle. rewrite length_map, length_seq in Hle. lia.
Qed.

(** X19. A run that resumes from a checkpoint that the model and the
    optimizer accept goes on from the epoch and the best accuracy of the
    checkpoint, with the entries of the checkpoint in the model and with
    the optimizer of the checkpoint in place of the one constructed from
    [learning_rate], [momentum] and [weight_decay]. *)
Theorem resumed_run_uses_the_checkpoint `{Collaborators} (cfg : Config)
    (fs : gmap string File) (clock : nat) (ir : num) (state : Checkpoint.t)
    (n : Net) :
  input_range cfg = Some ir ->
  fs !! resume_path cfg = Some (CheckpointFile state) ->
  load_state_dict (Checkpoint.state_dict state) (created_net cfg) = Some n ->
  length (param_groups (Checkpoint.optimizer state)) = 1%nat ->
  let prelude :=
    (if (0 <? length (devices))%nat
     then [print (using_gpus (length devices))] else [])
    ++ [print (if pretrained cfg then using_pretrained_model (model cfg)
               else creating_model (model cfg))] in
  train_classifier cfg fs clock
  = evaluate_and_train cfg ir (keys (state_dict (created_net cfg)))
      (Checkpoint.epoch state) (Checkpoint.best_acc1 state)
      {| net := n; optimizer := Checkpoint.optimizer state; files := fs;
         clock := clock; passes := 0;
         out := prelude
                ++ [print (loading_checkpoint (resume_path cfg));
                    torch_load (resume_path cfg);
                    print (loaded_checkpoint (resume_path cfg)
                             (Checkpoint.epoch state))] |}.
Proof.
  intros Hir Hf Hn Hg prelude.
  apply (train_classifier_fresh_start cfg fs clock ir
           (Checkpoint.epoch state, Checkpoint.best_acc1 state) _ Hir).
  rewrite (resume_checkpoint_loads cfg _ state n (Checkpoint.optimizer state));
    try assumption.
  - reflexivity.
  - unfold optimizer_load_state_dict.
    cbn [emit_all optimizer initial SGD param_groups].
    change (length [_]) with 1%nat. now rewrite Hg.
Qed.

Lemma resumed_run_uses_the_checkpoint_witness :
  let state :=
    @checkpoint_of ["features.0.weight"; "classifier.bias"]%string 4
      (AverageMeter.avg Sample.half_right) Sample.saving_run in
  exists s0,
    @train_classifier Sample.collaborators Sample.resuming_config
      (files Sample.resuming_run) 0
    = @evaluate_and_train Sample.collaborators Sample.resuming_config
        Sample.the_input_range
        (keys (state_dict (@created_net Sample.collaborators
                             Sample.resuming_config)))
        (Checkpoint.epoch state) (Checkpoint.best_acc1 state) s0
    /\ optimizer s0 = Checkpoint.optimizer state
    /\ files s0 = files Sample.resuming_run.
Proof.
  cbv zeta.
  assert (Hir : @input_range Sample.collaborators Sample.resuming_config
                = Some Sample.the_input_range) by (vm_compute; reflexivity).
  assert (Hf : files Sample.resuming_run
                 !! @resume_path Sample.collaborators Sample.resuming_config
               = Some (CheckpointFile
                         (@checkpoint_of
                            ["features.0.weight"; "classifier.bias"]%string 4
                            (AverageMeter.avg Sample.half_right)
                            Sample.saving_run)))
    by (vm_compute; reflexivity).
  assert (Hn : load_state_dict
                 (Checkpoint.state_dict
                    (@checkpoint_of
                       ["features.0.weight"; "classifier.bias"]%string 4
                       (AverageMeter.avg Sample.half_right) Sample.saving_run))
                 (@created_net Sample.collaborators Sample.resuming_config)
               = Some (@created_net Sample.collaborators Sample.resuming_config))
    by (vm_compute; reflexivity).
  assert (Hg : length (param_groups
                         (Checkpoint.optimizer
                            (@checkpoint_of
                               ["features.0.weight"; "classifier.bias"]%string
                               4 (AverageMeter.avg Sample.half_right)
                               Sample.saving_run))) = 1%nat)
    by reflexivity.
  eexists. split.
  - exact (@resumed_run_uses_the_checkpoint Sample.collaborators
             Sample.resuming_config (files Sample.resuming_run) 0
             Sample.the_input_range _ _ Hir Hf Hn Hg).
  - split; reflexivity.
Defined.

Lemma passes_of_a_run_witness :
  exists k,
    pass_kinds
      (new_events (@initial Sample.collaborators Sample.evaluating_config ∅ 0)
         (snd (@evaluate_and_train Sample.collaborators
                 Sample.evaluating_config (Fin 2)
                 ["features.0.weight"; "classifier.bias"]%string 0 (Fin 0)
                 (@initial Sample.collaborators Sample.evaluating_config ∅ 0))))
    = false :: concat (repeat [true; false] k)
    /\ k = 0%nat.
Proof.
  destruct (@passes_of_a_run Sample.collaborators Sample.evaluating_config
              (Fin 2) ["features.0.weight"; "classifier.bias"]%string 0
              (Fin 0)
              (@initial Sample.collaborators Sample.evaluating_config ∅ 0))
    as (k & Hk & _ & Hev).
  exists k. split; [exact Hk | exact (Hev eq_refl)].
Defined.

(** ** The checkpoint on disk *)

(** What an iteration of the loop that is followed by another does to the
    best accuracy and to the files, when there is a checkpoint path. *)
Lemma loop_step_checkpoint `{Collaborators} (cfg : Config)
    (input_range : num) (keys : list string) (l l' : Loop) :
  checkpoint_path cfg <> Path "" ->
  loop_step cfg input_range keys l = Some l' ->
  (files (l_run l') = files (l_run l) /\ l_best_acc1 l' = l_best_acc1 l)
  \/ (exists state,
        files (l_run l')
        = <[checkpoint_path cfg := CheckpointFile state]> (files (l_run l))
        /\ Checkpoint.best_acc1 state = l_best_acc1 l'
        /\ nge (l_best_acc1 l') (l_best_acc1 l) = true).
Proof.
  intros Hp Hstep. unfold loop_step in Hstep.
  destruct (l_epochs l) as [|epoch epochs']; [discriminate|].
  destruct (epoch_body_cases cfg input_range keys epoch (l_lr l)
              (l_best_acc1 l) (l_run l)) as (Hr & _ & Hf & _).
  destruct (epoch_body _ _ _ _ _ _ _) as [[e|[lr' b|]] s']; try discriminate.
  injection Hstep as <-. cbn [fst snd l_run l_best_acc1] in *.
  rewrite (proj2 (String.eqb_neq _ _) Hp) in Hr, Hf. cbn [negb] in Hr, Hf.
  rewrite andb_true_r in Hr, Hf.
  destruct (nge _ (l_best_acc1 l)) eqn:Eb; cbn [andb] in Hr, Hf.
  - destruct (can_write _ _); cbn [negb] in Hr, Hf; [|discriminate].
    destruct (meter_ne _ _); [discriminate|].
    assert (Hbest : b = AverageMeter.avg
                          (top1 (v_val (epoch_view cfg input_range epoch
                                          (l_lr l) (l_run l)))))
      by congruence.
    right. eexists. split; [exact Hf|]. rewrite Hbest.
    split; [reflexivity | exact Eb].
  - destruct (meter_ne _ _); [discriminate|].
    left. split; [exact Hf | congruence].
Qed.

(** X20. The checkpoint on disk is that of the best epoch.  Along the epoch
    loop of a run with a checkpoint path, either nothing has been saved
    yet, the files and the best accuracy being those of the start, or the
    checkpoint path holds a checkpoint whose [best_acc1] is the best
    accuracy that the loop holds. *)
Theorem checkpoint_file_holds_the_best `{Collaborators} (cfg : Config)
    (input_range : num) (keys : list string) (l0 l : Loop) :
  checkpoint_path cfg <> Path "" ->
  reaches cfg input_range keys l0 l ->
  (files (l_run l) = files (l_run l0) /\ l_best_acc1 l = l_best_acc1 l0)
  \/ (exists state,
        files (l_run l) !! checkpoint_path cfg = Some (CheckpointFile state)
        /\ Checkpoint.best_acc1 state = l_best_acc1 l
        /\ nge (l_best_acc1 l) (l_best_acc1 l0) = true).
Proof.
  intros Hp Hreach.
  induction Hreach as [l|l l1 l2 Hstep _ IH]; [now left|].
  destruct (loop_step_checkpoint cfg input_range keys l l1 Hp Hstep)
    as [[Hf1 Hb1]|(st1 & Hf1 & Hs1 & Hg1)];
    destruct IH as [[Hf2 Hb2]|(st2 & Hf2 & Hs2 & Hg2)].
  - left. split; congruence.
  - right. exists st2. rewrite <- Hb1. now repeat split.
  - right. exists st1. rewrite Hf2, Hf1, Hb2. split; [|now split].
    apply lookup_insert_eq.
  - right. exists st2. split; [exact Hf2|]. split; [exact Hs2|].
    now apply nge_trans with (l_best_acc1 l1).
Qed.

Lemma checkpoint_file_holds_the_best_witness :
  (files (l_run Sample.loop1) = files (l_run Sample.loop0)
   /\ l_best_acc1 Sample.loop1 = l_best_acc1 Sample.loop0)
  \/ (exists state,
        files (l_run Sample.loop1)
          !! @checkpoint_path Sample.collaborators Sample.saving_config
        = Some (CheckpointFile state)
        /\ Checkpoint.best_acc1 state = l_best_acc1 Sample.loop1
        /\ nge (l_best_acc1 Sample.loop1) (l_best_acc1 Sample.loop0) = true).
Proof.
  assert (Hp : @checkpoint_path Sample.collaborators Sample.saving_config
               <> @Path Sample.collaborators "") by discriminate.
  assert (Hreach : @reaches Sample.collaborators Sample.saving_config (Fin 2)
                     ["features.0.weight"; "classifier.bias"]%string
                     Sample.loop0 Sample.loop1).
  { eapply reaches_next; [|apply reaches_here]. vm_compute. reflexivity. }
  exact (@checkpoint_file_holds_the_best Sample.collaborators
           Sample.saving_config (Fin 2)
           ["features.0.weight"; "classifier.bias"]%string
           Sample.loop0 Sample.loop1 Hp Hreach).
Defined.
